(** * SL1S sanitizer: a shallow embedding of [sl1s_sanitizer.py]

    The development follows the Python source method by method.  Python
    [str] values are modelled by [string], Python [int] by [Z], lists by
    [list], the ordered [dict] of sections of a [ConfigParser] by an
    association list and its option dictionaries by [gmap string].  The
    attributes of an [SL1SSanitizer] object form a record that every
    method transforms.

    A [string] holds one character per byte.  The character classes of
    Python ([\d], [str.lower], [str.strip], [int]) are modelled on the
    ASCII range, where the model follows CPython character by character;
    outside it Python knows further digits, letters and white space.  A
    statement that depends on one of these classes says so by a
    hypothesis [PyStr.isascii] on the texts it reads; a statement
    without one relies on operations that do not look at character
    classes (comparison, prefix, suffix, search for a given character).

    Three library behaviours are modelled from the CPython 3.11 standard
    library: [zipfile] (the name list of an archive and the reading of a
    member), [configparser] (the line parser, the lookups and the default
    %-interpolation) and [re] (the one pattern the sanitizer uses). *)

From Stdlib Require Import ZArith Ascii.
From stdpp Require Import base list list_numbers sorting gmap strings pretty.

(** ** Python string primitives *)

Module PyStr.

Definition LF : ascii := "010"%char.

(** [str.isascii]: every character lies below 128. *)
Definition isascii_char (c : ascii) : bool := (N_of_ascii c <? 128)%N.

(** White space as [str.strip] and the [\s] of [re] see it, on the ASCII
    range: TAB..CR, FS..US and the space.  (Python also counts U+0085,
    U+00A0 and other characters outside ASCII.) *)
Definition isspace (c : ascii) : bool :=
  let n := N_of_ascii c in
  ((9 <=? n) && (n <=? 13) || (28 <=? n) && (n <=? 32))%N.

(** The [\d] of the patterns below and the digits of [int], on the
    ASCII range: 0..9.  (Python also counts the decimal digits of other
    scripts.) *)
Definition isdigit (c : ascii) : bool :=
  let n := N_of_ascii c in ((48 <=? n) && (n <=? 57))%N.

Definition digit_value (c : ascii) : Z := Z.of_N (N_of_ascii c) - 48.

Definition lower_char (c : ascii) : ascii :=
  let n := N_of_ascii c in
  if ((65 <=? n) && (n <=? 90))%N then ascii_of_N (n + 32) else c.

(** [s.lower()] on the ASCII range: A..Z go to a..z.  (Python also
    folds the capital letters of other scripts.) *)
Fixpoint lower (s : string) : string :=
  match s with
  | EmptyString => EmptyString
  | String c s' => String (lower_char c) (lower s')
  end.

Fixpoint forallb (p : ascii → bool) (s : string) : bool :=
  match s with
  | EmptyString => true
  | String c s' => p c && forallb p s'
  end.

(** [s.isascii()] *)
Definition isascii (s : string) : bool := forallb isascii_char s.

(** [c in s] for a one-character string [c] *)
Fixpoint contains_char (c : ascii) (s : string) : bool :=
  match s with
  | EmptyString => false
  | String x s' => Ascii.eqb x c || contains_char c s'
  end.

(** [s.count(c)] for a one-character string [c] *)
Fixpoint count_char (c : ascii) (s : string) : nat :=
  match s with
  | EmptyString => 0
  | String x s' => (if Ascii.eqb x c then 1 else 0) + count_char c s'
  end.

(** [s.startswith(p)] *)
Definition startswith (s p : string) : bool := String.prefix p s.

(** [s.endswith(p)]: some suffix of [s] is [p]. *)
Fixpoint endswith (s p : string) : bool :=
  String.eqb s p ||
  match s with
  | EmptyString => false
  | String _ s' => endswith s' p
  end.

(** [p in s]: [p] is a prefix of some suffix of [s]. *)
Fixpoint contains (s p : string) : bool :=
  String.prefix p s ||
  match s with
  | EmptyString => false
  | String _ s' => contains s' p
  end.

(** [s.lstrip()] and [s.rstrip()] generalised over the stripped set;
    [s.rstrip('_')] is [rstrip_with (Ascii.eqb "_")]. *)
Fixpoint lstrip_with (p : ascii → bool) (s : string) : string :=
  match s with
  | EmptyString => EmptyString
  | String c s' => if p c then lstrip_with p s' else s
  end.

Fixpoint rstrip_with (p : ascii → bool) (s : string) : string :=
  match s with
  | EmptyString => EmptyString
  | String c s' =>
      match rstrip_with p s' with
      | EmptyString => if p c then EmptyString else String c EmptyString
      | r => String c r
      end
  end.

Definition lstrip : string → string := lstrip_with isspace.
Definition rstrip : string → string := rstrip_with isspace.
Definition strip (s : string) : string := lstrip (rstrip s).

(** [s.split(c)[0]]: the text before the first [c]. *)
Fixpoint split_head (c : ascii) (s : string) : string :=
  match s with
  | EmptyString => EmptyString
  | String x s' => if Ascii.eqb x c then EmptyString else String x (split_head c s')
  end.

(** The text after the last [c], all of [s] when [c] does not occur:
    [s.rsplit(c, 1)[-1]]. *)
Fixpoint after_last (c : ascii) (s : string) : string :=
  match s with
  | EmptyString => EmptyString
  | String x s' =>
      if contains_char c s' then after_last c s'
      else if Ascii.eqb x c then s' else s
  end.

(** [os.path.basename] of [posixpath]. *)
Definition basename : string → string := after_last "/".

(** Iterating an [io.StringIO]: lines end at LF and keep it. *)
Fixpoint readlines (s : string) : list string :=
  match s with
  | EmptyString => []
  | String c s' =>
      if Ascii.eqb c LF then String c EmptyString :: readlines s'
      else match readlines s' with
           | [] => [String c EmptyString]
           | l :: ls => String c l :: ls
           end
  end.

(** Index of the first character that is not white space, [0] when
    there is none: [NONSPACECRE.search(line).start()]. *)
Fixpoint indent_of (s : string) : nat :=
  match s with
  | EmptyString => 0
  | String c s' =>
      if isspace c then
        (if forallb isspace s' then 0 else S (indent_of s'))
      else 0
  end.

(** The text before the first character satisfying [p], and the text
    from that character on ([None] when there is none): [s.find]. *)
Fixpoint break_at (p : ascii → bool) (s : string) : string * option string :=
  match s with
  | EmptyString => (EmptyString, None)
  | String x s' =>
      if p x then (EmptyString, Some s)
      else let '(a, b) := break_at p s' in (String x a, b)
  end.

(** The text before the last [c]: what a greedy [.+] followed by [c]
    takes. [None] when [c] does not occur. *)
Fixpoint before_last (c : ascii) (s : string) : option string :=
  match s with
  | EmptyString => None
  | String x s' =>
      match before_last c s' with
      | Some r => Some (String x r)
      | None => if Ascii.eqb x c then Some EmptyString else None
      end
  end.

(** ['\n'.join(l)] *)
Definition join_lines (l : list string) : string :=
  String.concat (String LF EmptyString) l.

(** Value of a run of decimal digits, most significant first. *)
Fixpoint digits_value (acc : Z) (s : string) : Z :=
  match s with
  | EmptyString => acc
  | String c s' => digits_value (10 * acc + digit_value c) s'
  end.

(** Digits with single underscores between them, as [int] accepts. *)
Fixpoint int_body (acc : Z) (after_digit : bool) (s : string) : option Z :=
  match s with
  | EmptyString => if after_digit then Some acc else None
  | String c s' =>
      if isdigit c then int_body (10 * acc + digit_value c) true s'
      else if Ascii.eqb c "_" && after_digit then
        match s' with
        | String d _ => if isdigit d then int_body acc false s' else None
        | EmptyString => None
        end
      else None
  end.

(** The white space [int] skips around an ASCII text: TAB..CR and the
    space, without FS..US. *)
Definition isspace_int (c : ascii) : bool :=
  let n := N_of_ascii c in ((9 <=? n) && (n <=? 13) || (n =? 32))%N.

(** The number of characters of [s] that satisfy [p]. *)
Fixpoint count_if (p : ascii → bool) (s : string) : Z :=
  match s with
  | EmptyString => 0
  | String c s' => (if p c then 1 else 0) + count_if p s'
  end.

(** [sys.get_int_max_str_digits()], by default. *)
Definition max_str_digits : Z := 4300.

(** The text after white space and sign: [int] refuses more than
    [max_str_digits] digits, leading zeros included and underscores not
    counted, before it looks at anything else. *)
Definition int_digits (r : string) : option Z :=
  if (max_str_digits <? count_if isdigit r)%Z then None
  else int_body 0 false r.

(** [int(s)] in base ten, on ASCII text; [None] stands for
    [ValueError]. *)
Definition int (s : string) : option Z :=
  match lstrip_with isspace_int (rstrip_with isspace_int s) with
  | String "-" r => Z.opp <$> int_digits r
  | String "+" r => int_digits r
  | r => int_digits r
  end.

Fixpoint zeros (n : nat) : string :=
  match n with O => EmptyString | S n' => String "0" (zeros n') end.

(** [f"{n:05d}"]: sign-aware zero padding to width five. *)
Definition fmt05 (n : Z) : string :=
  let d := pretty (Z.abs_N n) in
  if (n <? 0)%Z then "-" +:+ zeros (4 - String.length d) +:+ d
  else zeros (5 - String.length d) +:+ d.

End PyStr.

(** ** The layer-image name pattern

    [re.search(r'(.+?)(\d{5})\.(png|jpg|jpeg)$', filename, re.IGNORECASE)]
    written out as the backtracking search it is: the start position moves
    left to right, the lazy group [(.+?)] grows one character at a time
    (never over a line feed), and the rest of the name must be five digits,
    a dot and one of the three extensions up to the end of the string (the
    [$] also accepts one final line feed). *)

Module LayerPattern.
Import PyStr.

Definition is_ext (s : string) : bool :=
  let l := lower s in
  String.eqb l "png" || String.eqb l "jpg" || String.eqb l "jpeg".

(** [$]: the end of the string, or just before a final line feed. *)
Definition at_end (s : string) : bool :=
  String.eqb s "" || String.eqb s (String LF "").

(** [(png|jpg|jpeg)$] at the start of [s]: the three-letter
    alternatives are tried before the four-letter one. *)
Definition match_ext (s : string) : bool :=
  match s with
  | String a (String b (String c t)) =>
      is_ext (String a (String b (String c ""))) && at_end t
      || match t with
         | String d t' =>
             is_ext (String a (String b (String c (String d "")))) && at_end t'
         | EmptyString => false
         end
  | _ => false
  end.

(** [(\d{5})\.(png|jpg|jpeg)$] at the start of [s]; the five digits. *)
Definition match_tail (s : string) : option string :=
  match s with
  | String d1 (String d2 (String d3 (String d4 (String d5 (String c e))))) =>
      if isdigit d1 && isdigit d2 && isdigit d3 && isdigit d4 && isdigit d5
         && Ascii.eqb c "." && match_ext e
      then Some (String d1 (String d2 (String d3 (String d4 (String d5 "")))))
      else None
  | _ => None
  end.

(** The pattern tried at one start position; [base] holds the characters
    the lazy group has taken so far. Result: groups 1 and 2. *)
Fixpoint match_from (base : string) (s : string) : option (string * string) :=
  match s with
  | EmptyString => None
  | String c s' =>
      if Ascii.eqb c LF then None
      else
        let base' := base +:+ String c "" in
        match match_tail s' with
        | Some d => Some (base', d)
        | None => match_from base' s'
        end
  end.

(** [re.search]: the leftmost start position that matches. *)
Fixpoint search (s : string) : option (string * string) :=
  match match_from "" s with
  | Some r => Some r
  | None =>
      match s with
      | EmptyString => None
      | String _ s' => search s'
      end
  end.

End LayerPattern.

(** ** Exceptions and results *)

Inductive exn :=
  | BadZipFile
  | OSError (msg : string)
  | UnicodeDecodeError
  | KeyError (key : string)
  | AttributeError
  | TypeError
  | NoSectionError (section : string)
  | NoOptionError (option section : string)
  | MissingSectionHeaderError (lineno : nat) (line : string)
  | ParsingError (lines : list (nat * string))
  | DuplicateSectionError (section : string) (lineno : nat)
  | DuplicateOptionError (section option : string) (lineno : nat)
  | InterpolationSyntaxError (option section rest : string)
  | InterpolationMissingOptionError (option section reference : string)
  | InterpolationDepthError (option section : string).

(** The outcome of a call that may raise. *)
Inductive result (A : Type) :=
  | Ok (a : A)
  | Raise (e : exn).
Arguments Ok {A} a.
Arguments Raise {A} e.

Global Instance result_ret : MRet result := @Ok.
Global Instance result_bind : MBind result := λ A B f m,
  match m with Ok a => f a | Raise e => Raise e end.
Global Instance result_fmap : FMap result := λ A B f m,
  match m with Ok a => Ok (f a) | Raise e => Raise e end.

(** ** Association lists, for dictionaries whose order is observed *)

Fixpoint assoc {V} (k : string) (l : list (string * V)) : option V :=
  match l with
  | [] => None
  | (k', v) :: l' => if String.eqb k' k then Some v else assoc k l'
  end.

(** [d[k] = v]: a present key keeps its position, a new one goes last. *)
Fixpoint assoc_set {V} (k : string) (v : V) (l : list (string * V)) : list (string * V) :=
  match l with
  | [] => [(k, v)]
  | (k', v') :: l' => if String.eqb k' k then (k', v) :: l' else (k', v') :: assoc_set k v l'
  end.

(** ** [configparser.ConfigParser]

    The parser object as the sanitizer creates it: default delimiters [=]
    and [:], comment prefixes [#] and [;], no inline comments, strict,
    empty lines allowed in values, no valueless options, default section
    [DEFAULT], basic interpolation. *)

Module ConfigParser.
Import PyStr.

(** A stored option value: the list of its lines while a text is being
    read, the joined text once the read has completed. *)
Inductive value :=
  | Lines (l : list string)
  | Text (s : string).

Record t := mk {
  _sections : list (string * gmap string value);
  _defaults : gmap string value
}.

(** [ConfigParser()] *)
Definition new : t := mk [] ∅.

Definition default_section : string := "DEFAULT".

Definition optionxform : string → string := lower.

Definition has_key (d : gmap string value) (k : string) : bool :=
  bool_decide (is_Some (d !! k)).

(** [has_section]: the default section is not acknowledged. *)
Definition has_section (c : t) (section : string) : bool :=
  bool_decide (is_Some (assoc section (_sections c))).

(** [sections()] *)
Definition sections (c : t) : list string := fst <$> _sections c.

(** [len(parser)], which decides the truth value of the object. *)
Definition len (c : t) : nat := length (_sections c) + 1.

Definition has_option (c : t) (section option : string) : bool :=
  if String.eqb section "" || String.eqb section default_section then
    has_key (_defaults c) (optionxform option)
  else
    match assoc section (_sections c) with
    | None => false
    | Some d =>
        has_key d (optionxform option) || has_key (_defaults c) (optionxform option)
    end.

(** *** Reading *)

(** [SECTCRE.match]: an opening bracket, a greedy non-empty header and a
    closing bracket; what follows the last bracket is ignored. *)
Definition match_section (v : string) : option string :=
  match v with
  | String "[" r =>
      match before_last "]" r with
      | Some h => if String.eqb h "" then None else Some h
      | None => None
      end
  | _ => None
  end.

Definition is_delimiter (c : ascii) : bool := Ascii.eqb c "=" || Ascii.eqb c ":".

(** [OPTCRE.match]: the lazy option name ends before the white space
    that precedes the first delimiter; the value starts after the white
    space that follows it. *)
Definition match_option (v : string) : option (string * string) :=
  match break_at is_delimiter v with
  | (before, Some (String _ after)) => Some (rstrip before, lstrip after)
  | _ => None
  end.

(** The local variables of [_read] together with the parser. [sectname]
    names the dictionary [cursect] refers to: a section, or the defaults
    when it is [DEFAULT]; it is [None] as long as [cursect] is. *)
Record reader := mk_reader {
  cfg : t;
  sectname : option string;
  optname : option string;
  indent_level : nat;
  added_sections : gset string;
  added_options : gset (string * string);
  pending : list (nat * string)
}.

Definition start (c : t) : reader := mk_reader c None None 0 ∅ ∅ [].

(** [cursect[o] = v] and [cursect[o].append(x)] *)
Definition cursect_alter (f : gmap string value → gmap string value)
    (name : string) (c : t) : t :=
  match assoc name (_sections c) with
  | Some d => mk (assoc_set name (f d) (_sections c)) (_defaults c)
  | None => mk (_sections c) (f (_defaults c))
  end.

Definition append_to (x : string) (v : value) : value :=
  match v with
  | Lines l => Lines (l ++ [x])
  | Text s => Text s
  end.

(** [cursect is not None and optname] *)
Definition open_option (r : reader) : option (string * string) :=
  match sectname r, optname r with
  | Some s, Some o => if String.eqb o "" then None else Some (s, o)
  | _, _ => None
  end.

Definition append_line (s o x : string) (r : reader) : reader :=
  mk_reader (cursect_alter (alter (append_to x) o) s (cfg r))
    (sectname r) (optname r) (indent_level r)
    (added_sections r) (added_options r) (pending r).

(** One iteration of the loop over the lines. *)
Definition step (r : reader) (lineno : nat) (line : string) : result reader :=
  let stripped := strip line in
  let is_comment := startswith stripped "#" || startswith stripped ";" in
  let value := if is_comment then "" else stripped in
  if String.eqb value "" then
    match open_option r with
    | Some (s, o) => if is_comment then Ok r else Ok (append_line s o "" r)
    | None => Ok r
    end
  else
    let cur_indent_level := indent_of line in
    let continuation :=
      match open_option r with
      | Some (s, o) =>
          if (indent_level r <? cur_indent_level)%nat
          then Some (append_line s o value r) else None
      | None => None
      end in
    match continuation with
    | Some r' => Ok r'
    | None =>
        match match_section value with
        | Some header =>
            if has_section (cfg r) header then
              if bool_decide (header ∈ added_sections r) then
                Raise (DuplicateSectionError header lineno)
              else
                Ok (mk_reader (cfg r) (Some header) None cur_indent_level
                      ({[header]} ∪ added_sections r) (added_options r) (pending r))
            else if String.eqb header default_section then
              Ok (mk_reader (cfg r) (Some header) None cur_indent_level
                    (added_sections r) (added_options r) (pending r))
            else
              Ok (mk_reader
                    (mk (_sections (cfg r) ++ [(header, ∅)]) (_defaults (cfg r)))
                    (Some header) None cur_indent_level
                    ({[header]} ∪ added_sections r) (added_options r) (pending r))
        | None =>
            match sectname r with
            | None => Raise (MissingSectionHeaderError lineno line)
            | Some s =>
                match match_option value with
                | Some (o, v) =>
                    let pending' :=
                      if String.eqb o "" then pending r ++ [(lineno, line)]
                      else pending r in
                    let o' := optionxform (rstrip o) in
                    if bool_decide ((s, o') ∈ added_options r) then
                      Raise (DuplicateOptionError s o' lineno)
                    else
                      Ok (mk_reader
                            (cursect_alter (<[o' := Lines [strip v]]>) s (cfg r))
                            (Some s) (Some o') cur_indent_level
                            (added_sections r) ({[(s, o')]} ∪ added_options r)
                            pending')
                | None =>
                    Ok (mk_reader (cfg r) (Some s) (optname r) cur_indent_level
                          (added_sections r) (added_options r)
                          (pending r ++ [(lineno, line)]))
                end
            end
        end
    end.

(** The loop: it stops at the first exception, and the parser keeps what
    the lines before it have stored. *)
Fixpoint read_lines (r : reader) (lineno : nat) (ls : list string)
    : reader * option exn :=
  match ls with
  | [] => (r, None)
  | l :: ls' =>
      match step r lineno l with
      | Ok r' => read_lines r' (S lineno) ls'
      | Raise e => (r, Some e)
      end
  end.

Definition join_value (v : value) : value :=
  match v with
  | Lines l => Text (rstrip (join_lines l))
  | Text s => Text s
  end.

Definition _join_multiline_values (c : t) : t :=
  mk ((λ nd : string * gmap string value, (nd.1, join_value <$> nd.2))
        <$> _sections c)
     (join_value <$> _defaults c).

(** [read_string]: the parser after the call and the exception raised,
    if any. Lines that are neither header nor option are collected and
    raised as one [ParsingError] after the values have been joined. *)
Definition read_string (c : t) (text : string) : t * option exn :=
  let '(r, e) := read_lines (start c) 1 (readlines text) in
  match e with
  | Some e => (cfg r, Some e)
  | None =>
      (_join_multiline_values (cfg r),
       match pending r with
       | [] => None
       | p => Some (ParsingError p)
       end)
  end.

(** *** Lookup *)

(** The chain of the section's dictionary and the defaults that
    [_unify_values] builds. *)
Definition _unify_values (c : t) (section : string)
    : result (gmap string value * gmap string value) :=
  match assoc section (_sections c) with
  | Some d => Ok (d, _defaults c)
  | None =>
      if String.eqb section default_section then Ok (∅, _defaults c)
      else Raise (NoSectionError section)
  end.

Definition chain_lookup (d : gmap string value * gmap string value)
    (k : string) : option value :=
  match d.1 !! k with
  | Some v => Some v
  | None => d.2 !! k
  end.

(** [_KEYCRE.match] on a text that starts with a percent sign: the
    referenced name and the text after the reference. *)
Definition match_key (rest : string) : option (string * string) :=
  match rest with
  | String _ (String "(" r) =>
      match break_at (Ascii.eqb ")") r with
      | (name, Some (String _ (String "s" r'))) =>
          if String.eqb name "" then None else Some (name, r')
      | _ => None
      end
  | _ => None
  end.

(** ["%" in v] *)
Definition has_percent (v : value) : bool :=
  match v with
  | Text s => contains_char "%" s
  | Lines l => bool_decide ("%" ∈ l)
  end.

(** [BasicInterpolation._interpolate_some]. [depth_left] is
    [MAX_INTERPOLATION_DEPTH + 1 - depth]; the inner loop is the [while],
    bounded by the length of the text since every turn consumes it. *)
Fixpoint _interpolate_some (map : gmap string value * gmap string value)
    (option section : string) (depth_left : nat) (rest : value)
    (accum : list value) : result (list value) :=
  match depth_left with
  | O => Raise (InterpolationDepthError option section)
  | S depth_left' =>
      match rest with
      | Lines [] => Ok accum
      | Lines _ => Raise AttributeError
      | Text s =>
          (fix loop (n : nat) (rest : string) (accum : list value) {struct n}
             : result (list value) :=
             match n with
             | O => Ok accum
             | S n' =>
                 match break_at (Ascii.eqb "%") rest with
                 | (_, None) =>
                     Ok (if String.eqb rest "" then accum else accum ++ [Text rest])
                 | (before, Some rest') =>
                     let accum :=
                       if String.eqb before "" then accum
                       else accum ++ [Text before] in
                     match rest' with
                     | String _ (String "%" r) => loop n' r (accum ++ [Text "%"])
                     | String _ (String "(" _) =>
                         match match_key rest' with
                         | None => Raise (InterpolationSyntaxError option section rest')
                         | Some (name, r) =>
                             match chain_lookup map (optionxform name) with
                             | None =>
                                 Raise (InterpolationMissingOptionError
                                          option section (optionxform name))
                             | Some v =>
                                 if has_percent v then
                                   match _interpolate_some map option section
                                           depth_left' v accum with
                                   | Ok accum' => loop n' r accum'
                                   | Raise e => Raise e
                                   end
                                 else loop n' r (accum ++ [v])
                             end
                         end
                     | _ => Raise (InterpolationSyntaxError option section rest')
                     end
                 end
             end) (S (String.length s)) s accum
      end
  end.

(** [''.join(L)] *)
Fixpoint join_accum (l : list value) : result string :=
  match l with
  | [] => Ok ""
  | Text s :: l' => String.append s <$> join_accum l'
  | Lines _ :: _ => Raise TypeError
  end.

(** [parser.get(section, option)] *)
Definition get (c : t) (section option : string) : result string :=
  d ← _unify_values c section;
  let option := optionxform option in
  match chain_lookup d option with
  | None => Raise (NoOptionError option section)
  | Some v =>
      L ← _interpolate_some d option section 10 v [];
      join_accum L
  end.

(** [key in parser[section]] and [parser[section][key]] through the
    section proxy.  [parser[section]] itself raises [KeyError] for a
    section that is neither present nor the default one; the sanitizer
    only writes it behind [has_section] or for a member of [sections()]. *)
Definition proxy_contains (c : t) (section key : string) : bool :=
  has_option c section key.

Definition proxy_getitem (c : t) (section key : string) : result string :=
  if has_option c section key then get c section key
  else Raise (KeyError key).

End ConfigParser.

(** ** The file system and [zipfile]

    What a path holds during one validation run: nothing, something that
    [zipfile.ZipFile] refuses with an exception ([BadZipFile] for a file
    that is no archive), or an archive.  An archive is the list of its
    members in directory order; a member is its name and the outcome of
    reading it and decoding it as UTF-8.  The three states are those in
    which [Path.exists] answers; a path for which [Path.exists] itself
    raises (a name longer than the system allows) ends the run with that
    exception and has no state here. *)

Inductive path_state :=
  | Missing
  | Unopenable (e : exn)
  | Archive (members : list (string * result string)).

(** [zip_ref.namelist()] *)
Definition namelist (members : list (string * result string)) : list string :=
  fst <$> members.

(** [zip_ref.open(name).read().decode('utf-8')]: of several members with
    one name the archive serves the last. *)
Fixpoint read_member (members : list (string * result string)) (name : string)
    : result string :=
  match members with
  | [] => Raise (KeyError name)
  | (n, content) :: rest =>
      if String.eqb n name && negb (bool_decide (name ∈ namelist rest))
      then content else read_member rest name
  end.

(** ** Messages

    One constructor for each message the sanitizer formats, carrying the
    values its f-string interpolates. *)

Inductive message :=
  | FileNotFound (path : string)
      (* SL1S file not found: {Path(path)}; the message prints the path
         the constructor was given in the normal form of pathlib *)
  | ZipEmptyOrNested
      (* Zip file appears to be empty or has nested folder structure *)
  | FilesInSubfolder (folder_name : string)
      (* Files are contained in subfolder '{folder_name}'. ... *)
  | NotValidZip
      (* File is not a valid ZIP archive *)
  | ErrorReadingZip (e : exn)
      (* Error reading ZIP file: {e} *)
  | RequiredFileMissing (required_file : string)
      (* Required file missing: {required_file} *)
  | ErrorCheckingRequired (e : exn)
      (* Error checking required files: {e} *)
  | ConfigNotFound
      (* config.ini file not found in archive *)
  | ErrorReadingConfig (e : exn)
      (* Error reading config.ini: {e} *)
  | NoLayerImages
      (* No layer image files found in archive *)
  | BadImageName (img_file : string)
      (* Layer image file doesn't match naming pattern ...: {img_file} *)
  | MultipleBaseNames (base_names : list string)
      (* Multiple image base names found: {base_names}. ... *)
  | MissingNumbers (missing : list Z)
      (* Missing layer image numbers: {sorted(missing)} *)
  | NumberingNotAtZero (start : string)
      (* Layer image numbering doesn't start at 00000 (starts at {numbers[0]:05d}) *)
  | NumberOutOfRange (num : Z)
      (* Layer image number out of five-digit range: {num} *)
  | ErrorCheckingImages (e : exn)
      (* Error checking image files: {e} *)
  | BaseNameMismatch (image_base config_base : string)
      (* Layer image base name '{image_base}' doesn't match jobDir '{config_base}' ... *)
  | NumFastCountMismatch (num_fast : Z) (image_count : nat)
      (* numFast in config.ini ({num_fast}) doesn't match number of layer image files ({image_count}) *)
  | LastNumberMismatch (max_number expected : Z)
      (* Last layer image number ({max_number}) doesn't match numFast-1 ({num_fast - 1}) *)
  | NumFastNotInteger
      (* numFast in config.ini is not a valid integer *)
  | ErrorCheckingConsistency (e : exn).
      (* Error checking config consistency: {e} *)

Global Instance exn_eq_dec : EqDecision exn.
Proof. solve_decision. Defined.
Global Instance message_eq_dec : EqDecision message.
Proof. solve_decision. Defined.

(** ** The sanitizer object *)

Record SL1SSanitizer := mkSanitizer {
  sl1s_file_path : string;
  errors : list message;
  warnings : list message;
  image_files : list string;
  config : option ConfigParser.t
}.

(** [SL1SSanitizer(path)].  The object keeps the text it was given;
    [pathlib.Path] names the same file and differs from the text only in
    how it prints. *)
Definition __init__ (path : string) : SL1SSanitizer :=
  mkSanitizer path [] [] [] None.

(** [self.errors.append(m)] and [self.warnings.append(m)] *)
Definition add_error (m : message) (self : SL1SSanitizer) : SL1SSanitizer :=
  mkSanitizer (sl1s_file_path self) (errors self ++ [m]) (warnings self)
    (image_files self) (config self).

Definition add_warning (m : message) (self : SL1SSanitizer) : SL1SSanitizer :=
  mkSanitizer (sl1s_file_path self) (errors self) (warnings self ++ [m])
    (image_files self) (config self).

Definition set_image_files (l : list string) (self : SL1SSanitizer) : SL1SSanitizer :=
  mkSanitizer (sl1s_file_path self) (errors self) (warnings self) l (config self).

Definition set_config (c : ConfigParser.t) (self : SL1SSanitizer) : SL1SSanitizer :=
  mkSanitizer (sl1s_file_path self) (errors self) (warnings self)
    (image_files self) (Some c).

(** [str.rstrip('_').rstrip('-')] *)
Definition strip_separators (s : string) : string :=
  PyStr.rstrip_with (Ascii.eqb "-") (PyStr.rstrip_with (Ascii.eqb "_") s).

(** [f.startswith(('thumbnail/', 'preview/'))] *)
Definition _is_thumbnail_or_preview_file (file_path : string) : bool :=
  PyStr.startswith file_path "thumbnail/" || PyStr.startswith file_path "preview/".

Definition _is_layer_image (file_path : string) : bool :=
  let l := PyStr.lower file_path in
  (PyStr.endswith l ".png" || PyStr.endswith l ".jpg" || PyStr.endswith l ".jpeg")
  && negb (_is_thumbnail_or_preview_file file_path)
  && negb (PyStr.contains_char "/" file_path).

(** [max(numbers)] of a non-empty list *)
Definition list_max_Z (l : list Z) : Z :=
  match l with
  | [] => 0
  | x :: l' => foldl Z.max x l'
  end.

Section Sanitizer.

(** The file system, constant during a run. *)
Variable fs : string → path_state.

(** The order in which Python iterates a [set] of strings.  It follows
    the hash values of the members, which CPython salts anew for every
    process, so the source fixes it only up to permutation. *)
Variable set_iter : gset string → list string.

(** [zipfile.ZipFile(self.sl1s_file_path, 'r')] *)
Definition open_zip (self : SL1SSanitizer) : result (list (string * result string)) :=
  match fs (sl1s_file_path self) with
  | Missing => Raise (OSError "No such file or directory")
  | Unopenable e => Raise e
  | Archive members => Ok members
  end.

Definition _check_file_exists (self : SL1SSanitizer) : SL1SSanitizer :=
  match fs (sl1s_file_path self) with
  | Missing => add_error (FileNotFound (sl1s_file_path self)) self
  | _ => self
  end.

(** The entries the sub-folder warning is about. *)
Definition in_subfolder (f : string) : bool :=
  PyStr.contains_char "/" f && negb (_is_thumbnail_or_preview_file f).

Definition is_root_file (f : string) : bool :=
  negb (PyStr.contains_char "/" f) || (PyStr.count_char "/" f =? 1)%nat.

Definition _check_zip_structure (self : SL1SSanitizer) : SL1SSanitizer :=
  match open_zip self with
  | Raise BadZipFile => add_error NotValidZip self
  | Raise e => add_error (ErrorReadingZip e) self
  | Ok members =>
      let file_list := namelist members in
      let root_files := List.filter is_root_file file_list in
      match root_files with
      | [] => add_error ZipEmptyOrNested self
      | _ =>
          let has_subfolder := existsb in_subfolder file_list in
          if has_subfolder then
            let folders : gset string :=
              list_to_set (PyStr.split_head "/" <$> List.filter in_subfolder file_list) in
            if bool_decide (folders = ∅) then self
            else foldl (λ s folder_name, add_warning (FilesInSubfolder folder_name) s)
                   self (set_iter folders)
          else self
      end
  end.

Definition required_files : list string := ["config.ini"; "prusaslicer.ini"].

Definition _check_required_files (self : SL1SSanitizer) : SL1SSanitizer :=
  match open_zip self with
  | Raise e => add_error (ErrorCheckingRequired e) self
  | Ok members =>
      let file_list := namelist members in
      foldl (λ s required_file,
               let found :=
                 existsb (λ f, PyStr.contains f required_file
                               && PyStr.endswith f required_file
                               && negb (PyStr.startswith f "thumbnail/")) file_list in
               if found then s else add_error (RequiredFileMissing required_file) s)
            self required_files
  end.

Definition _extract_config (self : SL1SSanitizer) : SL1SSanitizer :=
  match open_zip self with
  | Raise e => add_error (ErrorReadingConfig e) self
  | Ok members =>
      let config_files :=
        List.filter (λ f, PyStr.endswith f "config.ini"
                          && negb (PyStr.startswith f "thumbnail/"))
                    (namelist members) in
      match config_files with
      | [] => add_error ConfigNotFound self
      | config_file :: _ =>
          match read_member members config_file with
          | Raise e => add_error (ErrorReadingConfig e) self
          | Ok config_content =>
              let '(c, e) := ConfigParser.read_string ConfigParser.new config_content in
              match e with
              | None => set_config c self
              | Some (MissingSectionHeaderError _ _) =>
                  let wrapped_content :=
                    "[DEFAULT]" +:+ String PyStr.LF "" +:+ config_content in
                  let '(c', e') :=
                    ConfigParser.read_string ConfigParser.new wrapped_content in
                  match e' with
                  | None => set_config c' self
                  | Some e' => add_error (ErrorReadingConfig e') (set_config c' self)
                  end
              | Some e => add_error (ErrorReadingConfig e) (set_config c self)
              end
          end
      end
  end.

(** The loop over the image files: the errors, the set of base names
    and the list of numbers it builds.  [int] of the five digits of
    group 2 is their decimal value. *)
Fixpoint scan_images (l : list string) (self : SL1SSanitizer)
    (base_names : gset string) (numbers : list Z)
    : SL1SSanitizer * gset string * list Z :=
  match l with
  | [] => (self, base_names, numbers)
  | img_file :: l' =>
      let filename := PyStr.basename img_file in
      match LayerPattern.search filename with
      | None => scan_images l' (add_error (BadImageName img_file) self) base_names numbers
      | Some (base_name, number_str) =>
          scan_images l' self ({[base_name]} ∪ base_names)
            (numbers ++ [PyStr.digits_value 0 number_str])
      end
  end.

(** The part of [_check_image_files] under [if numbers:]; the test is
    made on the sorted list, which is empty exactly when the list is,
    and [first] is its [numbers[0]]. *)
Definition check_numbering (numbers : list Z) (self : SL1SSanitizer) : SL1SSanitizer :=
  match merge_sort Z.le numbers with
  | [] => self
  | (first :: _) as numbers =>
      let expected_sequence := seqZ first (Z.of_nat (length numbers)) in
      let self :=
        if bool_decide (numbers = expected_sequence) then self
        else
          let missing : gset Z := list_to_set expected_sequence ∖ list_to_set numbers in
          if bool_decide (missing = ∅) then self
          else add_error (MissingNumbers (merge_sort Z.le (elements missing))) self in
      let self :=
        if bool_decide (first = 0%Z) then self
        else add_warning (NumberingNotAtZero (PyStr.fmt05 first)) self in
      foldl (λ s num,
               if ((num <? 0) || (99999 <? num))%Z
               then add_error (NumberOutOfRange num) s else s)
            self numbers
  end.

Definition _check_image_files (self : SL1SSanitizer) : SL1SSanitizer :=
  match open_zip self with
  | Raise e => add_error (ErrorCheckingImages e) self
  | Ok members =>
      let image_files := List.filter _is_layer_image (namelist members) in
      let self := set_image_files image_files self in
      match image_files with
      | [] => add_warning NoLayerImages self
      | _ =>
          let '(self, base_names, numbers) := scan_images image_files self ∅ [] in
          let self :=
            if (1 <? size base_names)%nat
            then add_error (MultipleBaseNames (set_iter base_names)) self
            else self in
          check_numbering numbers self
      end
  end.

(** The third tier of the lookup: the first section, in file order,
    whose proxy contains the key. *)
Fixpoint first_section_with (c : ConfigParser.t) (key : string)
    (secs : list string) : option string :=
  match secs with
  | [] => None
  | sec :: secs' =>
      if ConfigParser.proxy_contains c sec key then Some sec
      else first_section_with c key secs'
  end.

(** [default=None]: the result is [Ok None] for "not found". *)
Definition _get_config_value (self : SL1SSanitizer) (section key : string)
    : result (option string) :=
  match config self with
  | None => Ok None
  | Some c =>
      if (ConfigParser.len c =? 0)%nat then Ok None
      else if ConfigParser.has_section c section
              && ConfigParser.proxy_contains c section key
      then Some <$> ConfigParser.proxy_getitem c section key
      else if ConfigParser.has_section c "DEFAULT"
              && ConfigParser.proxy_contains c "DEFAULT" key
      then Some <$> ConfigParser.proxy_getitem c "DEFAULT" key
      else
        match first_section_with c key (ConfigParser.sections c) with
        | Some sec => Some <$> ConfigParser.proxy_getitem c sec key
        | None => Ok None
        end
  end.

(** The numbers the second pattern of the consistency check extracts. *)
Definition parsed_numbers (l : list string) : list Z :=
  omap (λ img_file,
          match LayerPattern.search (PyStr.basename img_file) with
          | Some (_, d) => Some (PyStr.digits_value 0 d)
          | None => None
          end) l.

(** The [jobDir] block, given the value the lookup returned. *)
Definition check_job_dir (job_dir : option string) (self : SL1SSanitizer)
    : SL1SSanitizer :=
  match job_dir with
  | None | Some "" => self
  | Some job_dir =>
      match image_files self with
      | [] => self
      | first_image :: _ =>
          match LayerPattern.search (PyStr.basename first_image) with
          | None => self
          | Some (base, _) =>
              let image_base := strip_separators base in
              let config_base := strip_separators job_dir in
              if bool_decide (image_base = config_base) then self
              else add_error (BaseNameMismatch image_base config_base) self
          end
      end
  end.

(** The [numFast] block, given the value the lookup returned. *)
Definition check_num_fast (num_fast_str : option string) (self : SL1SSanitizer)
    : SL1SSanitizer :=
  match num_fast_str with
  | None | Some "" => self
  | Some num_fast_str =>
      match PyStr.int num_fast_str with
      | None => add_error NumFastNotInteger self
      | Some num_fast =>
          let image_count := length (image_files self) in
          let self :=
            if bool_decide (num_fast = Z.of_nat image_count) then self
            else add_error (NumFastCountMismatch num_fast image_count) self in
          match parsed_numbers (image_files self) with
          | [] => self
          | numbers =>
              let max_number := list_max_Z numbers in
              if bool_decide (max_number = (num_fast - 1)%Z) then self
              else add_error (LastNumberMismatch max_number (num_fast - 1)) self
          end
      end
  end.

Definition config_is_true (self : SL1SSanitizer) : bool :=
  match config self with
  | None => false
  | Some c => negb (ConfigParser.len c =? 0)%nat
  end.

Definition _check_config_consistency (self : SL1SSanitizer) : SL1SSanitizer :=
  if negb (config_is_true self) then self
  else
    match _get_config_value self "layerRenderParams" "jobDir" with
    | Raise e => add_error (ErrorCheckingConsistency e) self
    | Ok job_dir =>
        let self := check_job_dir job_dir self in
        match _get_config_value self "layerRenderParams" "numFast" with
        | Raise e => add_error (ErrorCheckingConsistency e) self
        | Ok num_fast_str => check_num_fast num_fast_str self
        end
    end.

(** The value [_generate_report] returns. *)
Definition _generate_report (self : SL1SSanitizer) : bool :=
  bool_decide (errors self = []).

(** [validate_sl1s_file]: the object after the run; the report prints
    its two lists in order. *)
Definition validate_sl1s_file (self : SL1SSanitizer) : SL1SSanitizer :=
  let self := _check_file_exists self in
  match errors self with
  | _ :: _ => self
  | [] =>
      _check_config_consistency
        (_check_image_files
           (_extract_config
              (_check_required_files
                 (_check_zip_structure self))))
  end.

End Sanitizer.

(** ** Sample archives *)

Module Samples.
Import PyStr.

(** A text from its lines, each ended by a line feed. *)
Definition text (lines : list string) : string :=
  foldr (λ l acc, l +:+ String LF acc) "" lines.

Definition member (name : string) (lines : list string) : string * result string :=
  (name, Ok (text lines)).

(** An image member; its content is never read. *)
Definition image (name : string) : string * result string := (name, Ok "").

(** The file system that holds the given state at every path. *)
Definition everywhere (st : path_state) : string → path_state := λ _, st.

Definition sectioned_config : list string :=
  ["[layerRenderParams]"; "jobDir = bar"].

Definition bare_config : list string := ["jobDir = bar"].

(** A configuration whose first read stops at the missing header and
    whose wrapped read ends with a [ParsingError]. *)
Definition broken_config : list string :=
  ["x = 1"; "[layerRenderParams]"; "numFast = 3"; "garbage"].

Definition two_images : list (string * result string) :=
  [image "foo00000.png"; image "foo00001.png"].

Definition job (config_lines : list string) : path_state :=
  Archive ([member "config.ini" config_lines; member "prusaslicer.ini" []]
             ++ two_images).

End Samples.

(** * Definitions for the statements *)

(** Texts on which the character classes of the model are those of
    Python: entry names, and what a parser holds. *)
Definition ascii_names (names : list string) : bool :=
  List.forallb PyStr.isascii names.

Definition ascii_value (v : ConfigParser.value) : bool :=
  match v with
  | ConfigParser.Lines l => List.forallb PyStr.isascii l
  | ConfigParser.Text s => PyStr.isascii s
  end.

Definition ascii_options (d : gmap string ConfigParser.value) : bool :=
  List.forallb (λ kv : string * ConfigParser.value,
                  PyStr.isascii kv.1 && ascii_value kv.2)
               (map_to_list d).

Definition ascii_parser (c : ConfigParser.t) : bool :=
  List.forallb (λ nd : string * gmap string ConfigParser.value,
                  PyStr.isascii nd.1 && ascii_options nd.2)
               (ConfigParser._sections c)
  && ascii_options (ConfigParser._defaults c).

(** The iteration order of a set lists exactly its members, once each. *)
Definition set_iter_ok (set_iter : gset string → list string) : Prop :=
  ∀ X, set_iter X ≡ₚ elements X.

(** The first path components of the entries that lie in a folder other
    than the two reserved ones. *)
Definition offending_folders (names : list string) : gset string :=
  list_to_set (PyStr.split_head "/" <$> List.filter in_subfolder names).

(** The layout rule as the specification words it, for the archive with
    the given members: the fatal error exactly when no entry lies outside
    the two reserved prefixes, and never when a non-reserved entry lies in
    a folder. *)
Definition layout_claim (members : list (string * result string)) : Prop :=
  let s := _check_zip_structure (Samples.everywhere (Archive members)) elements
             (__init__ "job.sl1s") in
  (ZipEmptyOrNested ∈ errors s ↔
   Forall (λ f, _is_thumbnail_or_preview_file f = true) (namelist members))
  ∧ (Exists (λ f, in_subfolder f = true) (namelist members) →
     ZipEmptyOrNested ∉ errors s).

(** [min(numbers)] of a non-empty list *)
Definition list_min_Z (l : list Z) : Z :=
  match l with
  | [] => 0
  | x :: l' => foldl Z.min x l'
  end.

(** The base names the pattern extracts, in archive order. *)
Definition image_bases (l : list string) : list string :=
  omap (λ img_file, fst <$> LayerPattern.search (PyStr.basename img_file)) l.

(** The file name of an image matches the layer-image pattern. *)
Definition matches_pattern (img_file : string) : Prop :=
  is_Some (LayerPattern.search (PyStr.basename img_file)).

(** [num < 0 or num > 99999] *)
Definition out_of_range (num : Z) : bool := ((num <? 0) || (99999 <? num))%Z.

(** The missing-numbers errors among the messages. *)
Definition is_missing_numbers (m : message) : bool :=
  match m with MissingNumbers _ => true | _ => false end.

(** The last loop of the numbering check, named. *)
Definition range_loop (l : list Z) (s : SL1SSanitizer) : SL1SSanitizer :=
  foldl (λ s num, if ((num <? 0) || (99999 <? num))%Z
                  then add_error (NumberOutOfRange num) s else s) s l.

(** Group 2 of the pattern: exactly five decimal digits. *)
Definition five_digits (d : string) : Prop :=
  String.length d = 5 ∧ PyStr.forallb PyStr.isdigit d = true.

(** Two objects that differ at most in their lists of messages. *)
Definition same_frame (s s' : SL1SSanitizer) : Prop :=
  sl1s_file_path s' = sl1s_file_path s
  ∧ image_files s' = image_files s
  ∧ config s' = config s.

(** The errors of the [numFast] block for an integer value: the count
    comparison and the last-number comparison, each on its own. *)
Definition num_fast_errors (num_fast : Z) (images : list string) : list message :=
  let numbers := parsed_numbers images in
  (if decide (num_fast = Z.of_nat (length images)) then []
   else [NumFastCountMismatch num_fast (length images)])
  ++ (if decide (numbers ≠ [] ∧ list_max_Z numbers ≠ (num_fast - 1)%Z)
      then [LastNumberMismatch (list_max_Z numbers) (num_fast - 1)] else []).

(** Stripping every trailing underscore and hyphen, as the specification
    words the job-name comparison. *)
Definition strip_trailing_separators (s : string) : string :=
  PyStr.rstrip_with (λ c, Ascii.eqb c "_" || Ascii.eqb c "-") s.

(** Two messages that agree up to the order in which a set was listed. *)
Inductive msg_equiv : message → message → Prop :=
  | msg_equiv_same m : msg_equiv m m
  | msg_equiv_base_names l1 l2 :
      l1 ≡ₚ l2 → msg_equiv (MultipleBaseNames l1) (MultipleBaseNames l2).

(** Two warning lists that agree except for the order inside one block
    of sub-folder warnings. *)
Definition warnings_equiv (w1 w2 : list message) : Prop :=
  ∃ pre folders1 folders2 rest,
    w1 = pre ++ (FilesInSubfolder <$> folders1) ++ rest
    ∧ w2 = pre ++ (FilesInSubfolder <$> folders2) ++ rest
    ∧ folders1 ≡ₚ folders2.

(** Two objects that agree up to the order in which sets were listed. *)
Definition run_equiv (s1 s2 : SL1SSanitizer) : Prop :=
  sl1s_file_path s1 = sl1s_file_path s2
  ∧ Forall2 msg_equiv (errors s1) (errors s2)
  ∧ warnings_equiv (warnings s1) (warnings s2)
  ∧ image_files s1 = image_files s2
  ∧ config s1 = config s2.

(** A line that opens no section: a comment, or a text that is no header
    other than that of the default section. *)
Definition opens_no_section (line : string) : Prop :=
  let stripped := PyStr.strip line in
  PyStr.startswith stripped "#" || PyStr.startswith stripped ";" = true
  ∨ ConfigParser.match_section stripped = None
  ∨ ConfigParser.match_section stripped = Some ConfigParser.default_section.

(** The end of a layer-image name: five digits, a dot, an extension. *)
Definition name_tail (d e : string) : string := d +:+ String "." e.

(** * Definitions for the further properties *)

(** An image whose file name the pattern does not match. *)
Definition is_unmatched (img_file : string) : bool :=
  match LayerPattern.search (PyStr.basename img_file) with
  | Some _ => false
  | None => true
  end.

(** The naming errors among the messages. *)
Definition is_naming_error (m : message) : bool :=
  match m with BadImageName _ => true | _ => false end.

(** The multiple-base-names errors among the messages. *)
Definition is_multiple_base_names (m : message) : bool :=
  match m with MultipleBaseNames _ => true | _ => false end.

(** The range errors among the messages. *)
Definition is_range_error (m : message) : bool :=
  match m with NumberOutOfRange _ => true | _ => false end.

(** The errors of the numbering check on a list of numbers: the
    missing-numbers error, if the sorted list is not a contiguous run. *)
Definition gap_errors (numbers : list Z) : list message :=
  match merge_sort Z.le numbers with
  | [] => []
  | (first :: _) as ns =>
      let run := seqZ first (Z.of_nat (length ns)) in
      if decide (ns = run) then []
      else [MissingNumbers (filter (λ x, x ∉ ns) run)]
  end.

(** The warning of the numbering check: the least number, if it is not 0. *)
Definition start_warnings (numbers : list Z) : list message :=
  match numbers with
  | [] => []
  | _ => if decide (list_min_Z numbers = 0%Z) then []
         else [NumberingNotAtZero (PyStr.fmt05 (list_min_Z numbers))]
  end.

(** A required file is found by the end of an entry name outside the
    thumbnail folder. *)
Definition has_required (names : list string) (required_file : string) : bool :=
  existsb (λ f, PyStr.endswith f required_file
                && negb (PyStr.startswith f "thumbnail/")) names.

(** The extension test of the layer-image classification. *)
Definition has_image_extension (file_path : string) : bool :=
  let l := PyStr.lower file_path in
  PyStr.endswith l ".png" || PyStr.endswith l ".jpg" || PyStr.endswith l ".jpeg".

(** The second object holds the messages of the first, in the same order,
    followed by further ones, for the same path. *)
Definition extends (s s' : SL1SSanitizer) : Prop :=
  sl1s_file_path s' = sl1s_file_path s
  ∧ errors s `prefix_of` errors s'
  ∧ warnings s `prefix_of` warnings s'.

(** What the layer-image pattern accepts, with its two groups: the name
    is some text [x] that is empty or ends with a line feed, the base
    name [b], five digits [d], a dot, an extension [e] in any case, and
    at most one final line feed. *)
Definition pattern_accepts (s b d : string) : Prop :=
  ∃ x e nl,
    s = x +:+ b +:+ name_tail d e +:+ nl
    ∧ (x = "" ∨ ∃ x0, x = x0 +:+ String PyStr.LF "")
    ∧ b ≠ ""
    ∧ PyStr.contains_char PyStr.LF b = false
    ∧ five_digits d
    ∧ LayerPattern.is_ext e = true
    ∧ (nl = "" ∨ nl = String PyStr.LF "").

(** The entry [_extract_config] reads: the first whose name ends with
    [config.ini] outside the thumbnail folder. *)
Definition config_entry (names : list string) : option string :=
  head (List.filter (λ f, PyStr.endswith f "config.ini"
                          && negb (PyStr.startswith f "thumbnail/")) names).

(** An archive of ASCII text: the entry names, and the text of the
    configuration entry if it can be read.  These are the texts of an
    archive that a run looks into; the other contents (the images) it
    never reads. *)
Definition ascii_archive (members : list (string * result string)) : bool :=
  ascii_names (namelist members)
  && match config_entry (namelist members) with
     | Some config_file =>
         match read_member members config_file with
         | Ok t => PyStr.isascii t
         | Raise _ => true
         end
     | None => true
     end.

(** ** The archive of the test script

    [create_test_sl1s(filename, has_errors)] of [test.py]: the file
    system after the call holds, at [filename], the archive of the three
    kinds of member the function writes, in the order it writes them. *)
Definition create_test_sl1s (filename : string) (has_errors : bool)
    (fs : string → path_state) : string → path_state :=
  let config_content :=
    Samples.text ["[layerRenderParams]"; "jobDir = my_print"; "numFast = 5";
                  "exposureTime = 10"] in
  let base_name := if negb has_errors then "my_print_" else "wrong_name_" in
  let members :=
    [("config.ini", Ok config_content); ("prusaslicer.ini", Ok "[settings]")]
    ++ ((λ i, (base_name +:+ PyStr.fmt05 i +:+ ".png", Ok "fake image data"))
          <$> seqZ 0 5) in
  λ p, if String.eqb p filename then Archive members else fs p.

(** ** Simple configurations

    A configuration text of one section: the header line and one line
    [key = value] for each pair, every line ended by a line feed. *)
Definition option_line (kv : string * string) : string :=
  kv.1 +:+ " = " +:+ kv.2 +:+ String PyStr.LF "".

Definition simple_config (h : string) (pairs : list (string * string)) : string :=
  "[" +:+ h +:+ "]" +:+ String PyStr.LF ""
  +:+ foldr (λ kv acc, option_line kv +:+ acc) "" pairs.

(** A header that is not empty, not that of the default section, and
    holds no line feed. *)
Definition good_header (h : string) : Prop :=
  h ≠ "" ∧ h ≠ "DEFAULT" ∧ PyStr.contains_char PyStr.LF h = false.

Definition key_char (c : ascii) : bool :=
  negb (PyStr.isspace c) && negb (ConfigParser.is_delimiter c).

Definition value_char (c : ascii) : bool :=
  negb (PyStr.isspace c) && negb (Ascii.eqb "%" c).

(** A key without white space and delimiter that starts neither a
    comment nor a header. *)
Definition good_key (k : string) : Prop :=
  PyStr.forallb key_char k = true
  ∧ match k with
    | String c _ => Ascii.eqb c "#" || Ascii.eqb c ";" || Ascii.eqb c "[" = false
    | EmptyString => False
    end.

(** A value that is not empty and holds no white space and no percent
    sign. *)
Definition good_value (v : string) : Prop :=
  v ≠ "" ∧ PyStr.forallb value_char v = true.

(** The dictionary of a section after its option lines: each key in
    lower case, each value as the one line read. *)
Definition store (m : gmap string ConfigParser.value) (pairs : list (string * string))
    : gmap string ConfigParser.value :=
  foldl (λ m kv, <[PyStr.lower kv.1 := ConfigParser.Lines [kv.2]]> m) m pairs.

Definition good_pair (kv : string * string) : Prop :=
  good_key kv.1 ∧ good_value kv.2.

(** The keys of the pairs as the parser stores them. *)
Definition stored_keys (pairs : list (string * string)) : list string :=
  (λ kv, PyStr.lower kv.1) <$> pairs.

(** ** Archives made like that of the test script

    The archive [create_test_sl1s] writes, with the header, the pairs,
    the base name and the number of layers as parameters. *)
Definition layer_name (b : string) (i : Z) : string :=
  b +:+ PyStr.fmt05 i +:+ ".png".

Definition job_archive (h : string) (pairs : list (string * string)) (b : string) (n : Z)
    : list (string * result string) :=
  [("config.ini", Ok (simple_config h pairs)); ("prusaslicer.ini", Ok "[settings]")]
  ++ ((λ i, (layer_name b i, Ok "fake image data")) <$> seqZ 0 n).

(** The exception of a text that starts without a section header. *)
Definition is_missing_header (e : exn) : bool :=
  match e with MissingSectionHeaderError _ _ => true | _ => false end.

(** * Properties *)

(** ** The primitives on sample inputs *)

Example lower_ok : PyStr.lower "Foo00001.PNG" = "foo00001.png".
Proof. reflexivity. Qed.
Example readlines_ok :
  PyStr.readlines (String "a" (String PyStr.LF (String "b" EmptyString)))
  = [String "a" (String PyStr.LF EmptyString); "b"].
Proof. reflexivity. Qed.
Example rstrip_chain_ok :
  PyStr.rstrip_with (Ascii.eqb "-") (PyStr.rstrip_with (Ascii.eqb "_") "foo_-") = "foo_".
Proof. reflexivity. Qed.
Example int_ok :
  PyStr.int " -1_000 " = Some (-1000)%Z ∧ PyStr.int "" = None ∧ PyStr.int "5x" = None
  ∧ PyStr.int "+5" = Some 5%Z ∧ PyStr.int "1__0" = None ∧ PyStr.int "1_" = None
  ∧ PyStr.int (String "031" "7") = None.
Proof. vm_compute. done. Qed.
Example fmt05_ok : PyStr.fmt05 42 = "00042" ∧ PyStr.fmt05 (-7) = "-0007" ∧ PyStr.fmt05 123456 = "123456".
Proof. vm_compute. done. Qed.
Example basename_ok : PyStr.basename "a/b/c.png" = "c.png" ∧ PyStr.basename "c.png" = "c.png" ∧ PyStr.basename "a/" = "".
Proof. vm_compute. done. Qed.
Example indent_ok : PyStr.indent_of "   x = 1" = 3 ∧ PyStr.indent_of "x" = 0.
Proof. vm_compute. done. Qed.

Example search_plain : LayerPattern.search "foo00012.png" = Some ("foo", "00012").
Proof. reflexivity. Qed.
Example search_long_digits : LayerPattern.search "foo123456.PNG" = Some ("foo1", "23456").
Proof. reflexivity. Qed.
Example search_no_base : LayerPattern.search "00012.png" = None.
Proof. reflexivity. Qed.
Example search_jpeg : LayerPattern.search "a_00012.jpeg" = Some ("a_", "00012").
Proof. reflexivity. Qed.
Example search_bad_ext : LayerPattern.search "a00012.pngx" = None.
Proof. reflexivity. Qed.

(** ** The parser on sample texts *)

Example read_sectioned :
  let '(c, e) := ConfigParser.read_string ConfigParser.new
                   (Samples.text ["[layerRenderParams]"; "jobDir = foo"; "numFast = 5"]) in
  e = None
  ∧ ConfigParser.sections c = ["layerRenderParams"]
  ∧ ConfigParser.get c "layerRenderParams" "numFast" = Ok "5"
  ∧ ConfigParser.has_section c "DEFAULT" = false.
Proof. vm_compute. done. Qed.

Example read_bare :
  (ConfigParser.read_string ConfigParser.new (Samples.text ["jobDir = foo"])).2
  = Some (MissingSectionHeaderError 1 ("jobDir = foo" +:+ String PyStr.LF "")).
Proof. vm_compute. done. Qed.

Example read_wrapped :
  let '(c, e) := ConfigParser.read_string ConfigParser.new
                   (Samples.text ["[DEFAULT]"; "jobDir = foo"]) in
  e = None
  ∧ ConfigParser.sections c = []
  ∧ ConfigParser._defaults c !! "jobdir" = Some (ConfigParser.Text "foo")
  ∧ ConfigParser.has_section c "DEFAULT" = false
  ∧ ConfigParser.len c = 1.
Proof. vm_compute. done. Qed.

Example read_continuation :
  let '(c, e) := ConfigParser.read_string ConfigParser.new
                   (Samples.text ["[a]"; "k = 1"; "  more"; ""; "# note"; "K : 2"]) in
  e = Some (DuplicateOptionError "a" "k" 6)
  ∧ (assoc "a" (ConfigParser._sections c) ≫= λ d, d !! "k")
    = Some (ConfigParser.Lines ["1"; "more"; ""])
  ∧ ConfigParser.get c "a" "k" = Raise AttributeError.
Proof. vm_compute. done. Qed.

Example get_interpolates :
  let '(c, _) := ConfigParser.read_string ConfigParser.new
                   (Samples.text ["[a]"; "k = 1%%"; "u = %(K)s-%(k)s"; "w = 5%"; "z = %(z)s"]) in
  ConfigParser.get c "a" "U" = Ok "1%-1%"
  ∧ ConfigParser.get c "a" "w" = Raise (InterpolationSyntaxError "w" "a" "%")
  ∧ ConfigParser.get c "a" "z" = Raise (InterpolationDepthError "z" "a")
  ∧ ConfigParser.get c "b" "z" = Raise (NoSectionError "b").
Proof. vm_compute. done. Qed.

(** ** Iteration orders *)

Lemma elements_set_iter_ok : set_iter_ok elements.
Proof. intros X. reflexivity. Qed.

Lemma reverse_elements_set_iter_ok : set_iter_ok (λ X, reverse (elements X)).
Proof. intros X. apply reverse_Permutation. Qed.

(** ** The file check and the archive check *)

(** A missing file stops the run after its one error. *)
Lemma missing_file_one_error fs set_iter path :
  fs path = Missing →
  let r := validate_sl1s_file fs set_iter (__init__ path) in
  errors r = [FileNotFound path] ∧ warnings r = [].
Proof.
  intros Hfs. unfold validate_sl1s_file, _check_file_exists. simpl.
  rewrite Hfs. simpl. done.
Qed.

(** C1 (the code departs from the claim): a file that exists and is not an
    archive does not stop the run after the archive check.  The three
    stages that follow each open the file again, and each appends an error
    of its own: the run ends with four errors, not one. *)
Theorem C1_invalid_archive_runs_every_stage set_iter path :
  let r := validate_sl1s_file (Samples.everywhere (Unopenable BadZipFile))
             set_iter (__init__ path) in
  errors r = [NotValidZip; ErrorCheckingRequired BadZipFile;
              ErrorReadingConfig BadZipFile; ErrorCheckingImages BadZipFile]
  ∧ warnings r = [].
Proof. done. Qed.

(** ** The configuration lookup *)

(** A parser without sections answers "not found" to every lookup,
    whatever its defaults hold: the first tier needs the section, the
    second asks [has_section] for the default section, which it never
    acknowledges, and the third has no section to visit. *)
Lemma lookup_without_sections s c section key :
  config s = Some c →
  ConfigParser._sections c = [] →
  _get_config_value s section key = Ok None.
Proof.
  intros Hc Hs. unfold _get_config_value. rewrite Hc.
  unfold ConfigParser.len, ConfigParser.has_section, ConfigParser.sections.
  rewrite Hs. reflexivity.
Qed.

(** C2 (the code departs from the claim): the same key and value written
    under a section header and written bare do not give the same lookup
    result.  The sectioned text yields the value; the bare text, read on
    the retry under a [DEFAULT] header, ends in the defaults of a parser
    without sections, and the lookup answers "not found". *)
Theorem C2_bare_config_key_not_found set_iter path :
  let after_extract lines :=
    _extract_config (Samples.everywhere (Samples.job lines)) (__init__ path) in
  let run lines :=
    validate_sl1s_file (Samples.everywhere (Samples.job lines)) set_iter
      (__init__ path) in
  _get_config_value (after_extract Samples.sectioned_config)
    "layerRenderParams" "jobDir" = Ok (Some "bar")
  ∧ _get_config_value (after_extract Samples.bare_config)
      "layerRenderParams" "jobDir" = Ok None
  ∧ (config (after_extract Samples.bare_config)
       ≫= λ c, ConfigParser._defaults c !! "jobdir") = Some (ConfigParser.Text "bar")
  ∧ errors (run Samples.sectioned_config) = [BaseNameMismatch "foo" "bar"]
  ∧ errors (run Samples.bare_config) = [].
Proof.
  intros after_extract run. subst after_extract run.
  split; [|split; [|split; [|split]]]; vm_compute; reflexivity.
Qed.

(** ** Configurations without section header *)

Lemma cursect_alter_no_sections f name c :
  ConfigParser._sections c = [] →
  ConfigParser._sections (ConfigParser.cursect_alter f name c) = [].
Proof. intros H. unfold ConfigParser.cursect_alter. rewrite H. done. Qed.

Lemma step_no_sections r lineno line r' :
  opens_no_section line →
  ConfigParser._sections (ConfigParser.cfg r) = [] →
  ConfigParser.step r lineno line = Ok r' →
  ConfigParser._sections (ConfigParser.cfg r') = [].
Proof.
  intros Hline Hr. unfold ConfigParser.step.
  set (stripped := PyStr.strip line) in *. unfold opens_no_section in Hline.
  fold stripped in Hline.
  destruct (PyStr.startswith stripped "#" || PyStr.startswith stripped ";") eqn:Hcomment.
  { simpl. destruct (ConfigParser.open_option r) as [[??]|]; by intros [= <-]. }
  destruct Hline as [?|Hline]; [done|].
  destruct (String.eqb stripped "").
  { destruct (ConfigParser.open_option r) as [[??]|]; intros [= <-]; [|done].
    by apply cursect_alter_no_sections. }
  assert (∀ body : result ConfigParser.reader,
            (body = Ok r' → ConfigParser._sections (ConfigParser.cfg r') = []) →
            match
              match ConfigParser.open_option r with
              | Some (s, o) =>
                  if (ConfigParser.indent_level r <? PyStr.indent_of line)%nat
                  then Some (ConfigParser.append_line s o stripped r) else None
              | None => None
              end
            with
            | Some r0 => Ok r0
            | None => body
            end = Ok r' → ConfigParser._sections (ConfigParser.cfg r') = []) as Hcont.
  { intros body Hbody.
    destruct (ConfigParser.open_option r) as [[sec o]|]; [|done].
    destruct (_ <? _)%nat; [|done].
    intros [= <-]. by apply cursect_alter_no_sections. }
  apply Hcont. clear Hcont.
  destruct Hline as [-> | ->].
  - destruct (ConfigParser.sectname r); [|discriminate].
    destruct (ConfigParser.match_option stripped) as [[o v]|].
    + destruct (bool_decide _); [discriminate|]. intros [= <-].
      by apply cursect_alter_no_sections.
    + by intros [= <-].
  - unfold ConfigParser.has_section. rewrite Hr. simpl. by intros [= <-].
Qed.

Lemma read_lines_no_sections ls r lineno :
  Forall opens_no_section ls →
  ConfigParser._sections (ConfigParser.cfg r) = [] →
  ConfigParser._sections (ConfigParser.cfg (ConfigParser.read_lines r lineno ls).1) = [].
Proof.
  intros Hls. revert r lineno. induction Hls as [|l ls Hl _ IH]; intros r lineno Hr;
    simpl; [done|].
  destruct (ConfigParser.step r lineno l) as [r'|e] eqn:Hstep; [|done].
  apply IH. by eapply step_no_sections.
Qed.

Lemma read_string_no_sections text :
  Forall opens_no_section (PyStr.readlines text) →
  ConfigParser._sections (ConfigParser.read_string ConfigParser.new text).1 = [].
Proof.
  intros Hls. unfold ConfigParser.read_string.
  pose proof (read_lines_no_sections (PyStr.readlines text)
                (ConfigParser.start ConfigParser.new) 1 Hls eq_refl) as H.
  destruct (ConfigParser.read_lines _ _ _) as [r [e|]]; simpl in *; [done|].
  unfold ConfigParser._join_multiline_values. simpl. by rewrite H.
Qed.

Lemma readlines_wrapped content :
  PyStr.readlines ("[DEFAULT]" +:+ String PyStr.LF "" +:+ content)
  = ("[DEFAULT]" +:+ String PyStr.LF "") :: PyStr.readlines content.
Proof. reflexivity. Qed.

(** A configuration without section header is never looked up
    successfully: the first read stops at the missing header, the wrapped
    read creates no section whether it succeeds or fails, and every
    lookup answers "not found". *)
Lemma bare_config_never_found fs s members config_file others content lineno line
    section key :
  open_zip fs s = Ok members →
  List.filter (λ f, PyStr.endswith f "config.ini" && negb (PyStr.startswith f "thumbnail/"))
    (namelist members) = config_file :: others →
  read_member members config_file = Ok content →
  (ConfigParser.read_string ConfigParser.new content).2
    = Some (MissingSectionHeaderError lineno line) →
  Forall opens_no_section (PyStr.readlines content) →
  _get_config_value (_extract_config fs s) section key = Ok None.
Proof.
  intros Hopen Hfiles Hread Hfirst Hbare.
  unfold _extract_config. rewrite Hopen, Hfiles, Hread.
  destruct (ConfigParser.read_string ConfigParser.new content) as [c e] eqn:E.
  simpl in Hfirst. subst e.
  assert (ConfigParser._sections
            (ConfigParser.read_string ConfigParser.new
               ("[DEFAULT]" +:+ String PyStr.LF "" +:+ content)).1 = []) as Hw.
  { apply read_string_no_sections. rewrite readlines_wrapped.
    constructor; [|done]. right. right. reflexivity. }
  destruct (ConfigParser.read_string ConfigParser.new
              ("[DEFAULT]" +:+ String PyStr.LF "" +:+ content)) as [c' e'].
  simpl in Hw.
  destruct e'; by eapply lookup_without_sections.
Qed.

(** ** A configuration that cannot be parsed *)

(** C4 (the code departs from the claim): [_extract_config] stores the
    parser in [self.config] before it reads the text, so after a failed
    read the attribute holds the parser with everything read before the
    failure, and the test [if not self.config] of the consistency check
    succeeds.  Here the first read stops at the missing header, the
    wrapped read ends with a [ParsingError] for the line without
    delimiter; the one error of the parse is followed by two errors of
    the consistency check, computed from the [numFast] that was read. *)
Theorem C4_failed_parse_keeps_config set_iter path :
  let fs := Samples.everywhere (Samples.job Samples.broken_config) in
  let s := _extract_config fs (__init__ path) in
  let r := validate_sl1s_file fs set_iter (__init__ path) in
  errors s = [ErrorReadingConfig (ParsingError [(5, "garbage" +:+ String PyStr.LF "")])]
  ∧ (ConfigParser.sections <$> config s) = Some ["layerRenderParams"]
  ∧ _get_config_value s "layerRenderParams" "numFast" = Ok (Some "3")
  ∧ errors r = errors s ++ [NumFastCountMismatch 3 2; LastNumberMismatch 1 2].
Proof.
  intros fs s r. subst fs s r.
  split; [|split; [|split]]; vm_compute; reflexivity.
Qed.

(** The same with a single read: a text that has its header and a line
    without delimiter. *)
Lemma failed_first_parse_keeps_config set_iter path :
  let fs := Samples.everywhere
              (Samples.job ["[layerRenderParams]"; "numFast = 3"; "garbage"]) in
  errors (validate_sl1s_file fs set_iter (__init__ path))
  = [ErrorReadingConfig (ParsingError [(3, "garbage" +:+ String PyStr.LF "")]);
     NumFastCountMismatch 3 2; LastNumberMismatch 1 2].
Proof. vm_compute. reflexivity. Qed.

(** ** The archive layout check *)

Lemma contains_char_count c s :
  PyStr.contains_char c s = negb (PyStr.count_char c s =? 0)%nat.
Proof.
  induction s as [|x s IH]; simpl; [done|].
  destruct (Ascii.eqb x c); simpl; [done|]. exact IH.
Qed.

(** A root file of the layout check is a name with at most one slash. *)
Lemma is_root_file_spec f :
  is_root_file f = true ↔ PyStr.count_char "/" f < 2.
Proof.
  unfold is_root_file. rewrite contains_char_count, negb_involutive.
  rewrite orb_true_iff, !Nat.eqb_eq. lia.
Qed.

Lemma errors_foldl_add_warning (l : list message) s :
  errors (foldl (λ s m, add_warning m s) s l) = errors s.
Proof. revert s. induction l as [|m l IH]; intros s; simpl; [done|]. by rewrite IH. Qed.

Lemma warnings_foldl_add_warning (l : list message) s :
  warnings (foldl (λ s m, add_warning m s) s l) = warnings s ++ l.
Proof.
  revert s. induction l as [|m l IH]; intros s; simpl.
  - by rewrite app_nil_r.
  - rewrite IH. simpl. by rewrite <- app_assoc.
Qed.

Lemma foldl_folder_warnings (l : list string) s :
  foldl (λ s folder_name, add_warning (FilesInSubfolder folder_name) s) s l
  = foldl (λ s m, add_warning m s) s (FilesInSubfolder <$> l).
Proof. revert s. induction l as [|x l IH]; intros s; simpl; [done|]. apply IH. Qed.

Lemma elem_of_offending_folders d names :
  d ∈ offending_folders names ↔
  ∃ f, f ∈ names ∧ in_subfolder f = true ∧ d = PyStr.split_head "/" f.
Proof.
  unfold offending_folders. rewrite elem_of_list_to_set, list_elem_of_fmap.
  split.
  - intros (f & -> & Hf). apply list_elem_of_In, filter_In in Hf as [Hin Hsub].
    exists f. by rewrite list_elem_of_In.
  - intros (f & Hin & Hsub & ->). exists f. split; [done|].
    apply list_elem_of_In, filter_In. by rewrite <- list_elem_of_In.
Qed.

(** What the layout check does to an archive that opens. *)
Lemma _check_zip_structure_archive fs set_iter s members :
  open_zip fs s = Ok members →
  _check_zip_structure fs set_iter s =
    match List.filter is_root_file (namelist members) with
    | [] => add_error ZipEmptyOrNested s
    | _ => foldl (λ s m, add_warning m s) s
             (FilesInSubfolder <$> set_iter (offending_folders (namelist members)))
    end
  ∨ (List.filter is_root_file (namelist members) ≠ []
     ∧ offending_folders (namelist members) = ∅
     ∧ _check_zip_structure fs set_iter s = s).
Proof.
  intros Hopen. unfold _check_zip_structure. rewrite Hopen.
  destruct (List.filter is_root_file (namelist members)) as [|r rs] eqn:Hroot;
    [by left|].
  fold (offending_folders (namelist members)).
  destruct (existsb in_subfolder (namelist members)) eqn:Hex.
  - case_bool_decide as Hempty.
    + right. done.
    + left. by rewrite foldl_folder_warnings.
  - right. split; [done|]. split; [|done].
    apply set_eq. intros d. rewrite elem_of_offending_folders. split; [|set_solver].
    intros (f & Hin & Hsub & _). exfalso.
    assert (existsb in_subfolder (namelist members) = true) as Htrue.
    { apply existsb_exists. exists f. by rewrite <- list_elem_of_In. }
    congruence.
Qed.

(** C3, counterexample: an archive whose only entry lies two folders deep
    has an entry outside the reserved prefixes, nested under a folder, and
    still gets the fatal error (and no warning).  Conversely an archive
    that holds nothing but a thumbnail gets no error. *)
Lemma C3_counterexample :
  ¬ layout_claim [Samples.image "job/layers/foo00000.png"]
  ∧ ¬ layout_claim [Samples.image "thumbnail/a.png"].
Proof.
  split.
  - intros [_ H]. apply H.
    + apply Exists_cons_hd. vm_compute. reflexivity.
    + vm_compute. left.
  - intros [[_ H] _].
    assert (ZipEmptyOrNested ∈ @nil message) as Hin.
    { apply H. repeat constructor. }
    by apply elem_of_nil in Hin.
Qed.

(** C3, amended: for an archive that opens, the fatal error is appended
    exactly when no entry name has fewer than two slashes (the list is
    empty or every entry lies at least two folders deep), and then no
    warning is.  Otherwise the check appends no error and one warning for
    each distinct first path component of the entries that contain a slash
    and do not start with [thumbnail/] or [preview/]. *)
Theorem C3_layout_check fs set_iter s members :
  set_iter_ok set_iter →
  open_zip fs s = Ok members →
  let s' := _check_zip_structure fs set_iter s in
  let names := namelist members in
  (Forall (λ f, 2 ≤ PyStr.count_char "/" f) names →
     errors s' = errors s ++ [ZipEmptyOrNested] ∧ warnings s' = warnings s)
  ∧ (Exists (λ f, PyStr.count_char "/" f < 2) names →
     errors s' = errors s
     ∧ ∃ folders, warnings s' = warnings s ++ (FilesInSubfolder <$> folders)
         ∧ NoDup folders
         ∧ ∀ d, d ∈ folders ↔
             ∃ f, f ∈ names ∧ in_subfolder f = true ∧ d = PyStr.split_head "/" f).
Proof.
  intros Hiter Hopen s' names.
  pose proof (_check_zip_structure_archive fs set_iter s members Hopen) as Hs.
  fold names in Hs. fold s' in Hs.
  split.
  - intros Hall.
    assert (List.filter is_root_file names = []) as Hroot.
    { destruct (List.filter is_root_file names) as [|r rs] eqn:E; [done|].
      assert (In r (List.filter is_root_file names)) as Hr by (rewrite E; left; done).
      apply filter_In in Hr as [Hin Hr]. apply is_root_file_spec in Hr.
      rewrite Forall_forall in Hall. apply list_elem_of_In, Hall in Hin. lia. }
    destruct Hs as [Hs|(Hne & _)]; [|done].
    rewrite Hroot in Hs. rewrite Hs. done.
  - intros Hex.
    assert (List.filter is_root_file names ≠ []) as Hroot.
    { apply Exists_exists in Hex as (f & Hin & Hf). intros E.
      assert (In f (List.filter is_root_file names)) as Hr.
      { apply filter_In. split; [by apply list_elem_of_In|by apply is_root_file_spec]. }
      rewrite E in Hr. destruct Hr. }
    destruct Hs as [Hs|(_ & Hempty & Hs)].
    + destruct (List.filter is_root_file names) as [|r rs]; [done|].
      rewrite Hs, errors_foldl_add_warning, warnings_foldl_add_warning.
      split; [done|]. exists (set_iter (offending_folders names)).
      split; [done|]. split.
      * rewrite (Hiter _). apply NoDup_elements.
      * intros d. rewrite (Hiter _), elem_of_elements.
        apply elem_of_offending_folders.
    + rewrite Hs. split; [done|]. exists []. simpl. rewrite app_nil_r.
      split; [done|]. split; [constructor|].
      intros d. rewrite <- elem_of_offending_folders, Hempty. set_solver.
Qed.

(** A run of the amended statement on an archive with two folders. *)
Lemma C3_layout_check_witness :
  let fs := Samples.everywhere
              (Archive [Samples.image "a/x.png"; Samples.image "b/y.png";
                        Samples.image "a/z.png"; Samples.image "thumbnail/t.png"]) in
  let s' := _check_zip_structure fs elements (__init__ "job.sl1s") in
  errors s' = []
  ∧ ∃ folders, warnings s' = FilesInSubfolder <$> folders
      ∧ NoDup folders ∧ ∀ d, d ∈ folders ↔ d = "a" ∨ d = "b".
Proof.
  intros fs s'.
  destruct (C3_layout_check fs elements (__init__ "job.sl1s")
              [Samples.image "a/x.png"; Samples.image "b/y.png";
               Samples.image "a/z.png"; Samples.image "thumbnail/t.png"]
              elements_set_iter_ok eq_refl) as [_ H].
  destruct H as [He (folders & Hw & Hnd & Hin)].
  { apply Exists_cons_hd. vm_compute. lia. }
  split; [exact He|]. exists folders. split; [exact Hw|]. split; [exact Hnd|].
  intros d. rewrite Hin. split.
  - intros (f & Hf & Hsub & ->).
    repeat (apply elem_of_cons in Hf as [->|Hf]);
      try (vm_compute; auto; fail); try (vm_compute in Hsub; discriminate).
    by apply elem_of_nil in Hf.
  - intros [->| ->].
    + exists "a/x.png". split; [by left|]. by vm_compute.
    + exists "b/y.png". split; [right; by left|]. by vm_compute.
Defined.

(** ** Sorted runs of integers *)

Lemma Sorted_seqZ m n : Sorted Z.le (seqZ m n).
Proof.
  destruct (decide (n ≤ 0)%Z) as [Hn|Hn]; [rewrite seqZ_nil by done; constructor|].
  revert m. induction (Z.to_nat n) as [|k IH] eqn:Hk in n, Hn |- *; intros m; [lia|].
  rewrite seqZ_cons by lia.
  destruct (decide (Z.pred n ≤ 0)%Z) as [Hp|Hp].
  - rewrite seqZ_nil by done. repeat constructor.
  - constructor; [apply IH; lia|]. rewrite seqZ_cons by lia. constructor. lia.
Qed.

(** A sorted list that contains the whole run from its first element, as
    long as itself, is that run. *)
Lemma sorted_run (ns : list Z) first rest :
  Sorted Z.le ns → ns = first :: rest →
  (∀ x, x ∈ seqZ first (Z.of_nat (length ns)) → x ∈ ns) →
  ns = seqZ first (Z.of_nat (length ns)).
Proof.
  intros Hsorted Hns Hsub. symmetry.
  apply (Sorted_unique Z.le); [apply Sorted_seqZ|done|].
  apply submseteq_length_Permutation.
  - apply NoDup_submseteq; [apply NoDup_seqZ|done].
  - rewrite length_seqZ. lia.
Qed.

Lemma StronglySorted_filter (P : Z → Prop) `{∀ x, Decision (P x)} (l : list Z) :
  StronglySorted Z.le l → StronglySorted Z.le (filter P l).
Proof.
  induction 1 as [|x l Hl IH Hx]; [constructor|].
  rewrite filter_cons. case_decide; [|done].
  constructor; [done|].
  rewrite Forall_forall in Hx |- *. intros y Hy.
  apply list_elem_of_filter in Hy as [_ Hy]. by apply Hx.
Qed.

(** Sorting the set difference gives the members of the run that the
    other list lacks, in the order of the run. *)
Lemma sorted_difference (E ns : list Z) :
  Sorted Z.le E → NoDup E →
  merge_sort Z.le (elements (list_to_set E ∖ list_to_set ns : gset Z))
  = filter (λ x, x ∉ ns) E.
Proof.
  intros HE Hnd.
  apply (Sorted_unique Z.le).
  - apply Sorted_merge_sort, _.
  - apply StronglySorted_Sorted, StronglySorted_filter.
    by apply Sorted_StronglySorted; [apply _|].
  - rewrite merge_sort_Permutation.
    apply NoDup_Permutation; [apply NoDup_elements|by apply NoDup_filter|].
    intros x. rewrite elem_of_elements, elem_of_difference, !elem_of_list_to_set.
    rewrite list_elem_of_filter. tauto.
Qed.

Lemma foldl_min_spec (l : list Z) a :
  foldl Z.min a l ∈ a :: l ∧ Forall (Z.le (foldl Z.min a l)) (a :: l).
Proof.
  revert a. induction l as [|x l IH]; intros a; simpl.
  - split; [by left|]. constructor; [lia|constructor].
  - destruct (IH (Z.min a x)) as [Hin Hle]. split.
    + apply elem_of_cons in Hin as [Hin|Hin]; [|by do 2 right].
      rewrite Hin. destruct (Z.min_spec a x) as [[_ ->]|[_ ->]];
        [by left|right; by left].
    + apply Forall_cons in Hle as [Hm Hle].
      constructor; [lia|]. constructor; [lia|done].
Qed.

(** The first element of the sorted list is the minimum of the list. *)
Lemma merge_sort_head (l : list Z) first rest :
  merge_sort Z.le l = first :: rest → first = list_min_Z l.
Proof.
  intros Hs.
  assert (Sorted Z.le (first :: rest)) as Hsorted.
  { rewrite <- Hs. apply Sorted_merge_sort, _. }
  apply Sorted_StronglySorted in Hsorted; [|apply _].
  apply StronglySorted_inv in Hsorted as [_ Hle].
  assert (first :: rest ≡ₚ l) as Hperm by (rewrite <- Hs; apply merge_sort_Permutation).
  destruct l as [|a l]; [by apply Permutation_nil_r in Hperm|].
  simpl. destruct (foldl_min_spec l a) as [Hin Hmin].
  rewrite <- Hperm in Hin, Hmin.
  apply Forall_cons in Hmin as [Hmf _].
  apply elem_of_cons in Hin as [Hin|Hin]; [done|].
  rewrite Forall_forall in Hle. apply Hle in Hin. lia.
Qed.

(** ** The image check *)

Lemma scan_images_all_match l s B N :
  Forall matches_pattern l →
  scan_images l s B N = (s, list_to_set (image_bases l) ∪ B, N ++ parsed_numbers l).
Proof.
  intros Hall. revert B N. induction Hall as [|f l [[b d] Hf] _ IH]; intros B N.
  - simpl. rewrite (left_id_L ∅ (∪)), app_nil_r. done.
  - unfold image_bases, parsed_numbers in *. simpl. rewrite Hf. simpl.
    rewrite IH, <- app_assoc. simpl.
    f_equal. f_equal.
    rewrite <- (assoc_L (∪)), (assoc_L (∪) _ {[b]}), (comm_L (∪) _ {[b]}).
    by rewrite <- !(assoc_L (∪)).
Qed.

Lemma range_loop_spec (l : list Z) s :
  errors (range_loop l s) = errors s ++ (NumberOutOfRange <$> List.filter out_of_range l)
  ∧ warnings (range_loop l s) = warnings s.
Proof.
  unfold range_loop. revert s. induction l as [|x l IH]; intros s; simpl.
  - by rewrite app_nil_r.
  - unfold out_of_range at 1.
    destruct ((x <? 0) || (99999 <? x))%Z; simpl.
    + destruct (IH (add_error (NumberOutOfRange x) s)) as [-> ->]. simpl.
      by rewrite <- app_assoc.
    + apply IH.
Qed.

(** The errors and warnings of the numbering check, in terms of the
    sorted list of numbers. *)
Lemma check_numbering_spec numbers s first rest :
  merge_sort Z.le numbers = first :: rest →
  let ns := first :: rest in
  let run := seqZ first (Z.of_nat (length ns)) in
  errors (check_numbering numbers s)
  = errors s
    ++ (if decide (ns = run) then []
        else [MissingNumbers (filter (λ x, x ∉ ns) run)])
    ++ (NumberOutOfRange <$> List.filter out_of_range ns)
  ∧ warnings (check_numbering numbers s)
    = warnings s
      ++ (if decide (first = 0%Z) then [] else [NumberingNotAtZero (PyStr.fmt05 first)]).
Proof.
  intros Hsort ns0 run0. subst ns0 run0. unfold check_numbering. rewrite Hsort.
  remember (first :: rest) as ns eqn:Hns.
  set (run := seqZ first (Z.of_nat (length ns))).
  assert (Sorted Z.le ns) as Hsorted.
  { rewrite <- Hsort. apply Sorted_merge_sort, _. }
  match goal with
  | |- context [foldl ?f ?s0 ns] =>
      destruct (range_loop_spec ns s0) as [He Hw];
      unfold range_loop in He, Hw; rewrite He, Hw; clear He Hw
  end.
  match goal with
  | |- context [if bool_decide (first = 0%Z) then ?X else _] => set (gap := X)
  end.
  assert (errors gap = errors s
            ++ (if decide (ns = run) then []
                else [MissingNumbers (filter (λ x, x ∉ ns) run)])
          ∧ warnings gap = warnings s) as [Hge Hgw].
  { unfold gap. case_bool_decide as Hrun; destruct (decide (ns = run)) as [?|Hne];
      try done.
    { by rewrite app_nil_r. }
    case_bool_decide as Hempty.
    - exfalso. apply Hne. eapply sorted_run; [done|done|].
      intros x Hx. destruct (decide (x ∈ ns)) as [|Hnot]; [done|].
      exfalso. cut (x ∈ (∅ : gset Z)); [apply not_elem_of_empty|].
      rewrite <- Hempty. apply elem_of_difference.
      by rewrite !elem_of_list_to_set.
    - simpl. rewrite sorted_difference by (apply Sorted_seqZ || apply NoDup_seqZ).
      done. }
  case_bool_decide; destruct (decide (first = 0%Z)); try done; simpl;
    rewrite Hge, Hgw, <- ?app_assoc, ?app_nil_r; done.
Qed.

Lemma filter_missing_range (l : list Z) :
  List.filter is_missing_numbers (NumberOutOfRange <$> l) = [].
Proof. induction l as [|x l IH]; simpl; done. Qed.

Lemma parsed_numbers_length l :
  Forall matches_pattern l → length (parsed_numbers l) = length l.
Proof.
  unfold parsed_numbers.
  induction 1 as [|f l [[b d] Hf] _ IH]; simpl; [done|].
  rewrite Hf. simpl. f_equal. exact IH.
Qed.

(** The image check on an archive whose images all match the pattern:
    the object after the scan is the one before it, and the set of base
    names and the list of numbers are those of the images. *)
Lemma _check_image_files_all_match fs set_iter s members :
  open_zip fs s = Ok members →
  let images := List.filter _is_layer_image (namelist members) in
  images ≠ [] →
  Forall matches_pattern images →
  _check_image_files fs set_iter s
  = check_numbering (parsed_numbers images)
      (let s1 := set_image_files images s in
       if (1 <? size (list_to_set (image_bases images) : gset string))%nat
       then add_error (MultipleBaseNames
                         (set_iter (list_to_set (image_bases images)))) s1
       else s1).
Proof.
  intros Hopen images Hne Hall. unfold _check_image_files. rewrite Hopen.
  fold images. destruct images as [|f l] eqn:E; [done|].
  rewrite scan_images_all_match by done.
  rewrite (right_id_L ∅ (∪)). done.
Qed.

(** C5: when every layer image matches the pattern and the sorted indices
    differ from the contiguous run that starts at the least index and has
    as many members as there are indices, the image check appends exactly
    one missing-numbers error.  The list it shows is not empty, ascending
    and without repetition, and its members are the members of the run
    that are no observed index. *)
Theorem C5_missing_numbers fs set_iter s members :
  open_zip fs s = Ok members →
  let images := List.filter _is_layer_image (namelist members) in
  let numbers := parsed_numbers images in
  let run := seqZ (list_min_Z numbers) (Z.of_nat (length numbers)) in
  images ≠ [] →
  Forall matches_pattern images →
  merge_sort Z.le numbers ≠ run →
  ∃ new missing,
    errors (_check_image_files fs set_iter s) = errors s ++ new
    ∧ List.filter is_missing_numbers new = [MissingNumbers missing]
    ∧ missing = filter (λ x, x ∉ numbers) run
    ∧ missing ≠ []
    ∧ Sorted Z.le missing ∧ NoDup missing
    ∧ ∀ x, x ∈ missing ↔ x ∈ run ∧ x ∉ numbers.
Proof.
  intros Hopen images numbers run Hne Hall Hgap.
  rewrite (_check_image_files_all_match fs set_iter s members Hopen Hne Hall).
  fold images. fold numbers.
  assert (merge_sort Z.le numbers ≡ₚ numbers) as Hperm
    by apply merge_sort_Permutation.
  assert (Sorted Z.le (merge_sort Z.le numbers)) as Hsorted
    by apply Sorted_merge_sort, _.
  destruct (merge_sort Z.le numbers) as [|first rest] eqn:Hsort.
  { apply Permutation_nil_l in Hperm.
    pose proof (parsed_numbers_length images Hall) as Hlen. fold numbers in Hlen.
    rewrite <- Hperm in Hlen. destruct images; [done|discriminate]. }
  pose proof (merge_sort_head numbers first rest Hsort) as Hfirst.
  subst first. set (ns := list_min_Z numbers :: rest) in *.
  match goal with
  | |- context [check_numbering numbers ?s0] =>
      destruct (check_numbering_spec numbers s0 _ rest Hsort) as [He _];
      set (s1 := s0) in *
  end.
  rewrite He. clear He. fold ns.
  rewrite (Permutation_length Hperm). fold run.
  destruct (decide (ns = run)) as [|_]; [done|].
  assert (∃ multi, errors s1 = errors s ++ multi
                   ∧ List.filter is_missing_numbers multi = []) as (multi & -> & Hm).
  { unfold s1. simpl. destruct (1 <? _)%nat; simpl.
    - eexists [_]. split; [done|]. done.
    - exists []. by rewrite app_nil_r. }
  assert (filter (λ x, x ∉ ns) run = filter (λ x, x ∉ numbers) run) as Hfilter.
  { apply list_filter_iff. intros x. by rewrite Hperm. }
  eexists _, (filter (λ x, x ∉ numbers) run).
  rewrite <- app_assoc. split; [done|].
  split; [|split; [done|split; [|split; [|split]]]].
  - rewrite !List.filter_app, Hm, filter_missing_range, Hfilter. done.
  - intros Hnil. apply Hgap. unfold run.
    rewrite <- (Permutation_length Hperm).
    apply (sorted_run ns (list_min_Z numbers) rest Hsorted eq_refl).
    intros x Hx. rewrite (Permutation_length Hperm) in Hx. fold run in Hx.
    destruct (decide (x ∈ numbers)) as [Hin|Hnot]; [by rewrite Hperm|].
    exfalso. cut (x ∈ @nil Z); [apply not_elem_of_nil|].
    rewrite <- Hnil. by apply list_elem_of_filter.
  - apply StronglySorted_Sorted, StronglySorted_filter.
    apply Sorted_StronglySorted; [apply _|apply Sorted_seqZ].
  - apply NoDup_filter, NoDup_seqZ.
  - intros x. rewrite list_elem_of_filter. tauto.
Qed.

(** The theorem on an archive whose images are numbered 0 and 2. *)
Lemma C5_missing_numbers_witness :
  let fs := Samples.everywhere
              (Archive [Samples.image "foo00000.png"; Samples.image "foo00002.png"]) in
  ∃ new, errors (_check_image_files fs elements (__init__ "job.sl1s")) = [] ++ new
    ∧ List.filter is_missing_numbers new = [MissingNumbers [1%Z]].
Proof.
  intros fs.
  destruct (C5_missing_numbers fs elements (__init__ "job.sl1s")
              [Samples.image "foo00000.png"; Samples.image "foo00002.png"] eq_refl)
    as (new & missing & He & Hf & Hm & _).
  - vm_compute. discriminate.
  - repeat constructor; vm_compute; eexists; reflexivity.
  - vm_compute. discriminate.
  - exists new. split; [exact He|]. rewrite Hf, Hm. vm_compute. reflexivity.
Defined.

(** ** What the pattern returns *)

Lemma match_tail_digits s d : LayerPattern.match_tail s = Some d → five_digits d.
Proof.
  unfold LayerPattern.match_tail.
  destruct s as [|d1 [|d2 [|d3 [|d4 [|d5 [|c e]]]]]]; try discriminate.
  destruct (PyStr.isdigit d1) eqn:H1; [|discriminate].
  destruct (PyStr.isdigit d2) eqn:H2; [|discriminate].
  destruct (PyStr.isdigit d3) eqn:H3; [|discriminate].
  destruct (PyStr.isdigit d4) eqn:H4; [|discriminate].
  destruct (PyStr.isdigit d5) eqn:H5; [|discriminate].
  simpl. destruct (_ && _); [|discriminate].
  intros [= <-]. split; [done|]. simpl. by rewrite H1, H2, H3, H4, H5.
Qed.

Lemma match_from_digits s base b d :
  LayerPattern.match_from base s = Some (b, d) → five_digits d.
Proof.
  revert base. induction s as [|c s IH]; intros base; simpl; [discriminate|].
  destruct (Ascii.eqb c PyStr.LF); [discriminate|].
  destruct (LayerPattern.match_tail s) as [d'|] eqn:Ht.
  - intros [= _ <-]. by eapply match_tail_digits.
  - apply IH.
Qed.

Lemma search_digits s b d : LayerPattern.search s = Some (b, d) → five_digits d.
Proof.
  induction s as [|c s IH]; simpl.
  - discriminate.
  - destruct (Ascii.eqb c PyStr.LF); [apply IH|].
    destruct (LayerPattern.match_tail s) as [d'|] eqn:Ht.
    + intros [= _ <-]. by eapply match_tail_digits.
    + destruct (LayerPattern.match_from _ s) as [[b' d']|] eqn:Hm.
      * intros [= _ <-]. by eapply match_from_digits.
      * apply IH.
Qed.

Lemma digit_value_range c :
  PyStr.isdigit c = true → (0 ≤ PyStr.digit_value c ≤ 9)%Z.
Proof.
  unfold PyStr.isdigit, PyStr.digit_value. rewrite andb_true_iff, !N.leb_le. lia.
Qed.

(** The value of five digits is an index between 0 and 99999. *)
Lemma five_digits_range d :
  five_digits d → (0 ≤ PyStr.digits_value 0 d ≤ 99999)%Z.
Proof.
  intros [Hlen Hd].
  destruct d as [|d1 [|d2 [|d3 [|d4 [|d5 [|c e]]]]]]; try discriminate.
  simpl in Hd. repeat (apply andb_true_iff in Hd as [?%digit_value_range Hd]).
  simpl. lia.
Qed.

Lemma parsed_numbers_range l :
  Forall (λ n, 0 ≤ n ≤ 99999)%Z (parsed_numbers l).
Proof.
  unfold parsed_numbers. induction l as [|f l IH]; simpl; [constructor|].
  destruct (LayerPattern.search (PyStr.basename f)) as [[b d]|] eqn:Hf; simpl;
    [|exact IH].
  constructor; [|exact IH]. eapply five_digits_range, search_digits, Hf.
Qed.

Lemma filter_out_of_range_nil (l : list Z) :
  Forall (λ n, 0 ≤ n ≤ 99999)%Z l → List.filter out_of_range l = [].
Proof.
  induction 1 as [|x l Hx _ IH]; simpl; [done|].
  unfold out_of_range at 1.
  destruct (Z.ltb_spec x 0); [lia|]. destruct (Z.ltb_spec 99999 x); [lia|].
  simpl. exact IH.
Qed.

(** ** Five-digit formatting *)

Lemma append_cons c (s t : string) : String c s +:+ t = String c (s +:+ t).
Proof. reflexivity. Qed.

Lemma append_nil (t : string) : "" +:+ t = t.
Proof. reflexivity. Qed.

Lemma append_nil_r (s : string) : s +:+ "" = s.
Proof. induction s as [|c s IH]; [done|]. by rewrite append_cons, IH. Qed.

Lemma append_assoc (a b c : string) : (a +:+ b) +:+ c = a +:+ b +:+ c.
Proof. induction a as [|x a IH]; [done|]. by rewrite !append_cons, IH. Qed.

Lemma length_append (a b : string) :
  String.length (a +:+ b) = String.length a + String.length b.
Proof. induction a as [|c a IH]; simpl; [done|]. by rewrite IH. Qed.

Lemma length_zeros n : String.length (PyStr.zeros n) = n.
Proof. induction n as [|n IH]; simpl; [done|]. by rewrite IH. Qed.

Lemma pretty_N_go_length (k : nat) (x : N) (s : string) :
  (x < 10 ^ N.of_nat k)%N →
  String.length (pretty_N_go x s) ≤ String.length s + k.
Proof.
  revert x s. induction k as [|k IH]; intros x s Hx.
  - assert (x = 0%N) as -> by (simpl in Hx; lia). rewrite pretty_N_go_0. lia.
  - destruct (decide (x = 0%N)) as [->|Hne]; [rewrite pretty_N_go_0; lia|].
    rewrite pretty_N_go_step by lia.
    etrans; [apply IH|simpl; lia].
    rewrite Nat2N.inj_succ, N.pow_succ_r' in Hx.
    apply N.Div0.div_lt_upper_bound. lia.
Qed.

Lemma fmt05_length (n : Z) :
  (0 ≤ n ≤ 99999)%Z → String.length (PyStr.fmt05 n) = 5.
Proof.
  intros Hn. unfold PyStr.fmt05.
  destruct (Z.ltb_spec n 0); [lia|].
  rewrite length_append, length_zeros.
  assert (String.length (pretty (Z.abs_N n)) ≤ 5); [|lia].
  unfold pretty, pretty_N. case_decide; [simpl; lia|].
  etrans; [apply (pretty_N_go_length 5)|simpl; lia].
  change (10 ^ N.of_nat 5)%N with 100000%N. lia.
Qed.

Lemma digits_value_app (a b : string) acc :
  PyStr.digits_value acc (a +:+ b) = PyStr.digits_value (PyStr.digits_value acc a) b.
Proof.
  revert acc. induction a as [|c a IH]; intros acc; [done|].
  rewrite append_cons. simpl. apply IH.
Qed.

Lemma forallb_app (p : ascii → bool) (a b : string) :
  PyStr.forallb p (a +:+ b) = PyStr.forallb p a && PyStr.forallb p b.
Proof.
  induction a as [|c a IH]; [done|].
  rewrite append_cons. simpl. by rewrite IH, andb_assoc.
Qed.

Lemma pretty_N_char_digit (m : N) :
  (m < 10)%N →
  PyStr.isdigit (pretty_N_char m) = true
  ∧ PyStr.digit_value (pretty_N_char m) = Z.of_N m.
Proof.
  intros Hm.
  assert (m = 0 ∨ m = 1 ∨ m = 2 ∨ m = 3 ∨ m = 4 ∨ m = 5 ∨ m = 6 ∨ m = 7
          ∨ m = 8 ∨ m = 9)%N as H by lia.
  repeat destruct H as [->|H]; try subst m; done.
Qed.

Lemma pretty_N_go_app (k : nat) (x : N) (s : string) :
  (x < 10 ^ N.of_nat k)%N → pretty_N_go x s = pretty_N_go x "" +:+ s.
Proof.
  revert x s. induction k as [|k IH]; intros x s Hx.
  - assert (x = 0%N) as -> by (simpl in Hx; lia). by rewrite !pretty_N_go_0.
  - destruct (decide (x = 0%N)) as [->|Hne]; [by rewrite !pretty_N_go_0|].
    rewrite !(pretty_N_go_step x) by lia.
    assert (x `div` 10 < 10 ^ N.of_nat k)%N as Hdiv.
    { rewrite Nat2N.inj_succ, N.pow_succ_r' in Hx.
      apply N.Div0.div_lt_upper_bound. lia. }
    rewrite (IH _ (String _ s)), (IH _ (String _ "")) by done.
    by rewrite append_assoc.
Qed.

(** The decimal digits of a number are digits, and their value is the
    number. *)
Lemma pretty_N_go_value (k : nat) (x : N) :
  (x < 10 ^ N.of_nat k)%N →
  PyStr.forallb PyStr.isdigit (pretty_N_go x "") = true
  ∧ PyStr.digits_value 0 (pretty_N_go x "") = Z.of_N x.
Proof.
  revert x. induction k as [|k IH]; intros x Hx.
  - assert (x = 0%N) as -> by (simpl in Hx; lia). by rewrite pretty_N_go_0.
  - destruct (decide (x = 0%N)) as [->|Hne]; [by rewrite pretty_N_go_0|].
    rewrite pretty_N_go_step by lia.
    assert (x `div` 10 < 10 ^ N.of_nat k)%N as Hdiv.
    { rewrite Nat2N.inj_succ, N.pow_succ_r' in Hx.
      apply N.Div0.div_lt_upper_bound. lia. }
    rewrite (pretty_N_go_app k) by done.
    destruct (IH _ Hdiv) as [Hdig Hval].
    destruct (pretty_N_char_digit (x `mod` 10)) as [Hc Hv];
      [apply N.mod_upper_bound; lia|].
    rewrite forallb_app, digits_value_app, Hdig, Hval. simpl. rewrite Hc, Hv.
    split; [done|].
    pose proof (N.Div0.div_mod x 10). lia.
Qed.

Lemma pretty_N_value (x : N) :
  PyStr.forallb PyStr.isdigit (pretty x) = true
  ∧ PyStr.digits_value 0 (pretty x) = Z.of_N x.
Proof.
  unfold pretty, pretty_N. case_decide as Hx; [by subst x|].
  apply (pretty_N_go_value (N.to_nat x)).
  rewrite N2Nat.id. apply N.pow_gt_lin_r. lia.
Qed.

Lemma zeros_value n (s : string) :
  PyStr.forallb PyStr.isdigit (PyStr.zeros n) = true
  ∧ PyStr.digits_value 0 (PyStr.zeros n +:+ s) = PyStr.digits_value 0 s.
Proof.
  induction n as [|n [IH1 IH2]]; [done|].
  cbn [PyStr.zeros PyStr.forallb]. rewrite append_cons.
  cbn [PyStr.digits_value]. split; [by rewrite IH1|exact IH2].
Qed.

(** Formatting an index and reading it back. *)
Lemma fmt05_value (n : Z) :
  (0 ≤ n ≤ 99999)%Z →
  five_digits (PyStr.fmt05 n) ∧ PyStr.digits_value 0 (PyStr.fmt05 n) = n.
Proof.
  intros Hn. split; [split; [by apply fmt05_length|]|]; unfold PyStr.fmt05;
    destruct (Z.ltb_spec n 0); try lia;
    destruct (pretty_N_value (Z.abs_N n)) as [Hdig Hval];
    destruct (zeros_value (5 - String.length (pretty (Z.abs_N n)))
                (pretty (Z.abs_N n))) as [Hz Hzv].
  - by rewrite forallb_app, Hz, Hdig.
  - rewrite Hzv, Hval. lia.
Qed.

(** ** A contiguous sequence of images *)

Lemma image_bases_one_base b l :
  l ≠ [] →
  Forall (λ f, ∃ d, LayerPattern.search (PyStr.basename f) = Some (b, d)) l →
  (list_to_set (image_bases l) : gset string) = {[b]}.
Proof.
  intros Hne Hall. unfold image_bases. apply set_eq. intros x.
  rewrite elem_of_list_to_set, elem_of_singleton, list_elem_of_omap.
  rewrite Forall_forall in Hall. split.
  - intros (f & Hin & Hx). destruct (Hall f Hin) as [d Hf].
    rewrite Hf in Hx. by injection Hx.
  - intros ->. destruct l as [|f l]; [done|]. exists f. split; [by left|].
    destruct (Hall f) as [d Hf]; [by left|]. by rewrite Hf.
Qed.

(** C8: N layer images that share one base name and whose indices are
    exactly k, ..., k+N-1.  The image check appends no error at all, so no
    naming, base-name or missing-index error.  For k = 0 it appends no
    warning; for k > 0 it appends exactly one warning, the one about the
    start index.  The text it carries is k as a five-digit value: five
    decimal digits whose value is k. *)
Theorem C8_contiguous_images fs set_iter s members b k :
  open_zip fs s = Ok members →
  let images := List.filter _is_layer_image (namelist members) in
  images ≠ [] →
  Forall (λ f, ∃ d, LayerPattern.search (PyStr.basename f) = Some (b, d)) images →
  parsed_numbers images ≡ₚ seqZ k (Z.of_nat (length images)) →
  let s' := _check_image_files fs set_iter s in
  errors s' = errors s
  ∧ warnings s'
    = warnings s
      ++ (if decide (k = 0%Z) then [] else [NumberingNotAtZero (PyStr.fmt05 k)])
  ∧ five_digits (PyStr.fmt05 k)
  ∧ PyStr.digits_value 0 (PyStr.fmt05 k) = k.
Proof.
  intros Hopen images Hne Hbase Hperm s'.
  assert (Forall matches_pattern images) as Hall.
  { eapply Forall_impl; [exact Hbase|]. intros f [d Hf]. by eexists. }
  unfold s'.
  rewrite (_check_image_files_all_match fs set_iter s members Hopen Hne Hall).
  fold images. rewrite (image_bases_one_base b images Hne Hbase).
  rewrite size_singleton. simpl.
  set (numbers := parsed_numbers images) in *.
  assert (merge_sort Z.le numbers = seqZ k (Z.of_nat (length images))) as Hsort.
  { apply (Sorted_unique Z.le); [apply Sorted_merge_sort, _|apply Sorted_seqZ|].
    by rewrite merge_sort_Permutation. }
  assert (Forall (λ n, 0 ≤ n ≤ 99999)%Z (seqZ k (Z.of_nat (length images)))) as Hrange.
  { rewrite <- Hperm. apply parsed_numbers_range. }
  destruct images as [|f l] eqn:E; [done|].
  rewrite seqZ_cons in Hsort, Hrange by (simpl; lia).
  destruct (check_numbering_spec numbers (set_image_files (f :: l) s) _ _ Hsort)
    as [He Hw].
  rewrite <- (seqZ_cons k) in He, Hrange by (simpl; lia).
  rewrite He, Hw. simpl errors. simpl warnings.
  rewrite length_seqZ, Nat2Z.id.
  rewrite decide_True by done.
  rewrite filter_out_of_range_nil by done. simpl. rewrite app_nil_r.
  split; [done|]. split; [done|].
  apply fmt05_value. rewrite seqZ_cons in Hrange by (simpl; lia).
  by apply Forall_cons in Hrange as [? _].
Qed.

(** The theorem on three images numbered from 3. *)
Lemma C8_contiguous_images_witness :
  let fs := Samples.everywhere
              (Archive [Samples.image "foo00004.png"; Samples.image "foo00003.png";
                        Samples.image "foo00005.jpg"]) in
  let s' := _check_image_files fs elements (__init__ "job.sl1s") in
  errors s' = []
  ∧ warnings s' = [] ++ [NumberingNotAtZero (PyStr.fmt05 3)]
  ∧ five_digits (PyStr.fmt05 3)
  ∧ PyStr.digits_value 0 (PyStr.fmt05 3) = 3%Z.
Proof.
  intros fs.
  apply (C8_contiguous_images fs elements (__init__ "job.sl1s")
           [Samples.image "foo00004.png"; Samples.image "foo00003.png";
            Samples.image "foo00005.jpg"] "foo" 3 eq_refl).
  - vm_compute. discriminate.
  - repeat constructor; vm_compute; eexists; reflexivity.
  - vm_compute. apply perm_swap.
Defined.

(** ** The pattern on a name that ends in digits, a dot and an extension *)

Lemma isdigit_not_dot c : PyStr.isdigit c = true → Ascii.eqb c "." = false.
Proof. destruct c as [[] [] [] [] [] [] [] []]; vm_compute; done. Qed.

Lemma isdigit_not_LF c : PyStr.isdigit c = true → Ascii.eqb c PyStr.LF = false.
Proof. destruct c as [[] [] [] [] [] [] [] []]; vm_compute; done. Qed.

Lemma length_lower s : String.length (PyStr.lower s) = String.length s.
Proof. induction s as [|c s IH]; simpl; [done|]. by rewrite IH. Qed.

Lemma is_ext_length e :
  LayerPattern.is_ext e = true → String.length e = 3 ∨ String.length e = 4.
Proof.
  unfold LayerPattern.is_ext. rewrite !orb_true_iff, !String.eqb_eq.
  intros [[H|H]|H]; apply (f_equal String.length) in H;
    rewrite length_lower in H; simpl in H; auto.
Qed.

Lemma at_end_length t : LayerPattern.at_end t = true → String.length t ≤ 1.
Proof.
  unfold LayerPattern.at_end. rewrite orb_true_iff, !String.eqb_eq.
  intros [->| ->]; simpl; lia.
Qed.

Lemma match_ext_length r : LayerPattern.match_ext r = true → String.length r ≤ 5.
Proof.
  unfold LayerPattern.match_ext.
  destruct r as [|a [|b [|c t]]]; try discriminate.
  rewrite orb_true_iff, andb_true_iff. intros [[_ Ht]|H].
  - apply at_end_length in Ht. simpl. lia.
  - destruct t as [|d t']; [discriminate|].
    apply andb_true_iff in H as [_ Ht]. apply at_end_length in Ht. simpl. lia.
Qed.

Lemma match_ext_exact e : LayerPattern.is_ext e = true → LayerPattern.match_ext e = true.
Proof.
  intros He. destruct (is_ext_length e He) as [Hl|Hl].
  - destruct e as [|a [|b [|c [|? ?]]]]; try discriminate.
    unfold LayerPattern.match_ext. by rewrite He.
  - destruct e as [|a [|b [|c [|d [|? ?]]]]]; try discriminate.
    unfold LayerPattern.match_ext. rewrite He. apply orb_true_r.
Qed.

Section Tail.
Variables d e : string.
Hypothesis Hd : five_digits d.
Hypothesis He : LayerPattern.is_ext e = true.

Lemma match_tail_exact : LayerPattern.match_tail (name_tail d e) = Some d.
Proof.
  destruct Hd as [Hlen Hdig]. unfold name_tail.
  destruct d as [|d1 [|d2 [|d3 [|d4 [|d5 [|? ?]]]]]]; try discriminate.
  simpl in Hdig. rewrite !append_cons, append_nil.
  unfold LayerPattern.match_tail.
  rewrite (match_ext_exact e He).
  repeat (apply andb_true_iff in Hdig as [-> Hdig]). done.
Qed.

(** The tail of the pattern matches nowhere before the tail of the
    name: within five characters of it the sixth character is a digit,
    further left too much text follows the dot. *)
Lemma match_tail_before x :
  x ≠ "" → LayerPattern.match_tail (x +:+ (name_tail d e)) = None.
Proof.
  intros Hx. destruct Hd as [Hlen Hdig]. unfold name_tail.
  destruct d as [|d1 [|d2 [|d3 [|d4 [|d5 [|? ?]]]]]]; try discriminate.
  simpl in Hdig.
  repeat (apply andb_true_iff in Hdig as [?%isdigit_not_dot Hdig]).
  destruct x as [|c1 [|c2 [|c3 [|c4 [|c5 [|c6 x']]]]]]; [done|..];
    rewrite !append_cons, ?append_nil; unfold LayerPattern.match_tail;
    repeat match goal with H : Ascii.eqb _ "." = false |- _ => rewrite H; clear H end;
    rewrite ?andb_false_r; try done.
  destruct (LayerPattern.match_ext _) eqn:Hext; [|by rewrite andb_false_r].
  apply match_ext_length in Hext.
  rewrite !length_append in Hext. simpl in Hext. lia.
Qed.

(** One start position: the lazy group reaches the tail unless a line
    feed stops it. *)
Lemma match_from_tail x base :
  x ≠ "" →
  LayerPattern.match_from base (x +:+ (name_tail d e))
  = if PyStr.contains_char PyStr.LF x then None else Some (base +:+ x, d).
Proof.
  revert base. induction x as [|c x IH]; intros base Hx; [done|].
  rewrite append_cons. simpl.
  destruct (Ascii.eqb c PyStr.LF) eqn:Hc; [done|]. simpl.
  - destruct x as [|c' x].
    + rewrite append_nil, match_tail_exact. simpl. done.
    + rewrite match_tail_before by done. rewrite IH by done.
      destruct (PyStr.contains_char PyStr.LF (String c' x)); [done|].
      by rewrite append_assoc.
Qed.

Lemma after_last_absent c s :
  PyStr.contains_char c s = false → PyStr.after_last c s = s.
Proof.
  destruct s as [|x s]; [done|]. simpl.
  intros [Hx Hs]%orb_false_iff. by rewrite Hs, Hx.
Qed.

(** The search: the group starts after the last line feed before the
    tail, at the very start of a name without line feed. *)
Lemma search_tail x :
  PyStr.after_last PyStr.LF x ≠ "" →
  LayerPattern.search (x +:+ (name_tail d e)) = Some (PyStr.after_last PyStr.LF x, d).
Proof.
  induction x as [|c x IH]; intros Hx; [done|].
  assert (String c x ≠ "") as Hne by done.
  pose proof (match_from_tail (String c x) "" Hne) as Hm.
  rewrite append_cons in Hm |- *.
  cbn [LayerPattern.search]. rewrite Hm. clear Hm.
  destruct (PyStr.contains_char PyStr.LF (String c x)) eqn:Hlf.
  - cbn [PyStr.after_last] in Hx |- *.
    cbn [PyStr.contains_char] in Hlf.
    destruct (PyStr.contains_char PyStr.LF x) eqn:Hlf'.
    + by apply IH.
    + rewrite orb_false_r in Hlf. rewrite Hlf in Hx |- *.
      rewrite <- (after_last_absent PyStr.LF x Hlf') at 2.
      apply IH. by rewrite after_last_absent.
  - by rewrite after_last_absent.
Qed.

End Tail.

Lemma contains_char_app c (a b : string) :
  PyStr.contains_char c (a +:+ b) = PyStr.contains_char c a || PyStr.contains_char c b.
Proof.
  induction a as [|x a IH]; [done|].
  rewrite append_cons. simpl. by rewrite IH, orb_assoc.
Qed.

Lemma digits_no_LF q :
  PyStr.forallb PyStr.isdigit q = true → PyStr.contains_char PyStr.LF q = false.
Proof.
  induction q as [|c q IH]; simpl; [done|].
  intros [Hc Hq]%andb_true_iff. by rewrite (isdigit_not_LF c Hc), IH.
Qed.

Lemma after_last_app c (p q : string) :
  PyStr.contains_char c q = false →
  PyStr.after_last c (p +:+ q) = PyStr.after_last c p +:+ q.
Proof.
  intros Hq. induction p as [|x p IH].
  - rewrite !append_nil. by apply after_last_absent.
  - rewrite append_cons. simpl.
    rewrite contains_char_app, Hq, orb_false_r.
    destruct (PyStr.contains_char c p); [exact IH|].
    by destruct (Ascii.eqb x c).
Qed.

Lemma append_not_nil (a b : string) : b ≠ "" → a +:+ b ≠ "".
Proof. destruct a; [done|]. by rewrite append_cons. Qed.

Lemma basename_root f : PyStr.contains_char "/" f = false → PyStr.basename f = f.
Proof. apply after_last_absent. Qed.

Lemma _is_layer_image_root f : _is_layer_image f = true → PyStr.basename f = f.
Proof.
  unfold _is_layer_image. intros [_ H]%andb_true_iff.
  apply basename_root. by apply negb_true_iff.
Qed.

(** C10: a root-level candidate whose stem ends in more than five digits
    (the stem is [p], a non-empty run of digits [q] and five more digits
    [d]).  The pattern matches; the index is the value of the last five
    digits; the digits before them end the base name, which is therefore
    not the text before the digits; and the scan records base name and
    index without appending an error.  The archive of [foo00000.png] and
    [foo100001.png] shows the two base names [foo] and [foo1] reported
    as such. *)
Theorem C10_more_than_five_digits p q d e s B N set_iter :
  q ≠ "" →
  PyStr.forallb PyStr.isdigit q = true →
  five_digits d →
  LayerPattern.is_ext e = true →
  let name := p +:+ q +:+ d +:+ String "." e in
  _is_layer_image name = true →
  let base := PyStr.after_last PyStr.LF p +:+ q in
  LayerPattern.search (PyStr.basename name) = Some (base, d)
  ∧ scan_images [name] s B N = (s, {[base]} ∪ B, N ++ [PyStr.digits_value 0 d])
  ∧ (0 ≤ PyStr.digits_value 0 d ≤ 99999)%Z
  ∧ base ≠ PyStr.after_last PyStr.LF p
  ∧ errors (_check_image_files
              (Samples.everywhere
                 (Archive [Samples.image "foo00000.png"; Samples.image "foo100001.png"]))
              set_iter (__init__ "job.sl1s"))
    = [MultipleBaseNames (set_iter {["foo1"; "foo"]})].
Proof.
  intros Hq Hdig Hd He name Himg base.
  assert (LayerPattern.search (PyStr.basename name) = Some (base, d)) as Hsearch.
  { rewrite (_is_layer_image_root name Himg). unfold name, base.
    rewrite <- append_assoc. fold (name_tail d e).
    rewrite <- (after_last_app PyStr.LF p q) by by apply digits_no_LF.
    apply search_tail; [done|done|].
    rewrite after_last_app by by apply digits_no_LF. by apply append_not_nil. }
  split; [exact Hsearch|]. split; [|split; [|split]].
  - simpl. by rewrite Hsearch.
  - by apply five_digits_range.
  - unfold base. intros Heq.
    apply (f_equal String.length) in Heq. rewrite length_append in Heq.
    destruct q; [done|]. simpl in Heq. lia.
  - vm_compute. reflexivity.
Qed.

(** The theorem on [foo123456.png]. *)
Lemma C10_more_than_five_digits_witness :
  LayerPattern.search (PyStr.basename "foo123456.png") = Some ("foo1", "23456")
  ∧ scan_images ["foo123456.png"] (__init__ "job.sl1s") ∅ []
    = (__init__ "job.sl1s", {["foo1"]} ∪ ∅, [] ++ [23456%Z]).
Proof.
  destruct (C10_more_than_five_digits "foo" "1" "23456" "png"
              (__init__ "job.sl1s") ∅ [] elements) as (H1 & H2 & _);
    [done|done|done|done|done|].
  split; [exact H1|exact H2].
Defined.

(** ** What the stages leave untouched *)

Lemma same_frame_refl s : same_frame s s.
Proof. done. Qed.

Lemma same_frame_trans s1 s2 s3 :
  same_frame s1 s2 → same_frame s2 s3 → same_frame s1 s3.
Proof. intros (?&?&?) (?&?&?). repeat split; congruence. Qed.

Lemma same_frame_add_error m s s' : same_frame s s' → same_frame s (add_error m s').
Proof. intros (?&?&?). done. Qed.

Lemma same_frame_add_warning m s s' : same_frame s s' → same_frame s (add_warning m s').
Proof. intros (?&?&?). done. Qed.

Create HintDb frame.
#[local] Hint Resolve same_frame_refl same_frame_add_error same_frame_add_warning : frame.

Lemma same_frame_foldl {A} (f : SL1SSanitizer → A → SL1SSanitizer) (l : list A) s s' :
  (∀ t x, same_frame s t → same_frame s (f t x)) →
  same_frame s s' → same_frame s (foldl f s' l).
Proof.
  intros Hf. revert s'. induction l as [|x l IH]; intros s' Hs; simpl; [done|].
  apply IH, Hf, Hs.
Qed.

Lemma scan_images_frame l s0 s B N :
  same_frame s0 s → same_frame s0 (scan_images l s B N).1.1.
Proof.
  revert s B N. induction l as [|f l IH]; intros s B N Hs; simpl; [done|].
  destruct (LayerPattern.search (PyStr.basename f)) as [[b d]|]; apply IH;
    auto with frame.
Qed.

Lemma check_numbering_frame numbers s0 s :
  same_frame s0 s → same_frame s0 (check_numbering numbers s).
Proof.
  intros Hs. unfold check_numbering.
  destruct (merge_sort Z.le numbers) as [|first rest]; [done|].
  apply same_frame_foldl.
  - intros t x Ht. destruct (_ || _); auto with frame.
  - repeat case_bool_decide; auto with frame.
Qed.

(** The image check stores the layer images in archive order and keeps
    the configuration. *)
Lemma _check_image_files_frame fs set_iter s members :
  open_zip fs s = Ok members →
  let s' := _check_image_files fs set_iter s in
  sl1s_file_path s' = sl1s_file_path s
  ∧ image_files s' = List.filter _is_layer_image (namelist members)
  ∧ config s' = config s.
Proof.
  intros Hopen. unfold _check_image_files. rewrite Hopen.
  set (images := List.filter _is_layer_image (namelist members)).
  set (s1 := set_image_files images s).
  assert (sl1s_file_path s1 = sl1s_file_path s ∧ image_files s1 = images
          ∧ config s1 = config s) as Hs1 by done.
  cut (same_frame s1
         match images with
         | [] => add_warning NoLayerImages s1
         | _ :: _ =>
             let '(self, base_names, numbers) := scan_images images s1 ∅ [] in
             check_numbering numbers
               (if (1 <? size base_names)%nat
                then add_error (MultipleBaseNames (set_iter base_names)) self
                else self)
         end).
  { intros (?&?&?). destruct Hs1 as (?&?&?). simpl. repeat split; congruence. }
  destruct images as [|f l]; [auto with frame|].
  pose proof (scan_images_frame (f :: l) s1 s1 ∅ [] (same_frame_refl _)) as Hscan.
  destruct (scan_images (f :: l) s1 ∅ []) as [[self B] N]. simpl in Hscan.
  apply check_numbering_frame. destruct (1 <? size B)%nat; auto with frame.
Qed.

(** The lookup reads nothing but the configuration. *)
Lemma _get_config_value_ext s s' section key :
  config s' = config s → _get_config_value s' section key = _get_config_value s section key.
Proof. intros H. unfold _get_config_value. by rewrite H. Qed.

Lemma lookup_found_config_true s section key v :
  _get_config_value s section key = Ok (Some v) → config_is_true s = true.
Proof.
  unfold _get_config_value, config_is_true.
  destruct (config s) as [c|]; [|discriminate].
  destruct (ConfigParser.len c =? 0)%nat; [discriminate|done].
Qed.

(** ** The consistency check *)

Lemma check_job_dir_spec job_dir s :
  same_frame s (check_job_dir job_dir s)
  ∧ warnings (check_job_dir job_dir s) = warnings s
  ∧ ∃ new, errors (check_job_dir job_dir s) = errors s ++ new
      ∧ (∀ j first rest base digits,
           job_dir = Some j → j ≠ "" → image_files s = first :: rest →
           LayerPattern.search (PyStr.basename first) = Some (base, digits) →
           new = if decide (strip_separators base = strip_separators j) then []
                 else [BaseNameMismatch (strip_separators base) (strip_separators j)]).
Proof.
  unfold check_job_dir.
  destruct job_dir as [[|c j]|];
    try (split; [done|]; split; [done|]; exists []; rewrite app_nil_r;
         split; [done|]; intros; simplify_eq; done).
  destruct (image_files s) as [|first rest] eqn:Himg;
    try (split; [done|]; split; [done|]; exists []; rewrite app_nil_r;
         split; [done|]; intros; simplify_eq; done).
  destruct (LayerPattern.search (PyStr.basename first)) as [[base digits]|] eqn:Hs;
    try (split; [done|]; split; [done|]; exists []; rewrite app_nil_r;
         split; [done|]; intros; simplify_eq; done).
  case_bool_decide as Heq.
  - split; [done|]. split; [done|]. exists []. rewrite app_nil_r. split; [done|].
    intros. simplify_eq. by rewrite decide_True.
  - split; [done|]. split; [done|]. eexists. split; [done|].
    intros. simplify_eq. by rewrite decide_False.
Qed.

Lemma check_num_fast_spec v s :
  v ≠ "" →
  errors (check_num_fast (Some v) s)
  = errors s ++ match PyStr.int v with
                | None => [NumFastNotInteger]
                | Some n => num_fast_errors n (image_files s)
                end
  ∧ warnings (check_num_fast (Some v) s) = warnings s.
Proof.
  intros Hv. unfold check_num_fast, num_fast_errors.
  destruct v as [|c v]; [done|].
  destruct (PyStr.int (String c v)) as [n|]; [|done].
  cbv zeta.
  case_bool_decide as Hc; destruct (decide (n = _)); try done; simpl image_files;
    (destruct (parsed_numbers (image_files s)) as [|x numbers'] eqn:Hn;
     [destruct (decide (_ ∧ _)) as [[? _]|_]; [done|]; simpl; by rewrite ?app_nil_r
     |case_bool_decide as Hm; destruct (decide (_ ∧ _)) as [[_ ?]|Hn']; try done;
      simpl; rewrite <- ?app_assoc, ?app_nil_r; try done; exfalso; apply Hn'; done]).
Qed.

(** Reading C6 with "present" as "the key exists": the archive below has
    [numFast] under its section with an empty value, which is no integer,
    and the run reports no error at all. *)
Lemma C6_counterexample :
  let fs := Samples.everywhere
              (Archive [Samples.member "config.ini" ["[layerRenderParams]"; "numFast ="];
                        Samples.member "prusaslicer.ini" [];
                        Samples.image "foo00000.png"]) in
  let r := validate_sl1s_file fs elements (__init__ "job.sl1s") in
  _get_config_value r "layerRenderParams" "numFast" = Ok (Some "")
  ∧ PyStr.int "" = None
  ∧ errors r = [].
Proof. vm_compute. done. Qed.

(** The [numFast] block is not reached when the [jobDir] lookup raises:
    a percent sign that starts no reference makes the interpolation of
    the value fail, and the one error of the handler replaces both
    comparisons (four layers announced, one image present). *)
Lemma num_fast_unchecked_when_job_dir_raises :
  let fs := Samples.everywhere
              (Archive [Samples.member "config.ini"
                          ["[layerRenderParams]"; "jobDir = 50%"; "numFast = 4"];
                        Samples.member "prusaslicer.ini" [];
                        Samples.image "foo00000.png"]) in
  errors (validate_sl1s_file fs elements (__init__ "job.sl1s"))
  = [ErrorCheckingConsistency
       (InterpolationSyntaxError "jobdir" "layerRenderParams" "%")].
Proof. vm_compute. done. Qed.

(** C6, amended: on ASCII text (the parser, the layer-image names and
    the value), when the [jobDir] lookup returns and the [numFast] lookup
    returns a non-empty value, the errors the consistency check appends
    after the job-name block are these.  For a value [int] rejects (no
    integer literal, or one of more than 4300 digits), the one error about
    the integer.  For an integer n, an error when n differs from the
    number of layer images (all of them, also the ones that do not match
    the pattern), and, independently, an error when some index was parsed
    and the largest differs from n - 1. *)
Theorem C6_layer_count_check s job_dir v :
  (∀ c, config s = Some c → ascii_parser c = true) →
  ascii_names (image_files s) = true →
  PyStr.isascii v = true →
  _get_config_value s "layerRenderParams" "jobDir" = Ok job_dir →
  _get_config_value s "layerRenderParams" "numFast" = Ok (Some v) →
  v ≠ "" →
  let images := image_files s in
  let numbers := parsed_numbers images in
  ∃ new,
    errors (_check_config_consistency s) = errors (check_job_dir job_dir s) ++ new
    ∧ (PyStr.int v = None → new = [NumFastNotInteger])
    ∧ (∀ n, PyStr.int v = Some n →
         new = num_fast_errors n images
         ∧ (NumFastCountMismatch n (length images) ∈ new ↔ n ≠ Z.of_nat (length images))
         ∧ (LastNumberMismatch (list_max_Z numbers) (n - 1) ∈ new
            ↔ numbers ≠ [] ∧ list_max_Z numbers ≠ (n - 1)%Z)).
Proof.
  intros _ _ _ Hjob Hnum Hv images numbers.
  unfold _check_config_consistency.
  rewrite (lookup_found_config_true _ _ _ _ Hnum). simpl. rewrite Hjob.
  destruct (check_job_dir_spec job_dir s) as ((Hp & Hi & Hc) & _ & _).
  rewrite (_get_config_value_ext s _ _ _ Hc), Hnum.
  destruct (check_num_fast_spec v (check_job_dir job_dir s) Hv) as [-> _].
  rewrite Hi. fold images.
  eexists. split; [done|]. split.
  - by intros ->.
  - intros n ->. split; [done|]. unfold num_fast_errors. fold numbers. split.
    + destruct (decide (n = Z.of_nat (length images))) as [Hn|Hn];
        destruct (decide (_ ∧ _)); simpl; split; intros H;
        try done; try (by left);
        repeat (apply elem_of_cons in H as [H|H]; try done);
        by apply elem_of_nil in H.
    + destruct (decide (n = Z.of_nat (length images)));
        destruct (decide (numbers ≠ [] ∧ _)) as [Hm|Hm]; simpl; split; intros H;
        try done; try (by left); try (right; by left);
        repeat (apply elem_of_cons in H as [H|H]; try done);
        by apply elem_of_nil in H.
Qed.

(** The theorem on the sectioned sample with [numFast = 3] and two images:
    both comparisons fail. *)
Lemma C6_layer_count_check_witness :
  let fs := Samples.everywhere (Samples.job ["[layerRenderParams]"; "numFast = 3"]) in
  let s := _check_image_files fs elements (_extract_config fs (__init__ "job.sl1s")) in
  ∃ new,
    errors (_check_config_consistency s) = errors (check_job_dir None s) ++ new
    ∧ new = [NumFastCountMismatch 3 2; LastNumberMismatch 1 2].
Proof.
  intros fs s.
  destruct (C6_layer_count_check s None "3") as (new & He & _ & Hn);
    [intros c Hc; vm_compute in Hc; injection Hc as <-; vm_compute; reflexivity
    |vm_compute; reflexivity|reflexivity
    |vm_compute; reflexivity|vm_compute; reflexivity|done|].
  exists new. split; [exact He|].
  destruct (Hn 3%Z eq_refl) as [-> _]. vm_compute. reflexivity.
Defined.

(** C7 (the code departs from the claim): the job-name check strips the
    trailing underscores and then the trailing hyphens, each kind once,
    where the claim strips every trailing underscore and hyphen.  For
    [jobDir = foo-_] the two steps do what the claim says: the underscore
    goes, then the hyphen, and [foo] agrees with the base name of
    [foo00000.png].  For [jobDir = foo_-] the first step finds no
    underscore at the end, the second takes the hyphen, and the check
    compares [foo] with [foo_]: it reports a mismatch although both names
    are [foo] once every trailing underscore and hyphen is gone. *)
Theorem C7_separator_order_slip :
  let run job_dir_line :=
    validate_sl1s_file
      (Samples.everywhere
         (Archive [Samples.member "config.ini" ["[layerRenderParams]"; job_dir_line];
                   Samples.member "prusaslicer.ini" [];
                   Samples.image "foo00000.png"]))
      elements (__init__ "job.sl1s") in
  LayerPattern.search (PyStr.basename "foo00000.png") = Some ("foo", "00000")
  ∧ strip_trailing_separators "foo" = "foo"
  ∧ strip_trailing_separators "foo-_" = "foo"
  ∧ strip_trailing_separators "foo_-" = "foo"
  ∧ _get_config_value (run "jobDir = foo-_") "layerRenderParams" "jobDir"
    = Ok (Some "foo-_")
  ∧ errors (run "jobDir = foo-_") = []
  ∧ _get_config_value (run "jobDir = foo_-") "layerRenderParams" "jobDir"
    = Ok (Some "foo_-")
  ∧ errors (run "jobDir = foo_-") = [BaseNameMismatch "foo" "foo_"].
Proof. vm_compute. done. Qed.

(** Two more inputs on which the check stays silent although the
    stripped names differ: an empty [jobDir], and a first layer image that
    does not match the pattern. *)
Lemma job_name_check_silent :
  let run config_lines images :=
    validate_sl1s_file
      (Samples.everywhere
         (Archive ([Samples.member "config.ini" config_lines;
                    Samples.member "prusaslicer.ini" []] ++ images)))
      elements (__init__ "job.sl1s") in
  errors (run ["[layerRenderParams]"; "jobDir ="] [Samples.image "foo00000.png"]) = []
  ∧ errors (run ["[layerRenderParams]"; "jobDir = bar"]
              [Samples.image "cover.png"; Samples.image "foo00000.png"])
    = [BadImageName "cover.png"].
Proof. vm_compute. done. Qed.

(** ** Two runs on one archive *)

Lemma Forall2_msg_equiv_refl l : Forall2 msg_equiv l l.
Proof. induction l; constructor; [constructor|done]. Qed.

Lemma warnings_equiv_refl w : warnings_equiv w w.
Proof. exists w, [], [], []. simpl. by rewrite app_nil_r. Qed.

Lemma run_equiv_refl s : run_equiv s s.
Proof.
  repeat split; auto using Forall2_msg_equiv_refl, warnings_equiv_refl.
Qed.

Lemma run_equiv_add_error m1 m2 s1 s2 :
  msg_equiv m1 m2 → run_equiv s1 s2 → run_equiv (add_error m1 s1) (add_error m2 s2).
Proof.
  intros Hm (Hp & He & Hw & Hi & Hc). repeat split; simpl; try done.
  apply Forall2_app; [done|]. by constructor.
Qed.

Lemma run_equiv_add_warning m s1 s2 :
  run_equiv s1 s2 → run_equiv (add_warning m s1) (add_warning m s2).
Proof.
  intros (Hp & He & (pre & f1 & f2 & rest & Hw1 & Hw2 & Hf) & Hi & Hc).
  repeat split; simpl; try done.
  exists pre, f1, f2, (rest ++ [m]). rewrite Hw1, Hw2, <- !app_assoc. done.
Qed.

Lemma run_equiv_set_image_files l s1 s2 :
  run_equiv s1 s2 → run_equiv (set_image_files l s1) (set_image_files l s2).
Proof. intros (?&?&?&?&?). done. Qed.

Lemma run_equiv_set_config c s1 s2 :
  run_equiv s1 s2 → run_equiv (set_config c s1) (set_config c s2).
Proof. intros (?&?&?&?&?). done. Qed.

#[local] Hint Resolve run_equiv_refl run_equiv_add_warning run_equiv_set_image_files
  run_equiv_set_config msg_equiv_same : frame.
#[local] Hint Extern 1 (run_equiv (add_error _ _) (add_error _ _)) =>
  apply run_equiv_add_error; [apply msg_equiv_same|] : frame.

Lemma run_equiv_foldl {A} (f : SL1SSanitizer → A → SL1SSanitizer) (l : list A) s1 s2 :
  (∀ t1 t2 x, run_equiv t1 t2 → run_equiv (f t1 x) (f t2 x)) →
  run_equiv s1 s2 → run_equiv (foldl f s1 l) (foldl f s2 l).
Proof.
  intros Hf. revert s1 s2. induction l as [|x l IH]; intros s1 s2 Hs; simpl; [done|].
  apply IH, Hf, Hs.
Qed.

Lemma open_zip_equiv fs s1 s2 : run_equiv s1 s2 → open_zip fs s1 = open_zip fs s2.
Proof. intros (Hp & _). unfold open_zip. by rewrite Hp. Qed.

(** The layout check, run from one object under two iteration orders. *)
Lemma _check_zip_structure_equiv fs o1 o2 s :
  set_iter_ok o1 → set_iter_ok o2 →
  run_equiv (_check_zip_structure fs o1 s) (_check_zip_structure fs o2 s).
Proof.
  intros H1 H2. unfold _check_zip_structure.
  destruct (open_zip fs s) as [members|e]; [|destruct e; auto with frame].
  destruct (List.filter is_root_file (namelist members)); [auto with frame|].
  destruct (existsb in_subfolder (namelist members)); [|auto with frame].
  case_bool_decide; [auto with frame|].
  set (X := list_to_set _).
  rewrite !foldl_folder_warnings.
  assert (∀ ws, same_frame s (foldl (λ s m, add_warning m s) s ws)) as Hframe.
  { intros ws. apply same_frame_foldl; auto with frame. }
  destruct (Hframe (FilesInSubfolder <$> o1 X)) as (Hp1 & Hi1 & Hc1).
  destruct (Hframe (FilesInSubfolder <$> o2 X)) as (Hp2 & Hi2 & Hc2).
  repeat split; try congruence.
  - rewrite !errors_foldl_add_warning. apply Forall2_msg_equiv_refl.
  - rewrite !warnings_foldl_add_warning.
    exists (warnings s), (o1 X), (o2 X), []. rewrite !app_nil_r.
    split; [done|]. split; [done|]. by rewrite (H1 X), (H2 X).
Qed.

Lemma _check_required_files_equiv fs s1 s2 :
  run_equiv s1 s2 →
  run_equiv (_check_required_files fs s1) (_check_required_files fs s2).
Proof.
  intros Hs. unfold _check_required_files. rewrite (open_zip_equiv fs s1 s2 Hs).
  destruct (open_zip fs s2) as [members|e]; [|auto with frame].
  apply run_equiv_foldl; [|done].
  intros t1 t2 x Ht. destruct (existsb _ _); auto with frame.
Qed.

Lemma _extract_config_equiv fs s1 s2 :
  run_equiv s1 s2 → run_equiv (_extract_config fs s1) (_extract_config fs s2).
Proof.
  intros Hs. unfold _extract_config. rewrite (open_zip_equiv fs s1 s2 Hs).
  destruct (open_zip fs s2) as [members|e]; [|auto with frame].
  destruct (List.filter _ (namelist members)) as [|config_file ?]; [auto with frame|].
  destruct (read_member members config_file) as [content|e]; [|auto with frame].
  destruct (ConfigParser.read_string ConfigParser.new content) as [c [e|]];
    [|auto with frame].
  destruct e; auto with frame.
  destruct (ConfigParser.read_string ConfigParser.new _) as [c' [e'|]];
    auto with frame.
Qed.

Lemma scan_images_equiv l s1 s2 B N :
  run_equiv s1 s2 →
  run_equiv (scan_images l s1 B N).1.1 (scan_images l s2 B N).1.1
  ∧ (scan_images l s1 B N).1.2 = (scan_images l s2 B N).1.2
  ∧ (scan_images l s1 B N).2 = (scan_images l s2 B N).2.
Proof.
  revert s1 s2 B N. induction l as [|f l IH]; intros s1 s2 B N Hs; simpl; [done|].
  destruct (LayerPattern.search (PyStr.basename f)) as [[b d]|]; apply IH;
    auto with frame.
Qed.

Lemma check_numbering_equiv numbers s1 s2 :
  run_equiv s1 s2 →
  run_equiv (check_numbering numbers s1) (check_numbering numbers s2).
Proof.
  intros Hs. unfold check_numbering.
  destruct (merge_sort Z.le numbers) as [|first rest]; [done|].
  apply run_equiv_foldl.
  - intros t1 t2 x Ht. destruct (_ || _); auto with frame.
  - repeat case_bool_decide; auto with frame.
Qed.

Lemma _check_image_files_equiv fs o1 o2 s1 s2 :
  set_iter_ok o1 → set_iter_ok o2 →
  run_equiv s1 s2 →
  run_equiv (_check_image_files fs o1 s1) (_check_image_files fs o2 s2).
Proof.
  intros H1 H2 Hs. unfold _check_image_files. rewrite (open_zip_equiv fs s1 s2 Hs).
  destruct (open_zip fs s2) as [members|e]; [|auto with frame].
  set (images := List.filter _is_layer_image (namelist members)).
  destruct images as [|f l] eqn:E; [auto with frame|].
  destruct (scan_images_equiv (f :: l) (set_image_files (f :: l) s1)
              (set_image_files (f :: l) s2) ∅ []) as (Hr & HB & HN);
    [auto with frame|].
  destruct (scan_images (f :: l) (set_image_files (f :: l) s1) ∅ []) as [[t1 B1] N1].
  destruct (scan_images (f :: l) (set_image_files (f :: l) s2) ∅ []) as [[t2 B2] N2].
  simpl in Hr, HB, HN. subst B2 N2.
  apply check_numbering_equiv.
  destruct (1 <? size B1)%nat; [|done].
  apply run_equiv_add_error; [|done].
  constructor. by rewrite (H1 B1), (H2 B1).
Qed.

Lemma _check_config_consistency_equiv s1 s2 :
  run_equiv s1 s2 →
  run_equiv (_check_config_consistency s1) (_check_config_consistency s2).
Proof.
  intros Hs. pose proof Hs as (_ & _ & _ & Hi & Hc).
  unfold _check_config_consistency, config_is_true. rewrite Hc.
  destruct (config s2) as [c|] eqn:Hcfg; [|done].
  destruct (negb (negb _)); [done|].
  rewrite (_get_config_value_ext s2 s1 _ _) by congruence.
  destruct (_get_config_value s2 "layerRenderParams" "jobDir") as [job_dir|e];
    [|auto with frame].
  assert (run_equiv (check_job_dir job_dir s1) (check_job_dir job_dir s2)) as Hj.
  { unfold check_job_dir. rewrite Hi.
    destruct job_dir as [[|??]|]; try done.
    destruct (image_files s2) as [|first ?]; [done|].
    destruct (LayerPattern.search _) as [[??]|]; [|done].
    case_bool_decide; auto with frame. }
  destruct (check_job_dir_spec job_dir s1) as ((_ & Hi1 & Hc1) & _).
  destruct (check_job_dir_spec job_dir s2) as ((_ & Hi2 & Hc2) & _).
  rewrite (_get_config_value_ext s2 (check_job_dir job_dir s1) _ _) by congruence.
  rewrite (_get_config_value_ext s2 (check_job_dir job_dir s2) _ _) by congruence.
  destruct (_get_config_value s2 "layerRenderParams" "numFast") as [num_fast_str|e];
    [|auto with frame].
  unfold check_num_fast. rewrite Hi1, Hi2, Hi.
  destruct num_fast_str as [[|??]|]; try done.
  destruct (PyStr.int _) as [n|]; [|auto with frame].
  assert (run_equiv
            (if bool_decide (n = Z.of_nat (length (image_files s2)))
             then check_job_dir job_dir s1
             else add_error (NumFastCountMismatch n (length (image_files s2)))
                    (check_job_dir job_dir s1))
            (if bool_decide (n = Z.of_nat (length (image_files s2)))
             then check_job_dir job_dir s2
             else add_error (NumFastCountMismatch n (length (image_files s2)))
                    (check_job_dir job_dir s2))) as Hn.
  { case_bool_decide; auto with frame. }
  case_bool_decide; simpl image_files; rewrite ?Hi1, ?Hi2, ?Hi;
    destruct (parsed_numbers (image_files s2)); try done;
    case_bool_decide; auto with frame.
Qed.

(** C9, counterexample: the two iteration orders [elements] and its
    reverse both list every set correctly, and under them the same archive
    gives its two sub-folder warnings in different orders, and the same
    two base names in different orders inside the error message. *)
Lemma C9_counterexample :
  ∃ o1 o2, set_iter_ok o1 ∧ set_iter_ok o2 ∧
    let fs := Samples.everywhere
                (Archive [Samples.image "a/x.txt"; Samples.image "b/y.txt";
                          Samples.image "foo00000.png"; Samples.image "bar00001.png"]) in
    let r1 := validate_sl1s_file fs o1 (__init__ "job.sl1s") in
    let r2 := validate_sl1s_file fs o2 (__init__ "job.sl1s") in
    warnings r1 ≠ warnings r2 ∧ errors r1 ≠ errors r2.
Proof.
  exists elements, (λ X, reverse (elements X)).
  split; [apply elements_set_iter_ok|]. split; [apply reverse_elements_set_iter_ok|].
  vm_compute. split; discriminate.
Qed.

(** C9, amended: two runs on the same archive agree up to the order in
    which Python lists its sets.  The error lists agree position by
    position, except that the base names inside a multiple-base-names
    message may come in another order; the warning lists agree except for
    the order inside the block of sub-folder warnings; the layer images,
    the configuration and the verdict are the same. *)
Theorem C9_runs_agree_up_to_set_order fs o1 o2 s :
  set_iter_ok o1 → set_iter_ok o2 →
  let r1 := validate_sl1s_file fs o1 s in
  let r2 := validate_sl1s_file fs o2 s in
  Forall2 msg_equiv (errors r1) (errors r2)
  ∧ warnings_equiv (warnings r1) (warnings r2)
  ∧ image_files r1 = image_files r2
  ∧ config r1 = config r2
  ∧ _generate_report r1 = _generate_report r2.
Proof.
  intros H1 H2 r1 r2.
  assert (run_equiv r1 r2) as (_ & He & Hw & Hi & Hc).
  { unfold r1, r2, validate_sl1s_file.
    destruct (errors (_check_file_exists fs s)); [|apply run_equiv_refl].
    apply _check_config_consistency_equiv, _check_image_files_equiv; [done|done|].
    apply _extract_config_equiv, _check_required_files_equiv.
    by apply _check_zip_structure_equiv. }
  repeat split; try done.
  unfold _generate_report. destruct He; done.
Qed.

(** The theorem under the two iteration orders of the counterexample. *)
Lemma C9_runs_agree_up_to_set_order_witness :
  let fs := Samples.everywhere
              (Archive [Samples.image "a/x.txt"; Samples.image "b/y.txt";
                        Samples.image "foo00000.png"; Samples.image "bar00001.png"]) in
  let r1 := validate_sl1s_file fs elements (__init__ "job.sl1s") in
  let r2 := validate_sl1s_file fs (λ X, reverse (elements X)) (__init__ "job.sl1s") in
  Forall2 msg_equiv (errors r1) (errors r2)
  ∧ warnings_equiv (warnings r1) (warnings r2)
  ∧ image_files r1 = image_files r2
  ∧ config r1 = config r2
  ∧ _generate_report r1 = _generate_report r2.
Proof.
  intros fs.
  apply (C9_runs_agree_up_to_set_order fs elements (λ X, reverse (elements X))
           (__init__ "job.sl1s") elements_set_iter_ok reverse_elements_set_iter_ok).
Defined.

(** * Further properties of the code *)

(** ** The image check in full *)

Lemma scan_images_spec l s B N :
  let r := scan_images l s B N in
  errors r.1.1 = errors s ++ (BadImageName <$> List.filter is_unmatched l)
  ∧ warnings r.1.1 = warnings s
  ∧ r.1.2 = list_to_set (image_bases l) ∪ B
  ∧ r.2 = N ++ parsed_numbers l.
Proof.
  revert s B N. induction l as [|f l IH]; intros s B N; simpl.
  - rewrite !app_nil_r, (left_id_L ∅ (∪)). done.
  - unfold image_bases, parsed_numbers, is_unmatched in *. simpl.
    destruct (LayerPattern.search (PyStr.basename f)) as [[b d]|]; simpl.
    + destruct (IH s ({[b]} ∪ B) (N ++ [PyStr.digits_value 0 d])) as (-> & -> & -> & ->).
      rewrite <- app_assoc. repeat split; try done.
      rewrite <- (assoc_L (∪)), (assoc_L (∪) _ {[b]}), (comm_L (∪) _ {[b]}).
      by rewrite <- !(assoc_L (∪)).
    + destruct (IH (add_error (BadImageName f) s) B N) as (-> & -> & -> & ->).
      simpl. rewrite <- app_assoc. done.
Qed.

Lemma check_numbering_full numbers s :
  Forall (λ n, 0 ≤ n ≤ 99999)%Z numbers →
  errors (check_numbering numbers s) = errors s ++ gap_errors numbers
  ∧ warnings (check_numbering numbers s) = warnings s ++ start_warnings numbers.
Proof.
  intros Hrange.
  destruct (merge_sort Z.le numbers) as [|first rest] eqn:Hsort.
  - assert (numbers = []) as ->.
    { symmetry. apply Permutation_nil_l. rewrite <- Hsort.
      apply merge_sort_Permutation. }
    unfold check_numbering, gap_errors, start_warnings. rewrite Hsort. simpl.
    by rewrite !app_nil_r.
  - destruct (check_numbering_spec numbers s first rest Hsort) as [He Hw].
    rewrite He, Hw. unfold gap_errors, start_warnings. rewrite Hsort.
    assert (first :: rest ≡ₚ numbers) as Hperm
      by (rewrite <- Hsort; apply merge_sort_Permutation).
    rewrite filter_out_of_range_nil by by rewrite Hperm.
    rewrite (merge_sort_head numbers first rest Hsort).
    destruct numbers as [|x numbers']; [by apply Permutation_nil_r in Hperm|].
    simpl. by rewrite app_nil_r.
Qed.

(** The image check on an archive that opens: the object, the errors and
    the warnings after it. *)
Lemma _check_image_files_spec fs set_iter s members :
  open_zip fs s = Ok members →
  let images := List.filter _is_layer_image (namelist members) in
  let bases : gset string := list_to_set (image_bases images) in
  let numbers := parsed_numbers images in
  let s' := _check_image_files fs set_iter s in
  errors s'
  = errors s
    ++ (BadImageName <$> List.filter is_unmatched images)
    ++ (if (1 <? size bases)%nat then [MultipleBaseNames (set_iter bases)] else [])
    ++ gap_errors numbers
  ∧ warnings s'
    = warnings s
      ++ match images with
         | [] => [NoLayerImages]
         | _ => start_warnings numbers
         end.
Proof.
  intros Hopen. cbv zeta. unfold _check_image_files. rewrite Hopen.
  destruct (List.filter _is_layer_image (namelist members)) as [|f l].
  { simpl. by rewrite app_nil_r. }
  set (images := f :: l).
  destruct (scan_images_spec images (set_image_files images s) ∅ [])
    as (He & Hw & HB & HN).
  destruct (scan_images images (set_image_files images s) ∅ []) as [[t B] N].
  cbn [fst snd] in He, Hw, HB, HN.
  change (errors (set_image_files images s)) with (errors s) in He.
  change (warnings (set_image_files images s)) with (warnings s) in Hw.
  rewrite (right_id_L ∅ (∪)) in HB. rewrite app_nil_l in HN. subst B N.
  match goal with
  | |- context [check_numbering ?ns ?t0] =>
      destruct (check_numbering_full ns t0 (parsed_numbers_range _)) as [-> ->]
  end.
  destruct (1 <? size _)%nat; cbn [errors warnings add_error];
    rewrite He, Hw, <- ?app_assoc; done.
Qed.
Lemma filter_fmap_other (p : message → bool) {A} (f : A → message) (l : list A) :
  (∀ x, p (f x) = false) → List.filter p (f <$> l) = [].
Proof. intros H. induction l as [|x l IH]; simpl; [done|]. by rewrite H. Qed.

(** The numbering check either finds the sorted numbers to be the run
    from the least of them, or reports a non-empty list of missing ones. *)
Lemma gap_errors_cases numbers :
  let run := seqZ (list_min_Z numbers) (Z.of_nat (length numbers)) in
  (gap_errors numbers = [] ∧ merge_sort Z.le numbers = run)
  ∨ (∃ missing, gap_errors numbers = [MissingNumbers missing]
       ∧ missing ≠ []
       ∧ missing = filter (λ x, x ∉ numbers) run
       ∧ merge_sort Z.le numbers ≠ run).
Proof.
  intros run. unfold gap_errors.
  assert (merge_sort Z.le numbers ≡ₚ numbers) as Hperm
    by apply merge_sort_Permutation.
  assert (Sorted Z.le (merge_sort Z.le numbers)) as Hsorted
    by apply Sorted_merge_sort, _.
  destruct (merge_sort Z.le numbers) as [|first rest] eqn:Hsort.
  { left. split; [done|]. apply Permutation_nil_l in Hperm.
    subst numbers. done. }
  pose proof (merge_sort_head numbers first rest Hsort) as ->.
  set (ns := list_min_Z numbers :: rest) in *.
  rewrite (Permutation_length Hperm). fold run.
  destruct (decide (ns = run)) as [Heq|Hne]; [by left|].
  right. eexists. split; [done|].
  assert (filter (λ x, x ∉ ns) run = filter (λ x, x ∉ numbers) run) as Hfilter.
  { apply list_filter_iff. intros x. by rewrite Hperm. }
  split; [|done]. rewrite Hfilter.
  intros Hnil. apply Hne. unfold run. rewrite <- (Permutation_length Hperm).
  apply (sorted_run ns (list_min_Z numbers) rest Hsorted eq_refl).
  intros x Hx. rewrite (Permutation_length Hperm) in Hx. fold run in Hx.
  destruct (decide (x ∈ numbers)) as [Hin|Hnot]; [by rewrite Hperm|].
  exfalso. cut (x ∈ @nil Z); [apply not_elem_of_nil|].
  rewrite <- Hnil. by apply list_elem_of_filter.
Qed.

Lemma images_split (l : list string) :
  length l = length (List.filter is_unmatched l) + length (parsed_numbers l).
Proof.
  induction l as [|f l IH]; [done|].
  unfold parsed_numbers in *. cbn [List.filter omap list_omap].
  unfold is_unmatched at 1.
  destruct (LayerPattern.search (PyStr.basename f)) as [[b d]|];
    cbn [length]; rewrite IH; lia.
Qed.

(** X1: the errors and warnings the image check appends for an archive
    that opens and whose layer images have ASCII names.  Errors, in this
    order: one naming error for each layer image whose name the pattern does not match, in archive order; one
    multiple-base-names error if the matching images have more than one
    base name; one missing-numbers error if the sorted indices are not a
    contiguous run.  Warnings: the no-images warning for an archive
    without layer image, otherwise the start warning if an index was
    parsed and the least is not 0. *)
Theorem X1_image_check_in_full fs set_iter s members :
  open_zip fs s = Ok members →
  let images := List.filter _is_layer_image (namelist members) in
  ascii_names images = true →
  let bases : gset string := list_to_set (image_bases images) in
  let numbers := parsed_numbers images in
  let s' := _check_image_files fs set_iter s in
  errors s'
  = errors s
    ++ (BadImageName <$> List.filter is_unmatched images)
    ++ (if (1 <? size bases)%nat then [MultipleBaseNames (set_iter bases)] else [])
    ++ gap_errors numbers
  ∧ warnings s'
    = warnings s
      ++ match images with
         | [] => [NoLayerImages]
         | _ => start_warnings numbers
         end
  ∧ image_files s' = images
  ∧ config s' = config s
  ∧ length images = length (List.filter is_unmatched images) + length numbers.
Proof.
  intros Hopen images _ bases numbers s'.
  destruct (_check_image_files_spec fs set_iter s members Hopen) as [He Hw].
  destruct (_check_image_files_frame fs set_iter s members Hopen) as (_ & Hi & Hc).
  split; [exact He|]. split; [exact Hw|]. split; [exact Hi|]. split; [exact Hc|].
  apply images_split.
Qed.

(** The theorem on an archive with a stray image, two base names and a
    gap. *)
Lemma X1_image_check_in_full_witness :
  let fs := Samples.everywhere
              (Archive [Samples.image "cover.png"; Samples.image "foo00001.png";
                        Samples.image "bar00003.png"; Samples.image "job/x00000.png"]) in
  let s' := _check_image_files fs elements (__init__ "job.sl1s") in
  errors s' = [BadImageName "cover.png"; MultipleBaseNames ["foo"; "bar"];
               MissingNumbers [2%Z]]
  ∧ warnings s' = [NumberingNotAtZero "00001"]
  ∧ image_files s' = ["cover.png"; "foo00001.png"; "bar00003.png"].
Proof.
  intros fs.
  destruct (X1_image_check_in_full fs elements (__init__ "job.sl1s")
              [Samples.image "cover.png"; Samples.image "foo00001.png";
               Samples.image "bar00003.png"; Samples.image "job/x00000.png"]
              eq_refl eq_refl)
    as (He & Hw & Hi & _).
  split; [rewrite He; vm_compute; reflexivity|].
  split; [rewrite Hw; vm_compute; reflexivity|].
  rewrite Hi. vm_compute. reflexivity.
Defined.

(** X2: the image check never reports an index out of the five-digit
    range, whatever the path holds: the pattern hands it five digits, so
    the last loop of the check finds nothing. *)
Theorem X2_no_range_error fs set_iter s :
  ∃ new, errors (_check_image_files fs set_iter s) = errors s ++ new
    ∧ List.filter is_range_error new = [].
Proof.
  destruct (open_zip fs s) as [members|e] eqn:Hopen.
  - destruct (_check_image_files_spec fs set_iter s members Hopen) as [He _].
    eexists. split; [exact He|].
    rewrite !List.filter_app. rewrite filter_fmap_other by done.
    destruct (1 <? size _)%nat;
      destruct (gap_errors_cases
                  (parsed_numbers (List.filter _is_layer_image (namelist members))))
        as [[-> _]|(missing & -> & _)]; done.
  - exists [ErrorCheckingImages e]. unfold _check_image_files. rewrite Hopen. done.
Qed.

(** X3: among layer images with ASCII names, two with the same index
    (say [foo00001.png] and [foo00001.jpg]) are reported as missing
    numbers: the sorted indices then never form a run, and the error lists the numbers the run would
    need. *)
Theorem X3_duplicate_index_reported_missing fs set_iter s members :
  open_zip fs s = Ok members →
  ascii_names (List.filter _is_layer_image (namelist members)) = true →
  let numbers := parsed_numbers (List.filter _is_layer_image (namelist members)) in
  ¬ NoDup numbers →
  ∃ new missing,
    errors (_check_image_files fs set_iter s) = errors s ++ new
    ∧ List.filter is_missing_numbers new = [MissingNumbers missing]
    ∧ missing ≠ []
    ∧ ∀ x, x ∈ missing ↔
        x ∈ seqZ (list_min_Z numbers) (Z.of_nat (length numbers)) ∧ x ∉ numbers.
Proof.
  intros Hopen _ numbers Hdup.
  destruct (_check_image_files_spec fs set_iter s members Hopen) as [He _].
  fold numbers in He.
  destruct (gap_errors_cases numbers) as [[_ Hrun]|(missing & Hg & Hne & Hm & _)].
  { exfalso. apply Hdup.
    rewrite <- (merge_sort_Permutation Z.le numbers), Hrun. apply NoDup_seqZ. }
  eexists _, missing. split; [exact He|].
  rewrite !List.filter_app, Hg. rewrite filter_fmap_other by done.
  split; [by destruct (1 <? size _)%nat|]. split; [done|].
  intros x. rewrite Hm, list_elem_of_filter. tauto.
Qed.

(** The theorem on the two images of its statement. *)
Lemma X3_duplicate_index_reported_missing_witness :
  let fs := Samples.everywhere
              (Archive [Samples.image "foo00001.png"; Samples.image "foo00001.jpg"]) in
  ∃ new missing,
    errors (_check_image_files fs elements (__init__ "job.sl1s")) = [] ++ new
    ∧ List.filter is_missing_numbers new = [MissingNumbers missing]
    ∧ missing ≠ []
    ∧ ∀ x, x ∈ missing ↔ x ∈ seqZ 1 2 ∧ x ∉ [1%Z; 1%Z].
Proof.
  intros fs.
  apply (X3_duplicate_index_reported_missing fs elements (__init__ "job.sl1s")
           [Samples.image "foo00001.png"; Samples.image "foo00001.jpg"]
           eq_refl eq_refl).
  vm_compute. intros H. apply NoDup_cons in H as [H _]. apply H. left.
Defined.

(** ** Base names *)

Lemma size_gt_1_two_elements (X : gset string) :
  (1 <? size X)%nat = true ↔ ∃ b1 b2, b1 ∈ X ∧ b2 ∈ X ∧ b1 ≠ b2.
Proof.
  rewrite Nat.ltb_lt. split.
  - intros Hsize.
    destruct (size_pos_elem_of X) as [b1 Hb1]; [lia|].
    destruct (size_pos_elem_of (X ∖ {[b1]})) as [b2 Hb2].
    { rewrite size_difference by by apply singleton_subseteq_l.
      rewrite size_singleton. lia. }
    apply elem_of_difference in Hb2 as [Hb2 Hne].
    exists b1, b2. repeat split; [done|done|].
    intros ->. apply Hne. by apply elem_of_singleton.
  - intros (b1 & b2 & H1 & H2 & Hne).
    assert (size ({[b1]} ∪ {[b2]} : gset string) ≤ size X) as Hle.
    { apply subseteq_size. apply union_subseteq.
      split; by apply singleton_subseteq_l. }
    rewrite size_union in Hle by by apply disjoint_singleton_l, not_elem_of_singleton.
    rewrite !size_singleton in Hle. lia.
Qed.

(** X4: for layer images with ASCII names, the multiple-base-names error
    is reported exactly when two of them have different base names, and
    then once; the names it lists are the base names of the matching images, each once. *)
Theorem X4_multiple_base_names fs set_iter s members :
  set_iter_ok set_iter →
  open_zip fs s = Ok members →
  ascii_names (List.filter _is_layer_image (namelist members)) = true →
  let bases := image_bases (List.filter _is_layer_image (namelist members)) in
  ∃ new, errors (_check_image_files fs set_iter s) = errors s ++ new
    ∧ ((∀ b1 b2, b1 ∈ bases → b2 ∈ bases → b1 = b2) →
       List.filter is_multiple_base_names new = [])
    ∧ ((∃ b1 b2, b1 ∈ bases ∧ b2 ∈ bases ∧ b1 ≠ b2) →
       ∃ names, List.filter is_multiple_base_names new = [MultipleBaseNames names]
         ∧ NoDup names ∧ ∀ b, b ∈ names ↔ b ∈ bases).
Proof.
  intros Hiter Hopen _ bases.
  destruct (_check_image_files_spec fs set_iter s members Hopen) as [He _].
  fold bases in He.
  eexists. split; [exact He|].
  rewrite !List.filter_app. rewrite filter_fmap_other by done.
  assert (List.filter is_multiple_base_names
            (gap_errors (parsed_numbers (List.filter _is_layer_image (namelist members))))
          = []) as ->.
  { destruct (gap_errors_cases
                (parsed_numbers (List.filter _is_layer_image (namelist members))))
      as [[-> _]|(missing & -> & _)]; done. }
  pose proof (size_gt_1_two_elements (list_to_set bases)) as Hsize.
  setoid_rewrite elem_of_list_to_set in Hsize.
  split.
  - intros Hone. destruct (1 <? size _)%nat; [|done].
    destruct Hsize as [(b1 & b2 & H1 & H2 & Hne) _]; [done|].
    destruct Hne. by apply Hone.
  - intros Htwo. apply Hsize in Htwo. rewrite Htwo.
    eexists. split; [done|]. split.
    + rewrite (Hiter _). apply NoDup_elements.
    + intros b. by rewrite (Hiter _), elem_of_elements, elem_of_list_to_set.
Qed.

(** The theorem on an archive with the base names [foo], [bar], [foo]. *)
Lemma X4_multiple_base_names_witness :
  let fs := Samples.everywhere
              (Archive [Samples.image "foo00000.png"; Samples.image "bar00001.png";
                        Samples.image "foo00002.png"]) in
  ∃ new, errors (_check_image_files fs elements (__init__ "job.sl1s")) = [] ++ new
    ∧ ∃ names, List.filter is_multiple_base_names new = [MultipleBaseNames names]
        ∧ NoDup names ∧ ∀ b, b ∈ names ↔ b ∈ ["foo"; "bar"; "foo"].
Proof.
  intros fs.
  destruct (X4_multiple_base_names fs elements (__init__ "job.sl1s")
              [Samples.image "foo00000.png"; Samples.image "bar00001.png";
               Samples.image "foo00002.png"] elements_set_iter_ok eq_refl eq_refl)
    as (new & He & _ & Htwo).
  exists new. split; [exact He|]. apply Htwo.
  exists "foo", "bar". vm_compute. repeat split; [left|right; left|discriminate].
Defined.

(** ** Layer images lie at the root *)

Lemma prefix_app (p f : string) : String.prefix p f = true → ∃ r, f = p +:+ r.
Proof.
  revert f. induction p as [|c p IH]; intros f; [by exists f|].
  destruct f as [|x f]; [discriminate|]. simpl.
  destruct (ascii_dec c x) as [->|]; [|discriminate].
  intros [r ->]%IH. by exists r.
Qed.

Lemma reserved_prefix_has_slash f :
  _is_thumbnail_or_preview_file f = true → PyStr.contains_char "/" f = true.
Proof.
  unfold _is_thumbnail_or_preview_file, PyStr.startswith.
  intros [[r ->]%prefix_app|[r ->]%prefix_app]%orb_true_iff;
    by rewrite contains_char_app.
Qed.

(** X5: a layer image is an entry with one of the three extensions, in
    any case, and no slash in its name.  The test for the thumbnail and
    preview folders changes nothing, and an image inside any folder, a job
    folder included, is never a layer image. *)
Theorem X5_layer_image_is_root_image f :
  _is_layer_image f = has_image_extension f && negb (PyStr.contains_char "/" f).
Proof.
  unfold _is_layer_image, has_image_extension.
  destruct (PyStr.contains_char "/" f) eqn:Hslash; [by rewrite !andb_false_r|].
  destruct (_is_thumbnail_or_preview_file f) eqn:Hres.
  - apply reserved_prefix_has_slash in Hres. congruence.
  - by rewrite !andb_true_r.
Qed.

(** ** Required files *)

Lemma prefix_refl (s : string) : String.prefix s s = true.
Proof. induction s as [|c s IH]; [done|]. simpl. by destruct (ascii_dec c c). Qed.

Lemma endswith_contains f r : PyStr.endswith f r = true → PyStr.contains f r = true.
Proof.
  induction f as [|x f IH]; cbn [PyStr.endswith PyStr.contains].
  - rewrite !orb_false_r. intros Hr%String.eqb_eq. by subst r.
  - intros [Hr%String.eqb_eq|H]%orb_true_iff.
    + subst r. by rewrite prefix_refl.
    + rewrite (IH H). apply orb_true_r.
Qed.

Lemma required_found names required_file :
  existsb (λ f, PyStr.contains f required_file && PyStr.endswith f required_file
                && negb (PyStr.startswith f "thumbnail/")) names
  = has_required names required_file.
Proof.
  unfold has_required. induction names as [|f names IH]; simpl; [done|].
  rewrite IH. f_equal.
  destruct (PyStr.endswith f required_file) eqn:He.
  - by rewrite (endswith_contains f required_file He).
  - by rewrite andb_false_r.
Qed.

(** X6: for an archive that opens, the required-files check reports
    [config.ini] and then [prusaslicer.ini], each exactly when no entry
    outside [thumbnail/] ends with that name; the substring test adds
    nothing to the test of the ending.  It appends no warning and touches
    neither the images nor the configuration. *)
Theorem X6_required_files fs s members :
  open_zip fs s = Ok members →
  let names := namelist members in
  let s' := _check_required_files fs s in
  errors s'
  = errors s
    ++ (if has_required names "config.ini" then []
        else [RequiredFileMissing "config.ini"])
    ++ (if has_required names "prusaslicer.ini" then []
        else [RequiredFileMissing "prusaslicer.ini"])
  ∧ warnings s' = warnings s
  ∧ same_frame s s'.
Proof.
  intros Hopen names s'. unfold s', _check_required_files. rewrite Hopen.
  fold names. unfold required_files. cbn [foldl].
  rewrite !required_found.
  destruct (has_required names "config.ini");
    destruct (has_required names "prusaslicer.ini"); simpl;
    rewrite <- ?app_assoc, ?app_nil_r; done.
Qed.

(** The theorem on an archive whose configuration has a longer name and
    whose profile lies among the thumbnails. *)
Lemma X6_required_files_witness :
  let fs := Samples.everywhere
              (Archive [Samples.image "job/backup_config.ini";
                        Samples.image "thumbnail/prusaslicer.ini"]) in
  errors (_check_required_files fs (__init__ "job.sl1s"))
  = [RequiredFileMissing "prusaslicer.ini"].
Proof.
  intros fs.
  destruct (X6_required_files fs (__init__ "job.sl1s")
              [Samples.image "job/backup_config.ini";
               Samples.image "thumbnail/prusaslicer.ini"] eq_refl) as (He & _).
  rewrite He. vm_compute. reflexivity.
Defined.

(** ** The lists of messages only grow *)

Lemma extends_refl s : extends s s.
Proof. done. Qed.

Lemma extends_trans s1 s2 s3 : extends s1 s2 → extends s2 s3 → extends s1 s3.
Proof.
  intros (Hp & He & Hw) (Hp' & He' & Hw'). repeat split.
  - congruence.
  - by etrans.
  - by etrans.
Qed.

Lemma extends_add_error m s s' : extends s s' → extends s (add_error m s').
Proof.
  intros (Hp & He & Hw). repeat split; [done| |done].
  simpl. by apply prefix_app_r.
Qed.

Lemma extends_add_warning m s s' : extends s s' → extends s (add_warning m s').
Proof.
  intros (Hp & He & Hw). repeat split; [done|done|].
  simpl. by apply prefix_app_r.
Qed.

Lemma extends_set_image_files l s s' : extends s s' → extends s (set_image_files l s').
Proof. intros (?&?&?). done. Qed.

Lemma extends_set_config c s s' : extends s s' → extends s (set_config c s').
Proof. intros (?&?&?). done. Qed.

Create HintDb grow.
#[local] Hint Resolve extends_refl extends_add_error extends_add_warning
  extends_set_image_files extends_set_config : grow.

Lemma extends_foldl {A} (f : SL1SSanitizer → A → SL1SSanitizer) (l : list A) s s' :
  (∀ t x, extends s t → extends s (f t x)) →
  extends s s' → extends s (foldl f s' l).
Proof.
  intros Hf. revert s'. induction l as [|x l IH]; intros s' Hs; simpl; [done|].
  apply IH, Hf, Hs.
Qed.

Lemma _check_file_exists_extends fs s : extends s (_check_file_exists fs s).
Proof. unfold _check_file_exists. destruct (fs _); auto with grow. Qed.

Lemma _check_zip_structure_extends fs set_iter s :
  extends s (_check_zip_structure fs set_iter s).
Proof.
  unfold _check_zip_structure.
  destruct (open_zip fs s) as [members|e]; [|destruct e; auto with grow].
  destruct (List.filter is_root_file (namelist members)); [auto with grow|].
  destruct (existsb in_subfolder (namelist members)); [|auto with grow].
  case_bool_decide; [auto with grow|].
  apply extends_foldl; auto with grow.
Qed.

Lemma _check_required_files_extends fs s : extends s (_check_required_files fs s).
Proof.
  unfold _check_required_files.
  destruct (open_zip fs s) as [members|e]; [|auto with grow].
  apply extends_foldl; [|auto with grow].
  intros t x Ht. destruct (existsb _ _); auto with grow.
Qed.

Lemma _extract_config_extends fs s : extends s (_extract_config fs s).
Proof.
  unfold _extract_config.
  destruct (open_zip fs s) as [members|e]; [|auto with grow].
  destruct (List.filter _ (namelist members)) as [|config_file ?]; [auto with grow|].
  destruct (read_member members config_file) as [content|e]; [|auto with grow].
  destruct (ConfigParser.read_string ConfigParser.new content) as [c [e|]];
    [|auto with grow].
  destruct e; auto with grow.
  destruct (ConfigParser.read_string ConfigParser.new _) as [c' [e'|]];
    auto with grow.
Qed.

Lemma scan_images_extends l s0 s B N :
  extends s0 s → extends s0 (scan_images l s B N).1.1.
Proof.
  revert s B N. induction l as [|f l IH]; intros s B N Hs; simpl; [done|].
  destruct (LayerPattern.search (PyStr.basename f)) as [[b d]|]; apply IH;
    auto with grow.
Qed.

Lemma check_numbering_extends numbers s0 s :
  extends s0 s → extends s0 (check_numbering numbers s).
Proof.
  intros Hs. unfold check_numbering.
  destruct (merge_sort Z.le numbers) as [|first rest]; [done|].
  apply extends_foldl.
  - intros t x Ht. destruct (_ || _); auto with grow.
  - repeat case_bool_decide; auto with grow.
Qed.

Lemma _check_image_files_extends fs set_iter s :
  extends s (_check_image_files fs set_iter s).
Proof.
  unfold _check_image_files.
  destruct (open_zip fs s) as [members|e]; [|auto with grow].
  set (images := List.filter _is_layer_image (namelist members)).
  destruct images as [|f l]; [auto with grow|].
  pose proof (scan_images_extends (f :: l) s (set_image_files (f :: l) s) ∅ [])
    as Hscan.
  destruct (scan_images (f :: l) (set_image_files (f :: l) s) ∅ []) as [[t B] N].
  simpl in Hscan. apply check_numbering_extends.
  destruct (1 <? size B)%nat; auto with grow.
Qed.

Lemma check_job_dir_extends job_dir s : extends s (check_job_dir job_dir s).
Proof.
  unfold check_job_dir. destruct job_dir as [[|??]|]; try done.
  destruct (image_files s) as [|first ?]; [done|].
  destruct (LayerPattern.search _) as [[??]|]; [|done].
  case_bool_decide; auto with grow.
Qed.

Lemma check_num_fast_extends v s0 s : extends s0 s → extends s0 (check_num_fast v s).
Proof.
  intros Hs. unfold check_num_fast. destruct v as [[|??]|]; try done.
  destruct (PyStr.int _) as [n|]; [|auto with grow].
  destruct (parsed_numbers _); repeat case_bool_decide; auto with grow.
Qed.

Lemma _check_config_consistency_extends s : extends s (_check_config_consistency s).
Proof.
  unfold _check_config_consistency.
  destruct (negb (config_is_true s)); [done|].
  destruct (_get_config_value s _ _) as [job_dir|e]; [|auto with grow].
  pose proof (check_job_dir_extends job_dir s) as Hj.
  destruct (_get_config_value _ _ _) as [v|e]; [|auto with grow].
  by apply check_num_fast_extends.
Qed.

(** X7: no stage drops, changes or reorders a message recorded before
    it.  After a run from any object, the errors and the warnings of that
    object are the beginning of the errors and the warnings of the
    result, and the path is the same. *)
Theorem X7_messages_only_grow fs set_iter s :
  extends s (_check_file_exists fs s)
  ∧ extends s (_check_zip_structure fs set_iter s)
  ∧ extends s (_check_required_files fs s)
  ∧ extends s (_extract_config fs s)
  ∧ extends s (_check_image_files fs set_iter s)
  ∧ extends s (_check_config_consistency s)
  ∧ extends s (validate_sl1s_file fs set_iter s).
Proof.
  split; [apply _check_file_exists_extends|].
  split; [apply _check_zip_structure_extends|].
  split; [apply _check_required_files_extends|].
  split; [apply _extract_config_extends|].
  split; [apply _check_image_files_extends|].
  split; [apply _check_config_consistency_extends|].
  unfold validate_sl1s_file.
  destruct (errors (_check_file_exists fs s)) eqn:E;
    [|apply _check_file_exists_extends].
  eapply extends_trans; [apply _check_file_exists_extends|].
  eapply extends_trans; [apply _check_zip_structure_extends|].
  eapply extends_trans; [apply _check_required_files_extends|].
  eapply extends_trans; [apply _extract_config_extends|].
  eapply extends_trans; [apply _check_image_files_extends|].
  apply _check_config_consistency_extends.
Qed.

(** ** What a passing verdict guarantees *)

Lemma open_zip_path fs s s' :
  sl1s_file_path s' = sl1s_file_path s → open_zip fs s' = open_zip fs s.
Proof. intros H. unfold open_zip. by rewrite H. Qed.

Lemma prefix_of_nil {A} (l : list A) : l `prefix_of` [] → l = [].
Proof. intros [k Hk]. symmetry in Hk. by apply app_eq_nil in Hk as [-> _]. Qed.

Lemma no_error_after s s' : extends s s' → errors s' = [] → errors s = [].
Proof. intros (_ & He & _) Hs'. rewrite Hs' in He. by apply prefix_of_nil. Qed.

Lemma _check_zip_structure_no_error fs set_iter s :
  errors (_check_zip_structure fs set_iter s) = [] →
  ∃ members, open_zip fs s = Ok members
    ∧ Exists (λ f, PyStr.count_char "/" f < 2) (namelist members).
Proof.
  unfold _check_zip_structure.
  destruct (open_zip fs s) as [members|e].
  - destruct (List.filter is_root_file (namelist members)) as [|f l] eqn:Hroot.
    + simpl. intros H. by apply app_eq_nil in H as [_ ?].
    + intros _. exists members. split; [done|].
      apply Exists_exists. exists f.
      assert (In f (List.filter is_root_file (namelist members))) as Hin
        by (rewrite Hroot; by left).
      apply filter_In in Hin as [Hin Hf].
      split; [by apply list_elem_of_In|by apply is_root_file_spec].
  - destruct e; simpl; intros H; by apply app_eq_nil in H as [_ ?].
Qed.

Lemma _extract_config_no_error fs s :
  errors (_extract_config fs s) = [] → is_Some (config (_extract_config fs s)).
Proof.
  unfold _extract_config.
  assert (∀ m t, errors (add_error m t) = [] → False) as Hadd.
  { intros m t H. simpl in H. by apply app_eq_nil in H as [_ ?]. }
  destruct (open_zip fs s) as [members|e]; [|by intros ?%Hadd].
  destruct (List.filter _ (namelist members)) as [|config_file ?]; [by intros ?%Hadd|].
  destruct (read_member members config_file) as [content|e]; [|by intros ?%Hadd].
  destruct (ConfigParser.read_string ConfigParser.new content) as [c [e|]];
    [|by eexists].
  destruct e; try by intros ?%Hadd.
  destruct (ConfigParser.read_string ConfigParser.new _) as [c' [e'|]];
    [by intros ?%Hadd|by eexists].
Qed.

Lemma _check_required_files_spec fs s members :
  open_zip fs s = Ok members →
  let names := namelist members in
  let s' := _check_required_files fs s in
  errors s'
  = errors s
    ++ (if has_required names "config.ini" then []
        else [RequiredFileMissing "config.ini"])
    ++ (if has_required names "prusaslicer.ini" then []
        else [RequiredFileMissing "prusaslicer.ini"])
  ∧ warnings s' = warnings s
  ∧ same_frame s s'.
Proof.
  intros Hopen names s'. unfold s', _check_required_files. rewrite Hopen.
  fold names. unfold required_files. cbn [foldl].
  rewrite !required_found.
  destruct (has_required names "config.ini");
    destruct (has_required names "prusaslicer.ini"); simpl;
    rewrite <- ?app_assoc, ?app_nil_r; done.
Qed.

Lemma check_num_fast_frame v s : same_frame s (check_num_fast v s).
Proof.
  unfold check_num_fast. destruct v as [[|??]|]; try done.
  destruct (PyStr.int _) as [n|]; [|done].
  destruct (parsed_numbers _); repeat case_bool_decide; done.
Qed.

Lemma _check_config_consistency_frame s : same_frame s (_check_config_consistency s).
Proof.
  unfold _check_config_consistency.
  destruct (negb (config_is_true s)); [done|].
  destruct (_get_config_value s _ _) as [job_dir|e]; [|done].
  destruct (check_job_dir_spec job_dir s) as (Hj & _).
  destruct (_get_config_value _ _ _) as [v|e]; [|done].
  eapply same_frame_trans; [exact Hj|apply check_num_fast_frame].
Qed.

(** A run that passes went through every stage on an archive. *)
Lemma pass_stages fs set_iter path :
  errors (validate_sl1s_file fs set_iter (__init__ path)) = [] →
  ∃ members,
    fs path = Archive members
    ∧ let s1 := _check_zip_structure fs set_iter (__init__ path) in
      let s2 := _check_required_files fs s1 in
      let s3 := _extract_config fs s2 in
      let s4 := _check_image_files fs set_iter s3 in
      validate_sl1s_file fs set_iter (__init__ path) = _check_config_consistency s4
      ∧ errors s1 = [] ∧ errors s2 = [] ∧ errors s3 = [] ∧ errors s4 = []
      ∧ open_zip fs s1 = Ok members ∧ open_zip fs s3 = Ok members
      ∧ Exists (λ f, PyStr.count_char "/" f < 2) (namelist members).
Proof.
  unfold validate_sl1s_file, _check_file_exists.
  change (sl1s_file_path (__init__ path)) with path.
  destruct (fs path) as [|e|members] eqn:Hfs; [done|..];
    change (errors (__init__ path)) with (@nil message); cbv iota.
  all: set (s0 := __init__ path).
  all: set (s1 := _check_zip_structure fs set_iter s0).
  all: set (s2 := _check_required_files fs s1).
  all: set (s3 := _extract_config fs s2).
  all: set (s4 := _check_image_files fs set_iter s3).
  all: intros Hpass.
  all: pose proof (no_error_after _ _ (_check_config_consistency_extends s4) Hpass) as E4.
  all: pose proof (no_error_after _ _ (_check_image_files_extends fs set_iter s3) E4) as E3.
  all: pose proof (no_error_after _ _ (_extract_config_extends fs s2) E3) as E2.
  all: pose proof (no_error_after _ _ (_check_required_files_extends fs s1) E2) as E1.
  all: destruct (_check_zip_structure_no_error fs set_iter s0 E1)
         as (members' & Hopen & Hroot).
  all: unfold open_zip in Hopen; change (sl1s_file_path s0) with path in Hopen;
       rewrite Hfs in Hopen.
  1: discriminate.
  injection Hopen as <-. exists members. split; [done|].
  assert (∀ t, sl1s_file_path t = path → open_zip fs t = Ok members) as Hopen.
  { intros t Ht. unfold open_zip. by rewrite Ht, Hfs. }
  destruct (_check_zip_structure_extends fs set_iter s0) as (P1 & _).
  destruct (_check_required_files_extends fs s1) as (P2 & _).
  destruct (_extract_config_extends fs s2) as (P3 & _).
  fold s1 in P1, P2. fold s2 in P2, P3. fold s3 in P3.
  change (sl1s_file_path s0) with path in P1.
  assert (open_zip fs s1 = Ok members) as Q1 by by apply Hopen.
  assert (open_zip fs s3 = Ok members) as Q3 by (apply Hopen; congruence).
  done.
Qed.

(** The facts behind a passing verdict. *)
Lemma pass_structure fs set_iter path :
  let r := validate_sl1s_file fs set_iter (__init__ path) in
  _generate_report r = true →
  ∃ members,
    fs path = Archive members
    ∧ Exists (λ f, PyStr.count_char "/" f < 2) (namelist members)
    ∧ has_required (namelist members) "config.ini" = true
    ∧ has_required (namelist members) "prusaslicer.ini" = true
    ∧ is_Some (config r)
    ∧ image_files r = List.filter _is_layer_image (namelist members)
    ∧ Forall matches_pattern (image_files r)
    ∧ (∀ b1 b2, b1 ∈ image_bases (image_files r) → b2 ∈ image_bases (image_files r) →
                b1 = b2)
    ∧ merge_sort Z.le (parsed_numbers (image_files r))
      = seqZ (list_min_Z (parsed_numbers (image_files r)))
             (Z.of_nat (length (parsed_numbers (image_files r)))).
Proof.
  intros r Hpass. apply bool_decide_eq_true in Hpass.
  destruct (pass_stages fs set_iter path Hpass)
    as (members & Hfs & Hr & E1 & E2 & E3 & E4 & Hopen1 & Hopen3 & Hroot).
  cbv zeta in *. unfold r. rewrite Hr. clear r Hr Hpass.
  set (s1 := _check_zip_structure fs set_iter (__init__ path)) in *.
  set (s2 := _check_required_files fs s1) in *.
  set (s3 := _extract_config fs s2) in *.
  set (s4 := _check_image_files fs set_iter s3) in *.
  exists members. split; [done|]. split; [done|].
  destruct (_check_required_files_spec fs s1 members Hopen1) as (He2 & _).
  fold s2 in He2. rewrite E1, E2 in He2. simpl in He2.
  destruct (has_required (namelist members) "config.ini"); [|done].
  destruct (has_required (namelist members) "prusaslicer.ini"); [|done].
  split; [done|]. split; [done|].
  destruct (_check_image_files_spec fs set_iter s3 members Hopen3) as [He4 _].
  destruct (_check_image_files_frame fs set_iter s3 members Hopen3)
    as (_ & Hi4 & Hc4).
  fold s4 in He4, Hi4, Hc4.
  destruct (_check_config_consistency_frame s4) as (_ & Hi5 & Hc5).
  rewrite Hi5, Hc5, Hc4, Hi4.
  split; [by apply _extract_config_no_error|]. split; [done|].
  set (images := List.filter _is_layer_image (namelist members)) in *.
  rewrite E3, E4 in He4. simpl in He4. symmetry in He4.
  apply app_eq_nil in He4 as [Hbad He4]. apply app_eq_nil in He4 as [Hmulti Hgap].
  split; [|split].
  - apply Forall_forall. intros f Hf. unfold matches_pattern.
    destruct (LayerPattern.search (PyStr.basename f)) as [[b d]|] eqn:Hs; [by eexists|].
    exfalso. apply fmap_nil_inv in Hbad.
    assert (In f (List.filter is_unmatched images)) as Hin.
    { apply filter_In. split; [by apply list_elem_of_In|].
      unfold is_unmatched. by rewrite Hs. }
    by rewrite Hbad in Hin.
  - intros b1 b2 Hb1 Hb2. destruct (decide (b1 = b2)) as [|Hne]; [done|].
    exfalso.
    assert ((1 <? size (list_to_set (image_bases images) : gset string))%nat = true)
      as Hsize.
    { apply size_gt_1_two_elements. exists b1, b2.
      by rewrite !elem_of_list_to_set. }
    by rewrite Hsize in Hmulti.
  - destruct (gap_errors_cases (parsed_numbers images)) as [[_ ?]|(m & Hm & _)];
      [done|]. by rewrite Hm in Hgap.
Qed.

(** X8: a passing verdict is earned.  Where an archive at the path is
    one of ASCII text: if a run from a fresh object ends without error,
    then the path holds an archive that opens; some entry has fewer
    than two slashes; entries outside [thumbnail/] end with
    [config.ini] and with [prusaslicer.ini]; a parser is in place; every
    layer image matches the pattern; the layer images have at most one
    base name; and their sorted indices are the contiguous run from the
    least of them. *)
Theorem X8_pass_guarantees fs set_iter path :
  (∀ members, fs path = Archive members → ascii_archive members = true) →
  let r := validate_sl1s_file fs set_iter (__init__ path) in
  _generate_report r = true →
  ∃ members,
    fs path = Archive members
    ∧ Exists (λ f, PyStr.count_char "/" f < 2) (namelist members)
    ∧ has_required (namelist members) "config.ini" = true
    ∧ has_required (namelist members) "prusaslicer.ini" = true
    ∧ is_Some (config r)
    ∧ image_files r = List.filter _is_layer_image (namelist members)
    ∧ Forall matches_pattern (image_files r)
    ∧ (∀ b1 b2, b1 ∈ image_bases (image_files r) → b2 ∈ image_bases (image_files r) →
                b1 = b2)
    ∧ merge_sort Z.le (parsed_numbers (image_files r))
      = seqZ (list_min_Z (parsed_numbers (image_files r)))
             (Z.of_nat (length (parsed_numbers (image_files r)))).
Proof. intros _. apply pass_structure. Qed.

(** The theorem on the sample job with a matching configuration. *)
Lemma X8_pass_guarantees_witness :
  let fs := Samples.everywhere
              (Samples.job ["[layerRenderParams]"; "jobDir = foo"; "numFast = 2"]) in
  let r := validate_sl1s_file fs elements (__init__ "job.sl1s") in
  ∃ members,
    fs "job.sl1s" = Archive members
    ∧ Exists (λ f, PyStr.count_char "/" f < 2) (namelist members)
    ∧ has_required (namelist members) "config.ini" = true
    ∧ has_required (namelist members) "prusaslicer.ini" = true
    ∧ is_Some (config r)
    ∧ image_files r = List.filter _is_layer_image (namelist members)
    ∧ Forall matches_pattern (image_files r)
    ∧ (∀ b1 b2, b1 ∈ image_bases (image_files r) → b2 ∈ image_bases (image_files r) →
                b1 = b2)
    ∧ merge_sort Z.le (parsed_numbers (image_files r))
      = seqZ (list_min_Z (parsed_numbers (image_files r)))
             (Z.of_nat (length (parsed_numbers (image_files r)))).
Proof.
  intros fs.
  apply (X8_pass_guarantees fs elements "job.sl1s").
  - intros members Hm. vm_compute in Hm. injection Hm as <-. reflexivity.
  - vm_compute. reflexivity.
Defined.

Lemma foldl_max_spec (l : list Z) a :
  foldl Z.max a l ∈ a :: l ∧ Forall (λ x, (x ≤ foldl Z.max a l)%Z) (a :: l).
Proof.
  revert a. induction l as [|x l IH]; intros a; simpl.
  - split; [by left|]. constructor; [lia|constructor].
  - destruct (IH (Z.max a x)) as [Hin Hle]. split.
    + apply elem_of_cons in Hin as [Hin|Hin]; [|by do 2 right].
      rewrite Hin. destruct (Z.max_spec a x) as [[_ ->]|[_ ->]];
        [right; by left|by left].
    + apply Forall_cons in Hle as [Hm Hle].
      constructor; [lia|]. constructor; [lia|done].
Qed.

(** The greatest of the numbers of a run is its last. *)
Lemma list_max_Z_run (l : list Z) m k :
  l ≡ₚ seqZ m k → (0 < k)%Z → list_max_Z l = (m + k - 1)%Z.
Proof.
  intros Hperm Hk. destruct l as [|a l].
  { apply Permutation_nil_l in Hperm.
    apply (f_equal length) in Hperm. rewrite length_seqZ in Hperm. simpl in Hperm. lia. }
  simpl. destruct (foldl_max_spec l a) as [Hin Hle].
  rewrite Hperm in Hin, Hle. apply elem_of_seqZ in Hin.
  rewrite Forall_forall in Hle.
  assert ((m + k - 1)%Z ∈ seqZ m k) as Hlast by (apply elem_of_seqZ; lia).
  apply Hle in Hlast. lia.
Qed.

(** X9: a passing verdict and the configuration.  Where an archive at
    the path is one of ASCII text: if a run from a fresh object ends
    without error, then a non-empty [jobDir] the lookup finds agrees, after the stripping, with the base name of the first layer
    image; and a non-empty [numFast] the lookup finds is an integer, is
    the number of layer images, and these are numbered exactly from 0 to
    [numFast - 1]. *)
Theorem X9_pass_agrees_with_config fs set_iter path :
  (∀ members, fs path = Archive members → ascii_archive members = true) →
  let r := validate_sl1s_file fs set_iter (__init__ path) in
  _generate_report r = true →
  (∀ j first rest,
     _get_config_value r "layerRenderParams" "jobDir" = Ok (Some j) → j ≠ "" →
     image_files r = first :: rest →
     ∃ base digits,
       LayerPattern.search (PyStr.basename first) = Some (base, digits)
       ∧ strip_separators base = strip_separators j)
  ∧ (∀ v,
       _get_config_value r "layerRenderParams" "numFast" = Ok (Some v) → v ≠ "" →
       ∃ n, PyStr.int v = Some n
         ∧ n = Z.of_nat (length (image_files r))
         ∧ merge_sort Z.le (parsed_numbers (image_files r)) = seqZ 0 n).
Proof.
  intros _ r Hpass.
  destruct (pass_structure fs set_iter path Hpass)
    as (members & _ & _ & _ & _ & _ & _ & Hall & _ & Hrun).
  apply bool_decide_eq_true in Hpass.
  destruct (pass_stages fs set_iter path Hpass) as (_ & _ & Hr & _ & _ & _ & E4 & _).
  cbv zeta in Hr. fold r in Hr, Hall, Hrun.
  set (s4 := _check_image_files fs set_iter _) in *.
  destruct (_check_config_consistency_frame s4) as (_ & Hi & Hc).
  rewrite <- Hr in Hi, Hc.
  assert (∀ key, _get_config_value r "layerRenderParams" key
                 = _get_config_value s4 "layerRenderParams" key) as Hlook.
  { intros key. by apply _get_config_value_ext. }
  assert (∀ key x, _get_config_value s4 "layerRenderParams" key = Ok (Some x) →
            ∃ job_dir,
              _get_config_value s4 "layerRenderParams" "jobDir" = Ok job_dir
              ∧ errors (check_job_dir job_dir s4) = []
              ∧ ∀ v, _get_config_value s4 "layerRenderParams" "numFast" = Ok (Some v) →
                     v ≠ "" → errors (check_num_fast (Some v) (check_job_dir job_dir s4)) = [])
    as Hstage.
  { intros key x Hfound. rewrite Hr in Hpass. unfold _check_config_consistency in Hpass.
    rewrite (lookup_found_config_true _ _ _ _ Hfound) in Hpass. simpl in Hpass.
    destruct (_get_config_value s4 "layerRenderParams" "jobDir") as [job_dir|e].
    2:{ simpl in Hpass. by apply app_eq_nil in Hpass as [_ ?]. }
    exists job_dir. split; [done|].
    destruct (check_job_dir_spec job_dir s4) as ((_ & _ & Hcj) & _).
    rewrite (_get_config_value_ext s4 _ _ _ Hcj) in Hpass.
    destruct (_get_config_value s4 "layerRenderParams" "numFast") as [v'|e].
    2:{ simpl in Hpass. by apply app_eq_nil in Hpass as [_ ?]. }
    split.
    - eapply no_error_after; [apply check_num_fast_extends, extends_refl|exact Hpass].
    - by intros v [= ->] _. }
  split.
  - intros j first rest Hj Hne Himg. rewrite Hlook in Hj. rewrite Hi in Himg.
    destruct (Hstage _ _ Hj) as (job_dir & Hj' & Hej & _).
    rewrite Hj in Hj'. injection Hj' as <-.
    rewrite Hi in Hall. rewrite Himg in Hall.
    apply Forall_cons in Hall as [[[base digits] Hs] _].
    exists base, digits. split; [done|].
    destruct (check_job_dir_spec (Some j) s4) as (_ & _ & new & He & Hnew).
    rewrite (Hnew j first rest base digits eq_refl Hne Himg Hs), Hej, E4 in He.
    destruct (decide (strip_separators base = strip_separators j)); [done|].
    discriminate.
  - intros v Hv Hne. rewrite Hlook in Hv.
    destruct (Hstage _ _ Hv) as (job_dir & _ & Hej & Hnum).
    specialize (Hnum v Hv Hne).
    destruct (check_num_fast_spec v (check_job_dir job_dir s4) Hne) as [He _].
    rewrite Hnum, Hej in He. simpl in He.
    destruct (check_job_dir_spec job_dir s4) as ((_ & Hij & _) & _).
    rewrite Hij, <- Hi in He.
    destruct (PyStr.int v) as [n|]; [|done].
    exists n. split; [done|].
    unfold num_fast_errors in He. symmetry in He.
    apply app_eq_nil in He as [Hcount Hlast].
    destruct (decide (n = Z.of_nat (length (image_files r)))) as [Hn|]; [|done].
    split; [done|].
    set (numbers := parsed_numbers (image_files r)) in *.
    assert (length numbers = length (image_files r)) as Hlen
      by by apply parsed_numbers_length.
    rewrite Hrun, Hlen, <- Hn.
    destruct (decide (n = 0%Z)) as [->|Hn0]; [by rewrite !seqZ_nil|].
    f_equal.
    destruct (decide (numbers ≠ [] ∧ list_max_Z numbers ≠ (n - 1)%Z)) as [|Hmax];
      [done|].
    assert (list_max_Z numbers = (list_min_Z numbers + n - 1)%Z) as Hm.
    { apply list_max_Z_run; [|lia].
      etrans; [symmetry; apply (merge_sort_Permutation Z.le)|].
      by rewrite Hrun, Hlen, <- Hn. }
    destruct (decide (list_max_Z numbers = (n - 1)%Z)) as [Heq|Hneq]; [lia|].
    exfalso. apply Hmax. split; [|done].
    intros Hnil. rewrite Hnil in Hlen. simpl in Hlen. lia.
Qed.

(** The theorem on the sample job with a matching configuration. *)
Lemma X9_pass_agrees_with_config_witness :
  let fs := Samples.everywhere
              (Samples.job ["[layerRenderParams]"; "jobDir = foo"; "numFast = 2"]) in
  let r := validate_sl1s_file fs elements (__init__ "job.sl1s") in
  ∃ n, PyStr.int "2" = Some n
    ∧ n = Z.of_nat (length (image_files r))
    ∧ merge_sort Z.le (parsed_numbers (image_files r)) = seqZ 0 n.
Proof.
  intros fs r.
  destruct (X9_pass_agrees_with_config fs elements "job.sl1s") as [_ H].
  - intros members Hm. vm_compute in Hm. injection Hm as <-. reflexivity.
  - vm_compute. reflexivity.
  - apply (H "2"); [vm_compute; reflexivity|done].
Defined.

(** ** Archives without configuration *)

Lemma existsb_false_filter {A} (p : A → bool) (l : list A) :
  existsb p l = false → List.filter p l = [].
Proof.
  induction l as [|x l IH]; [done|]. cbn [existsb List.filter].
  intros [-> Hl]%orb_false_iff. by apply IH.
Qed.

(** X10: an archive without a [config.ini] outside [thumbnail/].  The
    required-files check and the extraction each report it, so the run
    shows two errors for the one missing file; no parser is created, and
    the consistency check then does nothing at all. *)
Theorem X10_missing_config_reported_twice fs set_iter path members :
  fs path = Archive members →
  has_required (namelist members) "config.ini" = false →
  let r := validate_sl1s_file fs set_iter (__init__ path) in
  RequiredFileMissing "config.ini" ∈ errors r
  ∧ ConfigNotFound ∈ errors r
  ∧ config r = None
  ∧ r = _check_image_files fs set_iter
          (_extract_config fs
             (_check_required_files fs
                (_check_zip_structure fs set_iter (__init__ path)))).
Proof.
  intros Hfs Hmissing r. unfold r, validate_sl1s_file, _check_file_exists.
  change (sl1s_file_path (__init__ path)) with path. rewrite Hfs.
  change (errors (__init__ path)) with (@nil message). cbv iota.
  set (s0 := __init__ path).
  set (s1 := _check_zip_structure fs set_iter s0).
  set (s2 := _check_required_files fs s1).
  set (s3 := _extract_config fs s2).
  set (s4 := _check_image_files fs set_iter s3).
  assert (∀ t, sl1s_file_path t = path → open_zip fs t = Ok members) as Hopen.
  { intros t Ht. unfold open_zip. by rewrite Ht, Hfs. }
  destruct (_check_zip_structure_extends fs set_iter s0) as (P1 & _).
  destruct (_check_required_files_extends fs s1) as (P2 & _).
  destruct (_extract_config_extends fs s2) as (P3 & _).
  fold s1 in P1, P2. fold s2 in P2, P3. fold s3 in P3.
  change (sl1s_file_path s0) with path in P1.
  assert (config s1 = None) as C1.
  { assert (same_frame s0 s1) as (_ & _ & Hc); [|done].
    unfold s1, _check_zip_structure. rewrite (Hopen s0 eq_refl).
    destruct (List.filter _ _); [done|]. destruct (existsb _ _); [|done].
    case_bool_decide; [done|]. apply same_frame_foldl; auto with frame. }
  destruct (_check_required_files_spec fs s1 members (Hopen _ P1))
    as (He2 & _ & (_ & _ & C2)).
  fold s2 in He2, C2. rewrite Hmissing in He2.
  assert (errors s3 = errors s2 ++ [ConfigNotFound] ∧ config s3 = None) as [He3 C3].
  { unfold s3, _extract_config. rewrite (Hopen s2) by congruence.
    assert (List.filter (λ f, PyStr.endswith f "config.ini"
                              && negb (PyStr.startswith f "thumbnail/"))
              (namelist members) = []) as ->.
    { by apply existsb_false_filter. }
    split; [done|]. simpl. congruence. }
  assert (open_zip fs s3 = Ok members) as Hopen3 by (apply Hopen; congruence).
  destruct (_check_image_files_frame fs set_iter s3 members Hopen3) as (_ & _ & C4).
  fold s4 in C4.
  assert (_check_config_consistency s4 = s4) as Hskip.
  { unfold _check_config_consistency, config_is_true. by rewrite C4, C3. }
  rewrite Hskip.
  destruct (_check_image_files_extends fs set_iter s3) as (_ & [k Hk] & _).
  fold s4 in Hk. rewrite Hk, He3, He2.
  split; [|split; [|split; [congruence|done]]].
  - rewrite !elem_of_app. left. left. right. left. by left.
  - rewrite !elem_of_app. left. right. by left.
Qed.

(** The theorem on an archive that holds images only. *)
Lemma X10_missing_config_reported_twice_witness :
  let fs := Samples.everywhere (Archive Samples.two_images) in
  let r := validate_sl1s_file fs elements (__init__ "job.sl1s") in
  RequiredFileMissing "config.ini" ∈ errors r
  ∧ ConfigNotFound ∈ errors r
  ∧ config r = None
  ∧ r = _check_image_files fs elements
          (_extract_config fs
             (_check_required_files fs
                (_check_zip_structure fs elements (__init__ "job.sl1s")))).
Proof.
  intros fs.
  exact (X10_missing_config_reported_twice fs elements "job.sl1s"
           Samples.two_images eq_refl eq_refl).
Defined.


(** ** The names the pattern accepts *)

Ltac push_append := repeat (rewrite append_cons || rewrite append_nil).

Lemma at_end_inv nl :
  LayerPattern.at_end nl = true ↔ nl = "" ∨ nl = String PyStr.LF "".
Proof. unfold LayerPattern.at_end. by rewrite orb_true_iff, !String.eqb_eq. Qed.

Lemma match_ext_inv r :
  LayerPattern.match_ext r = true ↔
  ∃ e nl, r = e +:+ nl ∧ LayerPattern.is_ext e = true ∧ LayerPattern.at_end nl = true.
Proof.
  split.
  - unfold LayerPattern.match_ext.
    destruct r as [|a [|b [|c t]]]; try discriminate.
    rewrite orb_true_iff, andb_true_iff. intros [[He Ht]|H].
    + by exists (String a (String b (String c ""))), t.
    + destruct t as [|d t']; [discriminate|].
      apply andb_true_iff in H as [He Ht].
      by exists (String a (String b (String c (String d "")))), t'.
  - intros (e & nl & -> & He & Hnl).
    destruct (is_ext_length e He) as [Hl|Hl].
    + destruct e as [|a [|b [|c [|? ?]]]]; try discriminate.
      rewrite !append_cons, append_nil. unfold LayerPattern.match_ext.
      by rewrite He, Hnl.
    + destruct e as [|a [|b [|c [|d [|? ?]]]]]; try discriminate.
      rewrite !append_cons, append_nil. unfold LayerPattern.match_ext.
      rewrite He, Hnl. apply orb_true_r.
Qed.

Lemma match_tail_inv t d :
  LayerPattern.match_tail t = Some d ↔
  ∃ e nl, t = name_tail d e +:+ nl ∧ five_digits d
    ∧ LayerPattern.is_ext e = true ∧ LayerPattern.at_end nl = true.
Proof.
  split.
  - intros Ht. pose proof (match_tail_digits t d Ht) as Hd.
    unfold LayerPattern.match_tail in Ht.
    destruct t as [|d1 [|d2 [|d3 [|d4 [|d5 [|c r]]]]]]; try discriminate.
    destruct (_ && _) eqn:Hcond; [|discriminate]. injection Ht as <-.
    apply andb_true_iff in Hcond as [Hcond Hext].
    apply andb_true_iff in Hcond as [_ Hdot]. apply Ascii.eqb_eq in Hdot as ->.
    apply match_ext_inv in Hext as (e & nl & -> & He & Hnl).
    exists e, nl. unfold name_tail. by push_append.
  - intros (e & nl & -> & Hd & He & Hnl). destruct Hd as [Hlen Hdig].
    unfold name_tail.
    destruct d as [|d1 [|d2 [|d3 [|d4 [|d5 [|? ?]]]]]]; try discriminate.
    simpl in Hdig. push_append.
    unfold LayerPattern.match_tail.
    assert (LayerPattern.match_ext (e +:+ nl) = true) as -> by (apply match_ext_inv; eauto).
    repeat (apply andb_true_iff in Hdig as [-> Hdig]). done.
Qed.

(** Where the tail of the pattern matches, it matches nowhere to the
    left in the same text. *)
Lemma match_tail_unique t d y :
  LayerPattern.match_tail t = Some d → y ≠ "" →
  LayerPattern.match_tail (y +:+ t) = None.
Proof.
  intros (e & nl & -> & [Hlen Hdig] & He & Hnl)%match_tail_inv Hy.
  unfold name_tail.
  destruct d as [|d1 [|d2 [|d3 [|d4 [|d5 [|? ?]]]]]]; try discriminate.
  simpl in Hdig.
  repeat (apply andb_true_iff in Hdig as [?%isdigit_not_dot Hdig]).
  destruct y as [|c1 [|c2 [|c3 [|c4 [|c5 [|c6 y']]]]]]; [done|..];
    push_append; unfold LayerPattern.match_tail;
    repeat match goal with H : Ascii.eqb _ "." = false |- _ => rewrite H; clear H end;
    rewrite ?andb_false_r; try done.
  destruct (LayerPattern.match_ext _) eqn:Hext; [|by rewrite andb_false_r].
  apply match_ext_length in Hext.
  rewrite !length_append in Hext. simpl in Hext.
  rewrite !length_append in Hext. simpl in Hext.
  destruct (is_ext_length e He); lia.
Qed.

Section Anchor.
Variables t d : string.
Hypothesis Ht : LayerPattern.match_tail t = Some d.

Lemma match_from_anchor y base :
  y ≠ "" →
  LayerPattern.match_from base (y +:+ t)
  = if PyStr.contains_char PyStr.LF y then None else Some (base +:+ y, d).
Proof.
  revert base. induction y as [|c y IH]; intros base Hy; [done|].
  rewrite append_cons. simpl.
  destruct (Ascii.eqb c PyStr.LF) eqn:Hc; [done|]. simpl.
  destruct y as [|c' y].
  - by rewrite append_nil, Ht.
  - rewrite (match_tail_unique t d) by done. rewrite IH by done.
    destruct (PyStr.contains_char PyStr.LF (String c' y)); [done|].
    by rewrite append_assoc.
Qed.

Lemma search_anchor x :
  PyStr.after_last PyStr.LF x ≠ "" →
  LayerPattern.search (x +:+ t) = Some (PyStr.after_last PyStr.LF x, d).
Proof.
  induction x as [|c x IH]; intros Hx; [done|].
  assert (String c x ≠ "") as Hne by done.
  pose proof (match_from_anchor (String c x) "" Hne) as Hm.
  rewrite append_cons in Hm |- *.
  cbn [LayerPattern.search]. rewrite Hm. clear Hm.
  destruct (PyStr.contains_char PyStr.LF (String c x)) eqn:Hlf.
  - cbn [PyStr.after_last] in Hx |- *.
    cbn [PyStr.contains_char] in Hlf.
    destruct (PyStr.contains_char PyStr.LF x) eqn:Hlf'.
    + by apply IH.
    + rewrite orb_false_r in Hlf. rewrite Hlf in Hx |- *.
      rewrite <- (after_last_absent PyStr.LF x Hlf') at 2.
      apply IH. by rewrite after_last_absent.
  - by rewrite after_last_absent.
Qed.

End Anchor.

Lemma match_from_inv s base b d :
  LayerPattern.match_from base s = Some (b, d) →
  ∃ y t, s = y +:+ t ∧ y ≠ "" ∧ PyStr.contains_char PyStr.LF y = false
    ∧ b = base +:+ y ∧ LayerPattern.match_tail t = Some d.
Proof.
  revert base. induction s as [|c s IH]; intros base; simpl; [discriminate|].
  destruct (Ascii.eqb c PyStr.LF) eqn:Hc; [discriminate|].
  destruct (LayerPattern.match_tail s) as [d'|] eqn:Ht.
  - intros [= <- <-]. exists (String c ""), s. simpl. by rewrite Hc.
  - intros (y & t & -> & Hy & Hlf & -> & Ht')%IH.
    exists (String c y), t. rewrite append_cons. simpl. rewrite Hc, Hlf.
    by rewrite append_assoc.
Qed.

Lemma after_last_end c x0 : PyStr.after_last c (x0 +:+ String c "") = "".
Proof.
  induction x0 as [|a x0 IH].
  - rewrite append_nil. simpl. by rewrite Ascii.eqb_refl.
  - rewrite append_cons. simpl.
    rewrite contains_char_app. simpl. rewrite Ascii.eqb_refl.
    by rewrite orb_true_r.
Qed.

Lemma search_inv s b d :
  LayerPattern.search s = Some (b, d) →
  ∃ x t, s = x +:+ b +:+ t
    ∧ (x = "" ∨ ∃ x0, x = x0 +:+ String PyStr.LF "")
    ∧ b ≠ "" ∧ PyStr.contains_char PyStr.LF b = false
    ∧ LayerPattern.match_tail t = Some d.
Proof.
  induction s as [|c s IH]; [discriminate|].
  cbn [LayerPattern.search].
  destruct (LayerPattern.match_from "" (String c s)) as [[b' d']|] eqn:Hm.
  - intros [= -> ->].
    apply match_from_inv in Hm as (y & t & Hs & Hy & Hlf & -> & Ht).
    rewrite append_nil. exists "", t. rewrite append_nil. auto.
  - intros (x & t & -> & Hx & Hb & Hlf & Ht)%IH.
    exists (String c x), t. rewrite append_cons. split; [done|].
    split; [|done]. right.
    destruct Hx as [->|[x0 ->]]; [|exists (String c x0); by rewrite append_cons].
    exists "". rewrite append_nil. f_equal.
    rewrite append_nil in Hm.
    change (String c (b +:+ t)) with (String c b +:+ t) in Hm.
    rewrite (match_from_anchor t d Ht) in Hm by done.
    cbn [PyStr.contains_char] in Hm. rewrite Hlf, orb_false_r in Hm.
    destruct (Ascii.eqb c PyStr.LF) eqn:Hc; [|discriminate].
    by apply Ascii.eqb_eq.
Qed.

(** X11: the ASCII names the layer-image pattern accepts.  On an ASCII
    name the search yields the groups [b] and [d] exactly when the name
    reads: nothing or text up to a line feed, then [b], non-empty and
    free of line feeds, then the five digits [d], a dot, one of the
    extensions png, jpg and jpeg in any case, and at most one final line
    feed. *)
Theorem X11_pattern_accepts s b d :
  PyStr.isascii s = true →
  LayerPattern.search s = Some (b, d) ↔ pattern_accepts s b d.
Proof.
  intros _. split.
  - intros (x & t & -> & Hx & Hb & Hlf & Ht)%search_inv.
    apply match_tail_inv in Ht as (e & nl & -> & Hd & He & Hnl).
    exists x, e, nl. by rewrite <- at_end_inv.
  - intros (x & e & nl & -> & Hx & Hb & Hlf & Hd & He & Hnl).
    rewrite <- append_assoc.
    assert (PyStr.after_last PyStr.LF (x +:+ b) = b) as Hafter.
    { rewrite after_last_app by done.
      destruct Hx as [->|[x0 ->]]; [reflexivity|by rewrite after_last_end]. }
    rewrite <- Hafter at 2. apply search_anchor.
    + apply match_tail_inv. exists e, nl. by rewrite at_end_inv.
    + by rewrite Hafter.
Qed.

(** The theorem on the name of a second layer. *)
Lemma X11_pattern_accepts_witness :
  LayerPattern.search "foo00001.png" = Some ("foo", "00001")
  ↔ pattern_accepts "foo00001.png" "foo" "00001".
Proof. apply (X11_pattern_accepts "foo00001.png" "foo" "00001"). reflexivity. Defined.

(** ** Names made from a base name and an index *)

Lemma lower_app (a b : string) : PyStr.lower (a +:+ b) = PyStr.lower a +:+ PyStr.lower b.
Proof. induction a as [|c a IH]; [done|]. rewrite append_cons. simpl. by rewrite IH. Qed.

Lemma endswith_app (a p : string) : PyStr.endswith (a +:+ p) p = true.
Proof.
  induction a as [|c a IH].
  - rewrite append_nil. destruct p; cbn [PyStr.endswith]; by rewrite String.eqb_refl.
  - rewrite append_cons. cbn [PyStr.endswith]. rewrite IH. apply orb_true_r.
Qed.

Lemma lower_char_slash c : Ascii.eqb (PyStr.lower_char c) "/" = Ascii.eqb c "/".
Proof. destruct c as [[] [] [] [] [] [] [] []]; reflexivity. Qed.

Lemma contains_slash_lower s :
  PyStr.contains_char "/" (PyStr.lower s) = PyStr.contains_char "/" s.
Proof. induction s as [|c s IH]; [done|]. simpl. by rewrite lower_char_slash, IH. Qed.

Lemma isdigit_not_slash c : PyStr.isdigit c = true → Ascii.eqb c "/" = false.
Proof. destruct c as [[] [] [] [] [] [] [] []]; vm_compute; done. Qed.

Lemma digits_no_slash q :
  PyStr.forallb PyStr.isdigit q = true → PyStr.contains_char "/" q = false.
Proof.
  induction q as [|c q IH]; simpl; [done|].
  intros [Hc Hq]%andb_true_iff. by rewrite (isdigit_not_slash c Hc), IH.
Qed.

Lemma is_ext_lower e :
  LayerPattern.is_ext e = true →
  PyStr.lower e = "png" ∨ PyStr.lower e = "jpg" ∨ PyStr.lower e = "jpeg".
Proof.
  unfold LayerPattern.is_ext. rewrite !orb_true_iff, !String.eqb_eq. tauto.
Qed.

(** A name made of a base name, five digits, a dot and an extension is a
    layer image, provided the base name has no slash. *)
Lemma generated_name_is_layer_image b d e :
  PyStr.contains_char "/" b = false →
  PyStr.forallb PyStr.isdigit d = true →
  LayerPattern.is_ext e = true →
  _is_layer_image (b +:+ name_tail d e) = true.
Proof.
  intros Hb Hd He. unfold _is_layer_image, name_tail.
  assert (PyStr.contains_char "/" (b +:+ d +:+ String "." e) = false) as Hslash.
  { rewrite !contains_char_app, Hb, (digits_no_slash d Hd). simpl.
    rewrite <- contains_slash_lower.
    by destruct (is_ext_lower e He) as [->|[->| ->]]. }
  rewrite Hslash.
  destruct (_is_thumbnail_or_preview_file _) eqn:Hres;
    [apply reserved_prefix_has_slash in Hres; congruence|].
  rewrite !andb_true_r.
  rewrite <- append_assoc, lower_app. cbn [PyStr.lower].
  change (PyStr.lower_char ".") with "."%char.
  destruct (is_ext_lower e He) as [->|[->| ->]]; rewrite endswith_app;
    by rewrite ?orb_true_r.
Qed.

(** A name made from a base name and an index: what the classification,
    the pattern and the conversion make of it. *)
Lemma generated_name_round_trip b n e :
  b ≠ "" →
  PyStr.contains_char "/" b = false →
  PyStr.contains_char PyStr.LF b = false →
  (0 ≤ n ≤ 99999)%Z →
  LayerPattern.is_ext e = true →
  let name := b +:+ PyStr.fmt05 n +:+ String "." e in
  _is_layer_image name = true
  ∧ LayerPattern.search (PyStr.basename name) = Some (b, PyStr.fmt05 n)
  ∧ PyStr.digits_value 0 (PyStr.fmt05 n) = n
  ∧ parsed_numbers [name] = [n].
Proof.
  intros Hb Hslash Hlf Hn He name.
  destruct (fmt05_value n Hn) as [Hd Hval].
  assert (_is_layer_image name = true) as Himg
    by (apply generated_name_is_layer_image; [done|apply Hd|done]).
  assert (LayerPattern.search (PyStr.basename name) = Some (b, PyStr.fmt05 n)) as Hs.
  { rewrite (_is_layer_image_root name Himg). unfold name.
    rewrite <- (after_last_absent PyStr.LF b Hlf) at 2.
    apply (search_tail (PyStr.fmt05 n) e Hd He).
    by rewrite after_last_absent. }
  split; [done|]. split; [done|]. split; [done|].
  unfold parsed_numbers. simpl. by rewrite Hs, Hval.
Qed.

(** X12: a name made from a base name and an index reads back.  For a
    base name [b] that is not empty and has no slash and no line feed, an
    index [n] from 0 to 99999 and one of the three extensions in any case,
    the entry [b], [n] formatted to five digits, a dot and the extension
    is a layer image; the pattern splits its file name into [b] and the
    five digits; and the value of the digits is [n]. *)
Theorem X12_generated_name_reads_back b n e :
  b ≠ "" →
  PyStr.contains_char "/" b = false →
  PyStr.contains_char PyStr.LF b = false →
  (0 ≤ n ≤ 99999)%Z →
  LayerPattern.is_ext e = true →
  let name := b +:+ PyStr.fmt05 n +:+ String "." e in
  _is_layer_image name = true
  ∧ LayerPattern.search (PyStr.basename name) = Some (b, PyStr.fmt05 n)
  ∧ PyStr.digits_value 0 (PyStr.fmt05 n) = n
  ∧ parsed_numbers [name] = [n].
Proof. apply generated_name_round_trip. Qed.

(** The theorem on the name of the fourth layer of [my_print_]. *)
Lemma X12_generated_name_reads_back_witness :
  _is_layer_image "my_print_00003.png" = true
  ∧ LayerPattern.search (PyStr.basename "my_print_00003.png") = Some ("my_print_", "00003")
  ∧ PyStr.digits_value 0 "00003" = 3%Z
  ∧ parsed_numbers ["my_print_00003.png"] = [3%Z].
Proof.
  apply (X12_generated_name_reads_back "my_print_" 3 "png"); [done|done|done|lia|done].
Defined.

(** ** Archives that pass *)

(** The image check on a contiguous sequence with one base name. *)
Lemma contiguous_images_clean fs set_iter s members b k :
  open_zip fs s = Ok members →
  let images := List.filter _is_layer_image (namelist members) in
  images ≠ [] →
  Forall (λ f, ∃ d, LayerPattern.search (PyStr.basename f) = Some (b, d)) images →
  parsed_numbers images ≡ₚ seqZ k (Z.of_nat (length images)) →
  let s' := _check_image_files fs set_iter s in
  errors s' = errors s
  ∧ warnings s'
    = warnings s
      ++ (if decide (k = 0%Z) then [] else [NumberingNotAtZero (PyStr.fmt05 k)]).
Proof.
  intros Hopen images Hne Hbase Hperm s'.
  assert (Forall matches_pattern images) as Hall.
  { eapply Forall_impl; [exact Hbase|]. intros f [d Hf]. by eexists. }
  unfold s'.
  rewrite (_check_image_files_all_match fs set_iter s members Hopen Hne Hall).
  fold images. rewrite (image_bases_one_base b images Hne Hbase).
  rewrite size_singleton. simpl.
  set (numbers := parsed_numbers images) in *.
  assert (merge_sort Z.le numbers = seqZ k (Z.of_nat (length images))) as Hsort.
  { apply (Sorted_unique Z.le); [apply Sorted_merge_sort, _|apply Sorted_seqZ|].
    by rewrite merge_sort_Permutation. }
  assert (Forall (λ n, 0 ≤ n ≤ 99999)%Z (seqZ k (Z.of_nat (length images)))) as Hrange.
  { rewrite <- Hperm. apply parsed_numbers_range. }
  destruct images as [|f l] eqn:E; [done|].
  rewrite seqZ_cons in Hsort, Hrange by (simpl; lia).
  destruct (check_numbering_spec numbers (set_image_files (f :: l) s) _ _ Hsort)
    as [He Hw].
  rewrite <- (seqZ_cons k) in He, Hrange by (simpl; lia).
  rewrite He, Hw. simpl errors. simpl warnings.
  rewrite length_seqZ, Nat2Z.id.
  rewrite decide_True by done.
  rewrite filter_out_of_range_nil by done. simpl. rewrite app_nil_r.
  done.
Qed.

Lemma layer_image_is_root_file f : _is_layer_image f = true → is_root_file f = true.
Proof.
  unfold _is_layer_image, is_root_file.
  intros [_ ->]%andb_true_iff. done.
Qed.

Lemma filter_not_nil_existsb {A} (p : A → bool) (l : list A) :
  List.filter p l ≠ [] → existsb p l = true.
Proof.
  intros Hne. destruct (existsb p l) eqn:Hex; [done|].
  by apply existsb_false_filter in Hex.
Qed.

Lemma existsb_impl {A} (p q : A → bool) (l : list A) :
  (∀ x, p x = true → q x = true) → existsb p l = true → existsb q l = true.
Proof.
  intros Hpq. rewrite !existsb_exists. intros (x & Hin & Hp). exists x. auto.
Qed.

(** The stages before the consistency check on an archive in good
    order: they leave no message, the layer images and the parser. *)
Lemma good_order_stages fs set_iter path members config_file content cp b :
  fs path = Archive members →
  let names := namelist members in
  let images := List.filter _is_layer_image names in
  existsb in_subfolder names = false →
  has_required names "prusaslicer.ini" = true →
  config_entry names = Some config_file →
  read_member members config_file = Ok content →
  ConfigParser.read_string ConfigParser.new content = (cp, None) →
  images ≠ [] →
  Forall (λ f, ∃ d, LayerPattern.search (PyStr.basename f) = Some (b, d)) images →
  parsed_numbers images ≡ₚ seqZ 0 (Z.of_nat (length images)) →
  ∃ s4,
    validate_sl1s_file fs set_iter (__init__ path) = _check_config_consistency s4
    ∧ errors s4 = [] ∧ warnings s4 = [] ∧ image_files s4 = images
    ∧ config s4 = Some cp
    ∧ config_is_true s4 = true
    ∧ ∀ key, _get_config_value s4 "layerRenderParams" key
             = _get_config_value (set_config cp (__init__ path)) "layerRenderParams" key.
Proof.
  intros Hfs names images Hsub Hprusa Hentry Hread Hparse Hne Hbase Hperm.
  set (s0 := __init__ path) in *.
  assert (∀ t, sl1s_file_path t = path → open_zip fs t = Ok members) as Hopen.
  { intros t Ht. unfold open_zip. by rewrite Ht, Hfs. }
  assert (_check_zip_structure fs set_iter s0 = s0) as H1.
  { unfold _check_zip_structure. rewrite (Hopen s0) by done. fold names.
    destruct (List.filter is_root_file names) as [|x l] eqn:Hroot.
    - exfalso. apply (filter_not_nil_existsb _is_layer_image) in Hne.
      apply (existsb_impl _ is_root_file) in Hne; [|apply layer_image_is_root_file].
      apply existsb_exists in Hne as (f & Hin & Hf).
      assert (In f (List.filter is_root_file names)) as Hin'
        by (apply filter_In; done).
      by rewrite Hroot in Hin'.
    - by rewrite Hsub. }
  assert (_check_required_files fs s0 = s0) as H2.
  { unfold _check_required_files. rewrite (Hopen s0) by done. fold names.
    unfold required_files. cbn [foldl]. rewrite !required_found, Hprusa.
    assert (has_required names "config.ini" = true) as ->; [|done].
    unfold has_required. apply filter_not_nil_existsb.
    unfold config_entry in Hentry. intros Hnil. by rewrite Hnil in Hentry. }
  assert (_extract_config fs s0 = set_config cp s0) as H3.
  { unfold _extract_config. rewrite (Hopen s0) by done. fold names.
    unfold config_entry in Hentry.
    destruct (List.filter _ names) as [|f l] eqn:Hfilter in Hentry |- *; [done|].
    injection Hentry as ->. by rewrite Hread, Hparse. }
  set (s3 := set_config cp s0) in *.
  set (s4 := _check_image_files fs set_iter s3).
  destruct (contiguous_images_clean fs set_iter s3 members b 0
              (Hopen s3 eq_refl) Hne Hbase Hperm) as [E4 W4].
  destruct (_check_image_files_frame fs set_iter s3 members (Hopen s3 eq_refl))
    as (_ & I4 & C4).
  fold s4 in E4, W4, I4, C4. fold names images in I4.
  simpl in E4, W4, C4.
  exists s4. split; [|split; [done|split; [done|split; [done|split; [done|split]]]]].
  - unfold validate_sl1s_file, _check_file_exists.
    change (sl1s_file_path s0) with path. rewrite Hfs.
    change (errors s0) with (@nil message). cbv iota.
    by rewrite H1, H2, H3.
  - unfold config_is_true. rewrite C4. apply negb_true_iff, Nat.eqb_neq.
    unfold ConfigParser.len. lia.
  - intros key. by apply _get_config_value_ext.
Qed.

Lemma check_job_dir_found j s first rest b d :
  j ≠ "" → image_files s = first :: rest →
  LayerPattern.search (PyStr.basename first) = Some (b, d) →
  check_job_dir (Some j) s
  = if decide (strip_separators b = strip_separators j) then s
    else add_error (BaseNameMismatch (strip_separators b) (strip_separators j)) s.
Proof.
  intros Hj Himg Hs. unfold check_job_dir. destruct j as [|c j]; [done|].
  rewrite Himg, Hs. case_bool_decide; by destruct (decide _).
Qed.

(** The [numFast] block when the value is the number of layer images and
    these are numbered from 0 without gap or repetition. *)
Lemma check_num_fast_agrees nf s :
  image_files s ≠ [] →
  parsed_numbers (image_files s) ≡ₚ seqZ 0 (Z.of_nat (length (image_files s))) →
  (∀ v, nf = Some v → v ≠ "" → PyStr.int v = Some (Z.of_nat (length (image_files s)))) →
  check_num_fast nf s = s.
Proof.
  intros Hne Hperm Hv. unfold check_num_fast. destruct nf as [[|c v]|]; [done| |done].
  rewrite (Hv _ eq_refl) by done.
  rewrite bool_decide_eq_true_2 by done.
  assert (list_max_Z (parsed_numbers (image_files s))
          = (Z.of_nat (length (image_files s)) - 1)%Z) as Hmax.
  { rewrite (list_max_Z_run _ 0 (Z.of_nat (length (image_files s))) Hperm); [lia|].
    destruct (image_files s); [done|simpl; lia]. }
  destruct (parsed_numbers (image_files s)) as [|x numbers'] eqn:Hnum; [done|].
  by rewrite bool_decide_eq_true_2.
Qed.

(** The whole run on an archive in good order. *)
Lemma good_order_passes
    fs set_iter path members config_file content cp b jd nf :
  fs path = Archive members →
  let names := namelist members in
  let images := List.filter _is_layer_image names in
  existsb in_subfolder names = false →
  has_required names "prusaslicer.ini" = true →
  config_entry names = Some config_file →
  read_member members config_file = Ok content →
  ConfigParser.read_string ConfigParser.new content = (cp, None) →
  images ≠ [] →
  Forall (λ f, ∃ d, LayerPattern.search (PyStr.basename f) = Some (b, d)) images →
  parsed_numbers images ≡ₚ seqZ 0 (Z.of_nat (length images)) →
  _get_config_value (set_config cp (__init__ path)) "layerRenderParams" "jobDir"
  = Ok jd →
  (∀ j, jd = Some j → j ≠ "" → strip_separators b = strip_separators j) →
  _get_config_value (set_config cp (__init__ path)) "layerRenderParams" "numFast"
  = Ok nf →
  (∀ v, nf = Some v → v ≠ "" → PyStr.int v = Some (Z.of_nat (length images))) →
  let r := validate_sl1s_file fs set_iter (__init__ path) in
  errors r = [] ∧ warnings r = [] ∧ image_files r = images ∧ config r = Some cp
  ∧ _generate_report r = true.
Proof.
  intros Hfs names images Hsub Hprusa Hentry Hread Hparse Hne Hbase Hperm
    Hjd Hj Hnf Hv r.
  destruct (good_order_stages fs set_iter path members config_file content cp b
              Hfs Hsub Hprusa Hentry Hread Hparse Hne Hbase Hperm)
    as (s4 & Hr & E4 & W4 & I4 & C4 & Htrue & Hlook).
  fold names images in I4.
  assert (_check_config_consistency s4 = s4) as H5.
  { unfold _check_config_consistency. rewrite Htrue. cbn [negb].
    rewrite Hlook, Hjd.
    assert (check_job_dir jd s4 = s4) as ->.
    { destruct jd as [j|]; [|done]. destruct (decide (j = "")) as [->|Hne']; [done|].
      destruct images as [|first rest] eqn:Himg; [done|].
      apply Forall_cons in Hbase as [[d Hd] _].
      rewrite (check_job_dir_found j s4 first rest b d Hne' I4 Hd).
      by rewrite decide_True by by apply Hj. }
    rewrite Hlook, Hnf. apply check_num_fast_agrees; by rewrite I4. }
  unfold r. rewrite Hr, H5. unfold _generate_report. by rewrite E4.
Qed.

(** X13: an archive in good order passes without a message.  The path
    holds an archive of ASCII text; no entry lies in a folder other than
    [thumbnail/] and [preview/]; an entry outside [thumbnail/] ends with
    [prusaslicer.ini]; the configuration entry can be read and parses; the
    layer images are at least one, share the base name [b], and carry the
    indices 0, 1, ... without gap or repetition, in any order; the lookup
    of [jobDir] finds nothing, an empty text, or a text that agrees with
    [b] after the stripping; the lookup of [numFast] finds nothing, an
    empty text, or the number of layer images.  Then the run from a fresh
    object ends with no error and no warning, with the layer images and
    the parser in place, and the verdict is a pass. *)
Theorem X13_well_formed_archive_passes
    fs set_iter path members config_file content cp b jd nf :
  fs path = Archive members →
  ascii_archive members = true →
  let names := namelist members in
  let images := List.filter _is_layer_image names in
  existsb in_subfolder names = false →
  has_required names "prusaslicer.ini" = true →
  config_entry names = Some config_file →
  read_member members config_file = Ok content →
  ConfigParser.read_string ConfigParser.new content = (cp, None) →
  images ≠ [] →
  Forall (λ f, ∃ d, LayerPattern.search (PyStr.basename f) = Some (b, d)) images →
  parsed_numbers images ≡ₚ seqZ 0 (Z.of_nat (length images)) →
  _get_config_value (set_config cp (__init__ path)) "layerRenderParams" "jobDir"
  = Ok jd →
  (∀ j, jd = Some j → j ≠ "" → strip_separators b = strip_separators j) →
  _get_config_value (set_config cp (__init__ path)) "layerRenderParams" "numFast"
  = Ok nf →
  (∀ v, nf = Some v → v ≠ "" → PyStr.int v = Some (Z.of_nat (length images))) →
  let r := validate_sl1s_file fs set_iter (__init__ path) in
  errors r = [] ∧ warnings r = [] ∧ image_files r = images ∧ config r = Some cp
  ∧ _generate_report r = true.
Proof. intros Hfs _. by apply good_order_passes. Qed.

(** The theorem on the valid archive of the test script. *)
Lemma X13_well_formed_archive_passes_witness :
  let fs := create_test_sl1s "test_valid.sl1s" false (λ _, Missing) in
  let r := validate_sl1s_file fs elements (__init__ "test_valid.sl1s") in
  ∃ members cp,
    fs "test_valid.sl1s" = Archive members
    ∧ errors r = [] ∧ warnings r = []
    ∧ image_files r = List.filter _is_layer_image (namelist members)
    ∧ config r = Some cp
    ∧ _generate_report r = true.
Proof.
  intros fs.
  set (content := Samples.text ["[layerRenderParams]"; "jobDir = my_print";
                                "numFast = 5"; "exposureTime = 10"]).
  set (cp := (ConfigParser.read_string ConfigParser.new content).1).
  eexists _, cp. split; [reflexivity|].
  apply (X13_well_formed_archive_passes fs elements "test_valid.sl1s" _
           "config.ini" content cp "my_print_" (Some "my_print") (Some "5")).
  - reflexivity.
  - vm_compute. reflexivity.
  - vm_compute. reflexivity.
  - vm_compute. reflexivity.
  - vm_compute. reflexivity.
  - vm_compute. reflexivity.
  - vm_compute. reflexivity.
  - vm_compute. discriminate.
  - repeat constructor; vm_compute; eexists; reflexivity.
  - vm_compute. reflexivity.
  - vm_compute. reflexivity.
  - intros j [= <-] _. vm_compute. reflexivity.
  - vm_compute. reflexivity.
  - intros v [= <-] _. vm_compute. reflexivity.
Defined.

(** X14: an archive in good order but for its job name.  With everything
    as in X13 (an archive of ASCII text included) except that the lookup
    of [jobDir] finds a non-empty text that differs from the base name [b] after the stripping, the run ends
    with exactly one error, the one that shows the two stripped names, and
    no warning; the verdict is a failure. *)
Theorem X14_wrong_job_name_is_the_only_error
    fs set_iter path members config_file content cp b j nf :
  fs path = Archive members →
  ascii_archive members = true →
  let names := namelist members in
  let images := List.filter _is_layer_image names in
  existsb in_subfolder names = false →
  has_required names "prusaslicer.ini" = true →
  config_entry names = Some config_file →
  read_member members config_file = Ok content →
  ConfigParser.read_string ConfigParser.new content = (cp, None) →
  images ≠ [] →
  Forall (λ f, ∃ d, LayerPattern.search (PyStr.basename f) = Some (b, d)) images →
  parsed_numbers images ≡ₚ seqZ 0 (Z.of_nat (length images)) →
  _get_config_value (set_config cp (__init__ path)) "layerRenderParams" "jobDir"
  = Ok (Some j) →
  j ≠ "" →
  strip_separators b ≠ strip_separators j →
  _get_config_value (set_config cp (__init__ path)) "layerRenderParams" "numFast"
  = Ok nf →
  (∀ v, nf = Some v → v ≠ "" → PyStr.int v = Some (Z.of_nat (length images))) →
  let r := validate_sl1s_file fs set_iter (__init__ path) in
  errors r = [BaseNameMismatch (strip_separators b) (strip_separators j)]
  ∧ warnings r = []
  ∧ _generate_report r = false.
Proof.
  intros Hfs _ names images Hsub Hprusa Hentry Hread Hparse Hne Hbase Hperm
    Hjd Hj Hdiff Hnf Hv r.
  destruct (good_order_stages fs set_iter path members config_file content cp b
              Hfs Hsub Hprusa Hentry Hread Hparse Hne Hbase Hperm)
    as (s4 & Hr & E4 & W4 & I4 & C4 & Htrue & Hlook).
  fold names images in I4.
  set (m := BaseNameMismatch (strip_separators b) (strip_separators j)).
  assert (_check_config_consistency s4 = add_error m s4) as H5.
  { unfold _check_config_consistency. rewrite Htrue. cbn [negb].
    rewrite Hlook, Hjd.
    assert (check_job_dir (Some j) s4 = add_error m s4) as ->.
    { destruct images as [|first rest] eqn:Himg; [done|].
      apply Forall_cons in Hbase as [[d Hd] _].
      rewrite (check_job_dir_found j s4 first rest b d Hj I4 Hd).
      by rewrite decide_False. }
    rewrite (_get_config_value_ext s4 (add_error m s4)) by done.
    rewrite Hlook, Hnf.
    apply check_num_fast_agrees; change (image_files (add_error m s4))
      with (image_files s4); by rewrite I4. }
  unfold r. rewrite Hr, H5. unfold _generate_report. simpl. by rewrite E4, W4.
Qed.

(** The theorem on the faulty archive of the test script. *)
Lemma X14_wrong_job_name_is_the_only_error_witness :
  let fs := create_test_sl1s "test_invalid.sl1s" true (λ _, Missing) in
  let r := validate_sl1s_file fs elements (__init__ "test_invalid.sl1s") in
  errors r = [BaseNameMismatch (strip_separators "wrong_name_")
                               (strip_separators "my_print")]
  ∧ warnings r = []
  ∧ _generate_report r = false.
Proof.
  intros fs.
  set (content := Samples.text ["[layerRenderParams]"; "jobDir = my_print";
                                "numFast = 5"; "exposureTime = 10"]).
  set (cp := (ConfigParser.read_string ConfigParser.new content).1).
  eapply (X14_wrong_job_name_is_the_only_error fs elements "test_invalid.sl1s" _
            "config.ini" content cp "wrong_name_" "my_print" (Some "5")).
  - reflexivity.
  - vm_compute. reflexivity.
  - vm_compute. reflexivity.
  - vm_compute. reflexivity.
  - vm_compute. reflexivity.
  - vm_compute. reflexivity.
  - vm_compute. reflexivity.
  - vm_compute. discriminate.
  - repeat constructor; vm_compute; eexists; reflexivity.
  - vm_compute. reflexivity.
  - vm_compute. reflexivity.
  - done.
  - vm_compute. discriminate.
  - vm_compute. reflexivity.
  - intros v [= <-] _. vm_compute. reflexivity.
Defined.

(** ** Reading a simple configuration *)

Lemma forallb_impl (p q : ascii → bool) s :
  (∀ c, p c = true → q c = true) → PyStr.forallb p s = true → PyStr.forallb q s = true.
Proof.
  intros Hpq. induction s as [|c s IH]; simpl; [done|].
  intros [Hc Hs]%andb_true_iff. by rewrite (Hpq c Hc), IH.
Qed.

Lemma forallb_no_char (p : ascii → bool) c s :
  p c = false → PyStr.forallb p s = true → PyStr.contains_char c s = false.
Proof.
  intros Hc. induction s as [|x s IH]; simpl; [done|].
  intros [Hx Hs]%andb_true_iff. rewrite IH by done.
  destruct (Ascii.eqb x c) eqn:E; [|done].
  apply Ascii.eqb_eq in E. congruence.
Qed.

Lemma readlines_line a rest :
  PyStr.contains_char PyStr.LF a = false →
  PyStr.readlines (a +:+ String PyStr.LF rest)
  = (a +:+ String PyStr.LF "") :: PyStr.readlines rest.
Proof.
  induction a as [|c a IH]; intros Ha.
  - rewrite !append_nil. simpl. done.
  - simpl in Ha. apply orb_false_iff in Ha as [Hc Ha].
    rewrite !append_cons. cbn [PyStr.readlines]. rewrite Hc, IH by done. done.
Qed.

Lemma rstrip_with_keep (p : ascii → bool) a b :
  b ≠ "" → PyStr.forallb (λ c, negb (p c)) b = true →
  PyStr.rstrip_with p (a +:+ b) = a +:+ b.
Proof.
  intros Hb Hall.
  assert (PyStr.rstrip_with p b = b) as Hbb.
  { clear Hb. induction b as [|c b IH]; [done|].
    simpl in Hall. apply andb_true_iff in Hall as [Hc Hall].
    cbn [PyStr.rstrip_with]. rewrite IH by done.
    apply negb_true_iff in Hc. rewrite Hc. by destruct b. }
  induction a as [|c a IH]; [by rewrite append_nil|].
  rewrite append_cons. cbn [PyStr.rstrip_with]. rewrite IH.
  destruct (a +:+ b) eqn:E; [|done].
  exfalso. destruct a; [by rewrite append_nil in E|by rewrite append_cons in E].
Qed.

Lemma rstrip_with_drop (p : ascii → bool) a b :
  PyStr.forallb p b = true →
  PyStr.rstrip_with p (a +:+ b) = PyStr.rstrip_with p a.
Proof.
  intros Hall.
  assert (PyStr.rstrip_with p b = "") as Hbb.
  { induction b as [|c b IH]; [done|].
    simpl in Hall. apply andb_true_iff in Hall as [Hc Hall].
    cbn [PyStr.rstrip_with]. by rewrite IH, Hc. }
  induction a as [|c a IH]; [by rewrite append_nil|].
  rewrite append_cons. cbn [PyStr.rstrip_with]. by rewrite IH.
Qed.

Lemma lstrip_with_keep (p : ascii → bool) c s :
  p c = false → PyStr.lstrip_with p (String c s) = String c s.
Proof. intros Hc. simpl. by rewrite Hc. Qed.

Lemma before_last_end c h : PyStr.before_last c (h +:+ String c "") = Some h.
Proof.
  induction h as [|x h IH].
  - rewrite append_nil. simpl. by rewrite Ascii.eqb_refl.
  - rewrite append_cons. cbn [PyStr.before_last]. by rewrite IH.
Qed.

Lemma break_at_first (p : ascii → bool) a c rest :
  PyStr.forallb (λ x, negb (p x)) a = true → p c = true →
  PyStr.break_at p (a +:+ String c rest) = (a, Some (String c rest)).
Proof.
  intros Ha Hc. induction a as [|x a IH].
  - rewrite append_nil. simpl. by rewrite Hc.
  - simpl in Ha. apply andb_true_iff in Ha as [Hx Ha].
    rewrite append_cons. cbn [PyStr.break_at].
    apply negb_true_iff in Hx. rewrite Hx, IH by done. done.
Qed.

Lemma break_at_none (p : ascii → bool) a :
  PyStr.forallb (λ x, negb (p x)) a = true → PyStr.break_at p a = (a, None).
Proof.
  induction a as [|x a IH]; [done|]. simpl.
  intros [Hx Ha]%andb_true_iff.
  apply negb_true_iff in Hx. by rewrite Hx, IH.
Qed.

(** The header line of a simple configuration opens its section. *)
Lemma strip_header_line h :
  PyStr.strip ("[" +:+ h +:+ "]" +:+ String PyStr.LF "") = String "[" (h +:+ "]").
Proof.
  unfold PyStr.strip, PyStr.rstrip, PyStr.lstrip.
  rewrite <- !append_assoc.
  rewrite (rstrip_with_drop PyStr.isspace _ (String PyStr.LF "")) by done.
  rewrite (rstrip_with_keep PyStr.isspace _ "]") by done.
  by rewrite !append_cons.
Qed.

Lemma match_section_header h :
  h ≠ "" → ConfigParser.match_section (String "[" (h +:+ "]")) = Some h.
Proof.
  intros Hh. unfold ConfigParser.match_section.
  rewrite before_last_end. by destruct h.
Qed.

Lemma step_header h lineno :
  good_header h →
  ConfigParser.step (ConfigParser.start ConfigParser.new) lineno
    ("[" +:+ h +:+ "]" +:+ String PyStr.LF "")
  = Ok (ConfigParser.mk_reader (ConfigParser.mk [(h, ∅)] ∅) (Some h) None 0
          ({[h]} ∪ ∅) ∅ []).
Proof.
  intros (Hne & Hdef & Hlf). unfold ConfigParser.step.
  rewrite strip_header_line.
  change (PyStr.startswith (String "[" (h +:+ "]")) "#") with false.
  change (PyStr.startswith (String "[" (h +:+ "]")) ";") with false.
  cbn [orb]. cbv iota.
  change (String.eqb (String "[" (h +:+ "]")) "") with false. cbv iota.
  change (ConfigParser.open_option (ConfigParser.start ConfigParser.new))
    with (@None (string * string)).
  cbv iota.
  rewrite (match_section_header h Hne).
  change (PyStr.indent_of ("[" +:+ h +:+ "]" +:+ String PyStr.LF "")) with 0.
  assert (ConfigParser.has_section
            (ConfigParser.cfg (ConfigParser.start ConfigParser.new)) h = false) as ->.
  { apply bool_decide_eq_false_2. by intros [? ?]. }
  apply String.eqb_neq in Hdef. unfold ConfigParser.default_section. rewrite Hdef.
  done.
Qed.

Lemma first_char_not_space k :
  good_key k → ∃ c k', k = String c k' ∧ PyStr.isspace c = false
    ∧ Ascii.eqb c "#" = false ∧ Ascii.eqb c ";" = false ∧ Ascii.eqb c "[" = false.
Proof.
  intros [Hall Hfirst]. destruct k as [|c k']; [done|].
  exists c, k'. split; [done|].
  simpl in Hall. apply andb_true_iff in Hall as [Hc _].
  unfold key_char in Hc. apply andb_true_iff in Hc as [Hc _].
  apply negb_true_iff in Hc.
  apply orb_false_iff in Hfirst as [Hfirst ?].
  apply orb_false_iff in Hfirst as [? ?]. done.
Qed.

Lemma strip_option_line k v :
  good_key k → good_value v →
  PyStr.strip (option_line (k, v)) = k +:+ " = " +:+ v.
Proof.
  intros Hk [Hv Hvall].
  destruct (first_char_not_space k Hk) as (c & k' & -> & Hc & _).
  unfold option_line, PyStr.strip, PyStr.rstrip, PyStr.lstrip. cbn [fst snd].
  rewrite <- !append_assoc.
  rewrite (rstrip_with_drop PyStr.isspace _ (String PyStr.LF "")) by done.
  rewrite (rstrip_with_keep PyStr.isspace _ v Hv).
  - rewrite !append_cons. by apply lstrip_with_keep.
  - revert Hvall. apply forallb_impl. intros x. unfold value_char.
    by intros [? _]%andb_true_iff.
Qed.

Lemma match_option_line k v :
  good_key k → good_value v →
  ConfigParser.match_option (k +:+ " = " +:+ v) = Some (k, v).
Proof.
  intros [Hk Hfirst] [Hv Hvall]. unfold ConfigParser.match_option.
  change (k +:+ " = " +:+ v) with (k +:+ String " " (String "=" (String " " v))).
  rewrite <- (append_nil (String "=" _)), <- append_cons, <- append_assoc.
  rewrite (break_at_first ConfigParser.is_delimiter (k +:+ " ") "=" (String " " v)).
  - unfold PyStr.rstrip, PyStr.lstrip.
    rewrite (rstrip_with_drop PyStr.isspace k " ") by done.
    rewrite <- (append_nil k) at 1.
    destruct v as [|x v]; [done|].
    simpl in Hvall. apply andb_true_iff in Hvall as [Hx _].
    unfold value_char in Hx. apply andb_true_iff in Hx as [Hx _].
    apply negb_true_iff in Hx.
    destruct k as [|c k]; [done|].
    rewrite (rstrip_with_keep PyStr.isspace "" (String c k)); [| done |].
    + rewrite append_nil. cbn [PyStr.lstrip_with].
      change (PyStr.isspace " ") with true. cbv iota.
      by rewrite Hx.
    + revert Hk. apply forallb_impl. intros y. unfold key_char.
      by intros [? _]%andb_true_iff.
  - rewrite forallb_app. apply andb_true_iff. split; [|done].
    revert Hk. apply forallb_impl. intros y. unfold key_char.
    by intros [_ ?]%andb_true_iff.
  - done.
Qed.

Lemma rstrip_key k : good_key k → PyStr.rstrip k = k.
Proof.
  intros [Hk Hfirst]. destruct k as [|c k]; [done|].
  unfold PyStr.rstrip. rewrite <- (append_nil (String c k)).
  apply rstrip_with_keep; [done|].
  revert Hk. apply forallb_impl. intros y. unfold key_char.
  by intros [? _]%andb_true_iff.
Qed.

Lemma strip_value v : good_value v → PyStr.strip v = v.
Proof.
  intros [Hv Hall]. unfold PyStr.strip, PyStr.rstrip, PyStr.lstrip.
  rewrite <- (append_nil v) at 1.
  rewrite rstrip_with_keep; [|done|].
  - rewrite append_nil. destruct v as [|x v]; [done|].
    apply lstrip_with_keep.
    simpl in Hall. apply andb_true_iff in Hall as [Hx _].
    unfold value_char in Hx. apply andb_true_iff in Hx as [Hx _].
    by apply negb_true_iff.
  - revert Hall. apply forallb_impl. intros y. unfold value_char.
    by intros [? _]%andb_true_iff.
Qed.

Lemma match_section_other c s :
  Ascii.eqb c "[" = false → ConfigParser.match_section (String c s) = None.
Proof.
  intros Hc. unfold ConfigParser.match_section.
  destruct c as [[] [] [] [] [] [] [] []]; try done.
Qed.

Lemma startswith_other c x s :
  Ascii.eqb c x = false → PyStr.startswith (String c s) (String x "") = false.
Proof.
  intros Hc. unfold PyStr.startswith. simpl.
  destruct (ascii_dec x c) as [->|]; [|done]. by rewrite Ascii.eqb_refl in Hc.
Qed.

(** An option line of a simple configuration stores its pair in the
    open section. *)
Lemma step_option r h m k v lineno :
  ConfigParser.sectname r = Some h →
  ConfigParser.cfg r = ConfigParser.mk [(h, m)] ∅ →
  ConfigParser.indent_level r = 0 →
  (h, PyStr.lower k) ∉ ConfigParser.added_options r →
  good_key k → good_value v →
  ConfigParser.step r lineno (option_line (k, v))
  = Ok (ConfigParser.mk_reader
          (ConfigParser.mk [(h, <[PyStr.lower k := ConfigParser.Lines [v]]> m)] ∅)
          (Some h) (Some (PyStr.lower k)) 0
          (ConfigParser.added_sections r)
          ({[(h, PyStr.lower k)]} ∪ ConfigParser.added_options r)
          (ConfigParser.pending r)).
Proof.
  intros Hsect Hcfg Hindent Hnew Hk Hv. unfold ConfigParser.step.
  rewrite (strip_option_line k v Hk Hv).
  destruct (first_char_not_space k Hk) as (c & k' & Ek & Hc & Hhash & Hsemi & Hbr).
  assert (PyStr.indent_of (option_line (k, v)) = 0) as ->.
  { unfold option_line. cbn [fst snd]. rewrite Ek, append_cons. simpl. by rewrite Hc. }
  assert (∃ rest, k +:+ " = " +:+ v = String c rest) as [rest Erest].
  { rewrite Ek, append_cons. by eexists. }
  cbv zeta. rewrite Erest.
  rewrite (startswith_other c "#"), (startswith_other c ";") by done.
  cbn [orb]. cbv iota.
  change (String.eqb (String c rest) "") with false. cbv iota.
  rewrite (match_section_other c rest Hbr).
  assert (match ConfigParser.open_option r with
          | Some (s, o) =>
              if (ConfigParser.indent_level r <? 0)%nat
              then Some (ConfigParser.append_line s o (String c rest) r)
              else None
          | None => None
          end = None) as ->.
  { rewrite Hindent. by destruct (ConfigParser.open_option r) as [[??]|]. }
  rewrite Hsect, <- Erest, (match_option_line k v Hk Hv).
  rewrite (rstrip_key k Hk), (strip_value v Hv).
  unfold ConfigParser.optionxform.
  rewrite bool_decide_eq_false_2 by done.
  assert (String.eqb k "" = false) as -> by (by rewrite Ek).
  rewrite Hcfg. unfold ConfigParser.cursect_alter. simpl.
  by rewrite String.eqb_refl.
Qed.

Lemma read_lines_options h pairs :
  ∀ r m lineno,
    ConfigParser.sectname r = Some h →
    ConfigParser.cfg r = ConfigParser.mk [(h, m)] ∅ →
    ConfigParser.indent_level r = 0 →
    ConfigParser.pending r = [] →
    (∀ kv, kv ∈ pairs → (h, PyStr.lower kv.1) ∉ ConfigParser.added_options r) →
    NoDup (stored_keys pairs) →
    Forall good_pair pairs →
    ∃ r', ConfigParser.read_lines r lineno (option_line <$> pairs) = (r', None)
      ∧ ConfigParser.cfg r' = ConfigParser.mk [(h, store m pairs)] ∅
      ∧ ConfigParser.pending r' = [].
Proof.
  induction pairs as [|[k v] pairs IH]; intros r m lineno Hsect Hcfg Hind Hpend Hnew Hdup Hgood.
  - exists r. done.
  - apply Forall_cons in Hgood as [[Hk Hv] Hgood]. cbn [fst snd] in Hk, Hv.
    unfold stored_keys in Hdup. rewrite fmap_cons in Hdup.
    apply NoDup_cons in Hdup as [Hfresh Hdup]. cbn [fst] in Hfresh.
    rewrite fmap_cons. cbn [ConfigParser.read_lines].
    rewrite (step_option r h m k v lineno Hsect Hcfg Hind) by (try done; apply (Hnew (k, v)); by left).
    apply IH; try done.
    intros [k' v'] Hin. cbn [fst ConfigParser.added_options].
    rewrite elem_of_union, elem_of_singleton. intros [[= Heq]|Hold].
    + apply Hfresh. rewrite <- Heq. apply list_elem_of_fmap. by exists (k', v').
    + apply (Hnew (k', v')); [by right|done].
Qed.

Lemma option_line_no_LF k v :
  good_key k → good_value v → ∃ a, option_line (k, v) = a +:+ String PyStr.LF ""
    ∧ PyStr.contains_char PyStr.LF a = false.
Proof.
  intros [Hk _] [_ Hv]. exists (k +:+ " = " +:+ v). split.
  - unfold option_line. cbn [fst snd]. by rewrite !append_assoc.
  - rewrite !contains_char_app.
    rewrite (forallb_no_char key_char PyStr.LF k), (forallb_no_char value_char PyStr.LF v)
      by done. done.
Qed.

Lemma readlines_options pairs :
  Forall good_pair pairs →
  PyStr.readlines (foldr (λ kv acc, option_line kv +:+ acc) "" pairs)
  = option_line <$> pairs.
Proof.
  induction 1 as [|[k v] pairs [Hk Hv] _ IH]; [done|].
  cbn [foldr]. rewrite fmap_cons.
  destruct (option_line_no_LF k v Hk Hv) as (a & -> & Ha).
  rewrite append_assoc, append_cons, append_nil.
  by rewrite readlines_line, IH.
Qed.

(** What the parser holds after reading a simple configuration. *)
Lemma read_string_simple_config h pairs :
  good_header h → Forall good_pair pairs → NoDup (stored_keys pairs) →
  ConfigParser.read_string ConfigParser.new (simple_config h pairs)
  = (ConfigParser.mk [(h, ConfigParser.join_value <$> store ∅ pairs)] ∅, None).
Proof.
  intros Hh Hgood Hdup. unfold ConfigParser.read_string.
  assert (simple_config h pairs
          = ("[" +:+ h +:+ "]")
            +:+ String PyStr.LF (foldr (λ kv acc, option_line kv +:+ acc) "" pairs))
    as -> by (unfold simple_config; by rewrite !append_assoc).
  rewrite readlines_line.
  2:{ destruct Hh as (_ & _ & Hlf). rewrite !contains_char_app, Hlf. done. }
  rewrite readlines_options by done.
  cbn [ConfigParser.read_lines].
  rewrite !append_assoc.
  rewrite (step_header h 1 Hh).
  destruct (read_lines_options h pairs
              (ConfigParser.mk_reader (ConfigParser.mk [(h, ∅)] ∅) (Some h) None 0
                 ({[h]} ∪ ∅) ∅ []) ∅ 2)
    as (r' & -> & Hcfg & Hpend); try done.
  rewrite Hcfg, Hpend. unfold ConfigParser._join_multiline_values. simpl.
  by rewrite fmap_empty.
Qed.

Lemma store_fresh pairs : ∀ m key,
  key ∉ stored_keys pairs → store m pairs !! key = m !! key.
Proof.
  induction pairs as [|[k v] pairs IH]; intros m key Hkey; [done|].
  unfold stored_keys in Hkey. rewrite fmap_cons in Hkey. cbn [fst] in Hkey.
  apply not_elem_of_cons in Hkey as [Hne Hkey].
  unfold store. cbn [foldl]. fold (store (<[PyStr.lower k:=ConfigParser.Lines [v]]> m) pairs).
  rewrite IH by done. by rewrite lookup_insert_ne.
Qed.

Lemma store_lookup pairs : ∀ m k v,
  NoDup (stored_keys pairs) → (k, v) ∈ pairs →
  store m pairs !! PyStr.lower k = Some (ConfigParser.Lines [v]).
Proof.
  induction pairs as [|[k0 v0] pairs IH]; intros m k v Hdup Hin.
  - by apply elem_of_nil in Hin.
  - unfold stored_keys in Hdup. rewrite fmap_cons in Hdup.
    apply NoDup_cons in Hdup as [Hfresh Hdup]. cbn [fst] in Hfresh.
    unfold store. cbn [foldl].
    fold (store (<[PyStr.lower k0:=ConfigParser.Lines [v0]]> m) pairs).
    apply elem_of_cons in Hin as [[= -> ->]|Hin].
    + rewrite store_fresh by done. by rewrite lookup_insert_eq.
    + by apply IH.
Qed.

Lemma lower_idemp s : PyStr.lower (PyStr.lower s) = PyStr.lower s.
Proof.
  induction s as [|c s IH]; [done|]. simpl. rewrite IH. f_equal.
  destruct c as [[] [] [] [] [] [] [] []]; reflexivity.
Qed.

Lemma interpolate_plain map option section depth v :
  good_value v →
  ConfigParser._interpolate_some map option section (S depth) (ConfigParser.Text v) []
  = Ok [ConfigParser.Text v].
Proof.
  intros [Hv Hall]. cbn [ConfigParser._interpolate_some].
  rewrite break_at_none.
  2:{ revert Hall. apply forallb_impl. intros x. unfold value_char.
      by intros [_ ?]%andb_true_iff. }
  apply String.eqb_neq in Hv. by rewrite Hv.
Qed.

(** [parser.get] on a value that holds no percent sign. *)
Lemma get_plain c section d key v :
  assoc section (ConfigParser._sections c) = Some d →
  d !! PyStr.lower key = Some (ConfigParser.Text v) →
  good_value v →
  ConfigParser.get c section key = Ok v.
Proof.
  intros Hsec Hkey Hv. unfold ConfigParser.get, ConfigParser._unify_values.
  rewrite Hsec.
  unfold mbind, result_bind.
  unfold ConfigParser.chain_lookup, ConfigParser.optionxform.
  cbn [fst]. rewrite Hkey.
  rewrite (interpolate_plain _ _ _ 9 v Hv).
  cbn [ConfigParser.join_accum]. unfold fmap, result_fmap.
  by rewrite append_nil_r.
Qed.

Lemma rstrip_value v : good_value v → PyStr.rstrip v = v.
Proof.
  intros [Hv Hall]. unfold PyStr.rstrip. rewrite <- (append_nil v) at 1.
  rewrite rstrip_with_keep; [done|done|].
  revert Hall. apply forallb_impl. intros y. unfold value_char.
  by intros [? _]%andb_true_iff.
Qed.

(** The parser of a simple configuration answers for each of its keys,
    in any case, with the value written. *)
Lemma simple_config_answers h pairs key k v :
  good_header h → Forall good_pair pairs → NoDup (stored_keys pairs) →
  (k, v) ∈ pairs → PyStr.lower key = PyStr.lower k →
  let c := ConfigParser.mk [(h, ConfigParser.join_value <$> store ∅ pairs)] ∅ in
  ConfigParser.has_option c h key = true
  ∧ ConfigParser.proxy_getitem c h key = Ok v.
Proof.
  intros (Hne & Hdef & _) Hgood Hdup Hin Hkey c.
  assert (good_value v) as Hv.
  { rewrite Forall_forall in Hgood. by destruct (Hgood _ Hin). }
  assert ((ConfigParser.join_value <$> store ∅ pairs) !! PyStr.lower key
          = Some (ConfigParser.Text v)) as Hlook.
  { rewrite lookup_fmap, Hkey, (store_lookup pairs ∅ k v Hdup Hin). simpl.
    unfold PyStr.join_lines. simpl. by rewrite rstrip_value. }
  assert (ConfigParser.has_option c h key = true) as Hopt.
  { unfold ConfigParser.has_option, ConfigParser.default_section.
    apply String.eqb_neq in Hne, Hdef. rewrite Hne, Hdef. simpl.
    rewrite String.eqb_refl. unfold ConfigParser.has_key, ConfigParser.optionxform.
    rewrite Hlook. rewrite bool_decide_eq_true_2 by by eexists. done. }
  split; [done|]. unfold ConfigParser.proxy_getitem. rewrite Hopt.
  eapply get_plain; [|exact Hlook|done]. simpl. by rewrite String.eqb_refl.
Qed.

(** The lookup on the parser of a simple configuration. *)
Lemma simple_config_lookup s h pairs section key k v :
  good_header h → Forall good_pair pairs → NoDup (stored_keys pairs) →
  (k, v) ∈ pairs → PyStr.lower key = PyStr.lower k →
  config s = Some (ConfigParser.mk [(h, ConfigParser.join_value <$> store ∅ pairs)] ∅) →
  _get_config_value s section key = Ok (Some v).
Proof.
  intros Hh Hgood Hdup Hin Hkey Hconfig.
  set (c := ConfigParser.mk [(h, ConfigParser.join_value <$> store ∅ pairs)] ∅) in *.
  destruct (simple_config_answers h pairs key k v Hh Hgood Hdup Hin Hkey)
    as [Hopt Hget].
  fold c in Hopt, Hget.
  unfold _get_config_value. rewrite Hconfig.
  change (ConfigParser.len c =? 0)%nat with false. cbv iota.
  unfold ConfigParser.proxy_contains.
  assert (ConfigParser.has_section c "DEFAULT" = false) as ->.
  { destruct Hh as (_ & Hdef & _). apply String.eqb_neq in Hdef.
    unfold ConfigParser.has_section. simpl. rewrite Hdef.
    apply bool_decide_eq_false_2. by intros [? ?]. }
  cbn [andb].
  destruct (String.eqb h section) eqn:Hsec.
  - apply String.eqb_eq in Hsec as <-.
    assert (ConfigParser.has_section c h = true) as ->.
    { unfold ConfigParser.has_section. simpl. rewrite String.eqb_refl.
      apply bool_decide_eq_true_2. by eexists. }
    by rewrite Hopt, Hget.
  - assert (ConfigParser.has_section c section = false) as ->.
    { unfold ConfigParser.has_section. simpl. rewrite Hsec.
      apply bool_decide_eq_false_2. by intros [? ?]. }
    cbn [andb]. change (ConfigParser.sections c) with [h].
    cbn [first_section_with]. unfold ConfigParser.proxy_contains.
    by rewrite Hopt, Hget.
Qed.

(** X15: a simple configuration is read as written.  The configuration
    entry of the archive is an ASCII text of one section: a header line
    and one line [key = value] for each pair, with keys and values free of white
    space, keys without delimiter and not starting like a comment or a
    header, values not empty and without percent sign, and no key twice
    up to case.  Then the extraction appends no error and no warning, and
    the lookup of a key of the text, written in any case and asked of any
    section, returns the value written for it. *)
Theorem X15_simple_config_read_as_written
    fs s members config_file h pairs section key k v :
  open_zip fs s = Ok members →
  config_entry (namelist members) = Some config_file →
  read_member members config_file = Ok (simple_config h pairs) →
  PyStr.isascii (simple_config h pairs) = true →
  good_header h →
  Forall good_pair pairs →
  NoDup (stored_keys pairs) →
  (k, v) ∈ pairs →
  PyStr.lower key = PyStr.lower k →
  let s' := _extract_config fs s in
  errors s' = errors s
  ∧ warnings s' = warnings s
  ∧ _get_config_value s' section key = Ok (Some v).
Proof.
  intros Hopen Hentry Hread _ Hh Hgood Hdup Hin Hkey s'.
  set (c := ConfigParser.mk [(h, ConfigParser.join_value <$> store ∅ pairs)] ∅).
  assert (s' = set_config c s) as ->.
  { unfold s', _extract_config. rewrite Hopen. unfold config_entry in Hentry.
    destruct (List.filter _ (namelist members)) as [|f l] eqn:Hfilter in Hentry |- *;
      [done|].
    injection Hentry as ->. rewrite Hread.
    by rewrite (read_string_simple_config h pairs Hh Hgood Hdup). }
  split; [done|]. split; [done|].
  by apply (simple_config_lookup _ h pairs section key k v).
Qed.

(** The theorem on the configuration of the test script, asked for
    [NUMFAST] under a section the text does not have. *)
Lemma X15_simple_config_read_as_written_witness :
  let fs := create_test_sl1s "test_valid.sl1s" false (λ _, Missing) in
  let s' := _extract_config fs (__init__ "test_valid.sl1s") in
  errors s' = errors (__init__ "test_valid.sl1s")
  ∧ warnings s' = warnings (__init__ "test_valid.sl1s")
  ∧ _get_config_value s' "settings" "NUMFAST" = Ok (Some "5").
Proof.
  intros fs.
  eapply (X15_simple_config_read_as_written fs (__init__ "test_valid.sl1s") _
            "config.ini" "layerRenderParams"
            [("jobDir", "my_print"); ("numFast", "5"); ("exposureTime", "10")]
            "settings" "NUMFAST" "numFast" "5").
  - reflexivity.
  - vm_compute. reflexivity.
  - vm_compute. reflexivity.
  - reflexivity.
  - repeat split; vm_compute; done.
  - repeat constructor; vm_compute; done.
  - apply (bool_decide_unpack _). vm_compute. exact I.
  - right. left.
  - vm_compute. reflexivity.
Defined.

(** ** Archives made like that of the test script *)

Lemma int_body_digits s : ∀ acc after,
  PyStr.forallb PyStr.isdigit s = true → s ≠ "" ∨ after = true →
  PyStr.int_body acc after s = Some (PyStr.digits_value acc s).
Proof.
  induction s as [|c s IH]; intros acc after Hall Hne.
  - destruct Hne as [?| ->]; done.
  - simpl in Hall. apply andb_true_iff in Hall as [Hc Hall].
    cbn [PyStr.int_body PyStr.digits_value]. rewrite Hc. apply IH; auto.
Qed.

Lemma count_if_length (p : ascii → bool) s :
  (PyStr.count_if p s ≤ Z.of_nat (String.length s))%Z.
Proof.
  induction s as [|c s IH]; [done|].
  cbn [PyStr.count_if String.length]. destruct (p c); lia.
Qed.

(** [int] of a run of decimal digits within the limit is their value. *)
Lemma int_of_digits s :
  s ≠ "" → PyStr.forallb PyStr.isdigit s = true →
  String.length s ≤ 4300 →
  PyStr.int s = Some (PyStr.digits_value 0 s).
Proof.
  intros Hne Hall Hlen.
  assert (∀ r, r = s → PyStr.int_digits r = PyStr.int_body 0 false r) as Hlimit.
  { intros r ->. unfold PyStr.int_digits, PyStr.max_str_digits.
    pose proof (count_if_length PyStr.isdigit s).
    destruct (Z.ltb_spec 4300 (PyStr.count_if PyStr.isdigit s)); [lia|done]. }
  unfold PyStr.int.
  assert (PyStr.forallb (λ c, negb (PyStr.isspace_int c)) s = true) as Hsp.
  { revert Hall. apply forallb_impl. intros c Hc.
    destruct c as [[] [] [] [] [] [] [] []]; done. }
  rewrite <- (append_nil s) at 1. rewrite rstrip_with_keep by done.
  rewrite append_nil. destruct s as [|c s]; [done|].
  simpl in Hsp. apply andb_true_iff in Hsp as [Hc _]. apply negb_true_iff in Hc.
  rewrite lstrip_with_keep by done.
  pose proof (int_body_digits (String c s) 0 false Hall (or_introl Hne)) as Hint.
  rewrite <- (Hlimit _ eq_refl) in Hint.
  simpl in Hall. apply andb_true_iff in Hall as [Hd _].
  destruct c as [[] [] [] [] [] [] [] []]; try discriminate Hd; exact Hint.
Qed.

Lemma pretty_N_length (x : N) :
  (x < 1000000)%N → String.length (pretty x) ≤ 6.
Proof.
  intros Hx. unfold pretty, pretty_N. case_decide; [simpl; lia|].
  etrans; [apply (pretty_N_go_length 6)|simpl; lia].
  change (10 ^ N.of_nat 6)%N with 1000000%N. lia.
Qed.

Lemma pretty_N_not_empty (x : N) : pretty x ≠ "".
Proof.
  unfold pretty, pretty_N. case_decide as Hx; [done|].
  rewrite pretty_N_go_step by lia.
  rewrite (pretty_N_go_app (N.to_nat x)).
  - by apply append_not_nil.
  - rewrite N2Nat.id.
    apply N.le_lt_trans with x; [apply N.Div0.div_le_upper_bound; lia|].
    apply N.pow_gt_lin_r. lia.
Qed.

Lemma digits_good_value s :
  s ≠ "" → PyStr.forallb PyStr.isdigit s = true → good_value s.
Proof.
  intros Hne Hall. split; [done|].
  revert Hall. apply forallb_impl. intros c Hc.
  destruct c as [[] [] [] [] [] [] [] []]; done.
Qed.

Lemma filter_all {A} (p : A → bool) (l : list A) :
  Forall (λ x, p x = true) l → List.filter p l = l.
Proof. induction 1 as [|x l Hx _ IH]; simpl; [done|]. by rewrite Hx, IH. Qed.

Lemma existsb_none {A} (p : A → bool) (l : list A) :
  Forall (λ x, p x = false) l → existsb p l = false.
Proof. induction 1 as [|x l Hx _ IH]; simpl; [done|]. by rewrite Hx, IH. Qed.

Section Layers.
Variables (b : string) (n : Z).
Hypothesis Hb : b ≠ "".
Hypothesis Hslash : PyStr.contains_char "/" b = false.
Hypothesis Hlf : PyStr.contains_char PyStr.LF b = false.
Hypothesis Hn : (0 < n ≤ 100000)%Z.

Lemma layer_names_spec :
  Forall (λ f, _is_layer_image f = true
               ∧ ∃ d, LayerPattern.search (PyStr.basename f) = Some (b, d))
    (layer_name b <$> seqZ 0 n).
Proof.
  apply Forall_fmap, Forall_forall. intros i Hi%elem_of_seqZ.
  destruct (generated_name_round_trip b i "png") as (Himg & Hs & _);
    try done; [lia|].
  split; [done|]. by eexists.
Qed.

Lemma layer_names_numbers :
  parsed_numbers (layer_name b <$> seqZ 0 n) = seqZ 0 n.
Proof.
  assert (∀ l, Forall (λ i, 0 ≤ i ≤ 99999)%Z l →
               parsed_numbers (layer_name b <$> l) = l) as Hgen.
  { induction 1 as [|i l Hi _ IH]; [done|].
    destruct (generated_name_round_trip b i "png") as (_ & _ & _ & Hp); try done.
    rewrite fmap_cons. unfold parsed_numbers in *. cbn [omap list_omap] in Hp |- *.
    destruct (LayerPattern.search _) as [[? d]|]; [|done].
    injection Hp as ->. by rewrite IH. }
  apply Hgen, Forall_forall. intros i Hi%elem_of_seqZ. lia.
Qed.

Lemma layer_names_length : length (layer_name b <$> seqZ 0 n) = Z.to_nat n.
Proof. by rewrite length_fmap, length_seqZ. Qed.

End Layers.

Lemma namelist_job_archive h pairs b n :
  namelist (job_archive h pairs b n)
  = "config.ini" :: "prusaslicer.ini" :: (layer_name b <$> seqZ 0 n).
Proof.
  unfold namelist, job_archive. rewrite fmap_app, <- list_fmap_compose. done.
Qed.

(** X16: an archive made like that of the test script passes.  The
    archive holds [config.ini] with a simple configuration in ASCII, then
    [prusaslicer.ini], then [n] layer images named by the ASCII base
    name [b] and the indices 0 to [n - 1] in five digits, with [n]
    between 1 and 100000.  The configuration holds the pair [jobDir] with a value that
    agrees with [b] after the stripping, and the pair [numFast] with [n]
    in decimal.  Then the run from a fresh object ends without error and
    without warning, the verdict is a pass, and the layer images found
    are the [n] written. *)
Theorem X16_archive_like_the_test_passes fs set_iter path h pairs b n j :
  fs path = Archive (job_archive h pairs b n) →
  PyStr.isascii (simple_config h pairs) = true →
  PyStr.isascii b = true →
  good_header h →
  Forall good_pair pairs →
  NoDup (stored_keys pairs) →
  ("jobDir", j) ∈ pairs →
  ("numFast", pretty (Z.to_N n)) ∈ pairs →
  b ≠ "" →
  PyStr.contains_char "/" b = false →
  PyStr.contains_char PyStr.LF b = false →
  (0 < n ≤ 100000)%Z →
  strip_separators b = strip_separators j →
  let r := validate_sl1s_file fs set_iter (__init__ path) in
  errors r = [] ∧ warnings r = []
  ∧ image_files r = layer_name b <$> seqZ 0 n
  ∧ _generate_report r = true.
Proof.
  intros Hfs _ _ Hh Hgood Hdup Hj Hnum Hb Hslash Hlf Hn Hstrip r.
  set (members := job_archive h pairs b n) in *.
  set (layers := layer_name b <$> seqZ 0 n).
  pose proof (layer_names_spec b n Hb Hslash Hlf Hn) as Hspec. fold layers in Hspec.
  pose proof (layer_names_numbers b n Hb Hslash Hlf Hn) as Hnumbers.
  fold layers in Hnumbers.
  pose proof (layer_names_length b n) as Hlen. fold layers in Hlen.
  assert (namelist members = "config.ini" :: "prusaslicer.ini" :: layers) as Hnames
    by apply namelist_job_archive.
  assert (List.filter _is_layer_image (namelist members) = layers) as Himages.
  { rewrite Hnames. cbn [List.filter].
    change (_is_layer_image "config.ini") with false.
    change (_is_layer_image "prusaslicer.ini") with false. cbv iota.
    apply filter_all. eapply Forall_impl; [exact Hspec|]. by intros f [? _]. }
  assert ("config.ini" ∉ "prusaslicer.ini" :: layers) as Hfresh.
  { apply not_elem_of_cons. split; [done|]. intros Hin.
    rewrite Forall_forall in Hspec. by destruct (Hspec _ Hin) as [? _]. }
  set (cp := ConfigParser.mk [(h, ConfigParser.join_value <$> store ∅ pairs)] ∅).
  assert (existsb in_subfolder (namelist members) = false) as G1.
  { rewrite Hnames. cbn [existsb].
    change (in_subfolder "config.ini") with false.
    change (in_subfolder "prusaslicer.ini") with false. cbn [orb].
    apply existsb_none. eapply Forall_impl; [exact Hspec|].
    intros f [Hf _]. unfold in_subfolder. unfold _is_layer_image in Hf.
    apply andb_true_iff in Hf as [_ Hf]. apply negb_true_iff in Hf. by rewrite Hf. }
  assert (has_required (namelist members) "prusaslicer.ini" = true) as G2.
  { rewrite Hnames. unfold has_required. cbn [existsb].
    change (PyStr.endswith "prusaslicer.ini" "prusaslicer.ini") with true.
    change (PyStr.startswith "prusaslicer.ini" "thumbnail/") with false.
    cbn [andb negb]. by rewrite orb_true_r. }
  assert (config_entry (namelist members) = Some "config.ini") as G3.
  { rewrite Hnames. unfold config_entry. cbn [List.filter].
    change (PyStr.endswith "config.ini" "config.ini") with true.
    change (PyStr.startswith "config.ini" "thumbnail/") with false.
    done. }
  assert (read_member members "config.ini" = Ok (simple_config h pairs)) as G4.
  { unfold members, job_archive. cbn [app read_member].
    rewrite String.eqb_refl.
    change (namelist (("prusaslicer.ini", Ok "[settings]")
                      :: ((λ i, (layer_name b i, Ok "fake image data")) <$> seqZ 0 n)))
      with ("prusaslicer.ini"
            :: namelist ((λ i, (layer_name b i, Ok "fake image data")) <$> seqZ 0 n)).
    unfold namelist. rewrite <- list_fmap_compose.
    change (fst ∘ (λ i, (layer_name b i, Ok "fake image data"))) with (layer_name b).
    fold layers. by rewrite bool_decide_eq_false_2. }
  assert (ConfigParser.read_string ConfigParser.new (simple_config h pairs) = (cp, None))
    as G5 by by apply read_string_simple_config.
  assert (List.filter _is_layer_image (namelist members) ≠ []) as G6.
  { rewrite Himages. intros Hnil. rewrite Hnil in Hlen. simpl in Hlen. lia. }
  assert (Forall (λ f, ∃ d, LayerPattern.search (PyStr.basename f) = Some (b, d))
            (List.filter _is_layer_image (namelist members))) as G7.
  { rewrite Himages. eapply Forall_impl; [exact Hspec|]. by intros f [_ ?]. }
  assert (parsed_numbers (List.filter _is_layer_image (namelist members))
          ≡ₚ seqZ 0 (Z.of_nat (length (List.filter _is_layer_image (namelist members)))))
    as G8.
  { rewrite Himages, Hnumbers, Hlen. by rewrite Z2Nat.id by lia. }
  assert (_get_config_value (set_config cp (__init__ path)) "layerRenderParams" "jobDir"
          = Ok (Some j)) as G9
    by by apply (simple_config_lookup _ h pairs _ "jobDir" "jobDir" j).
  assert (_get_config_value (set_config cp (__init__ path)) "layerRenderParams" "numFast"
          = Ok (Some (pretty (Z.to_N n)))) as G10
    by by apply (simple_config_lookup _ h pairs _ "numFast" "numFast"
                   (pretty (Z.to_N n))).
  assert (∀ v, Some (pretty (Z.to_N n)) = Some v → v ≠ "" →
            PyStr.int v
            = Some (Z.of_nat (length (List.filter _is_layer_image (namelist members)))))
    as G11.
  { intros v [= <-] _. rewrite Himages, Hlen, Z2Nat.id by lia.
    destruct (pretty_N_value (Z.to_N n)) as [Hdig Hval].
    rewrite int_of_digits;
      [|apply pretty_N_not_empty|done
       |pose proof (pretty_N_length (Z.to_N n)); lia].
    rewrite Hval. f_equal. lia. }
  destruct (good_order_passes fs set_iter path members "config.ini"
              (simple_config h pairs) cp b (Some j) (Some (pretty (Z.to_N n)))
              Hfs G1 G2 G3 G4 G5 G6 G7 G8 G9 (λ j' Hj' _, eq_trans Hstrip
                 (f_equal strip_separators (Some_inj _ _ Hj'))) G10 G11)
    as (He & Hw & Hi & _ & Hrep).
  rewrite Himages in Hi. done.
Qed.

(** The theorem on the valid archive of the test script. *)
Lemma X16_archive_like_the_test_passes_witness :
  let fs := create_test_sl1s "test_valid.sl1s" false (λ _, Missing) in
  let r := validate_sl1s_file fs elements (__init__ "test_valid.sl1s") in
  errors r = [] ∧ warnings r = []
  ∧ image_files r = layer_name "my_print_" <$> seqZ 0 5
  ∧ _generate_report r = true.
Proof.
  intros fs.
  apply (X16_archive_like_the_test_passes fs elements "test_valid.sl1s"
           "layerRenderParams"
           [("jobDir", "my_print"); ("numFast", "5"); ("exposureTime", "10")]
           "my_print_" 5 "my_print").
  - reflexivity.
  - reflexivity.
  - reflexivity.
  - repeat split; vm_compute; done.
  - repeat constructor; vm_compute; done.
  - apply (bool_decide_unpack _). vm_compute. exact I.
  - left.
  - right. left.
  - done.
  - reflexivity.
  - reflexivity.
  - lia.
  - vm_compute. reflexivity.
Defined.

(** ** The lookup searches every section *)

Lemma assoc_Some_elem {V} k (l : list (string * V)) v :
  assoc k l = Some v → k ∈ fst <$> l.
Proof.
  induction l as [|[k' v'] l IH]; simpl; [done|].
  destruct (String.eqb k' k) eqn:E.
  - apply String.eqb_eq in E as ->. intros _. by left.
  - intros H. right. by apply IH.
Qed.

Lemma has_section_elem c section :
  ConfigParser.has_section c section = true → section ∈ ConfigParser.sections c.
Proof.
  unfold ConfigParser.has_section, ConfigParser.sections.
  intros [v Hv]%bool_decide_eq_true. by eapply assoc_Some_elem.
Qed.

Lemma first_section_with_spec c key secs :
  match first_section_with c key secs with
  | Some sec => sec ∈ secs ∧ ConfigParser.proxy_contains c sec key = true
  | None => ∀ sec, sec ∈ secs → ConfigParser.proxy_contains c sec key = false
  end.
Proof.
  induction secs as [|sec secs IH]; simpl.
  - intros sec Hin. by apply elem_of_nil in Hin.
  - destruct (ConfigParser.proxy_contains c sec key) eqn:E.
    + split; [by left|done].
    + destruct (first_section_with c key secs) as [sec'|].
      * destruct IH as [Hin Hc]. split; [by right|done].
      * intros sec' [->|Hin]%elem_of_cons; [done|by apply IH].
Qed.

Lemma fmap_Some_not_None (m : result string) : Some <$> m ≠ Ok None.
Proof. by destruct m. Qed.

(** X17: the lookup searches every section.  When a parser is in place,
    the lookup answers "not found" exactly when no section of the parser
    offers the key, the keys of the default section counting for every
    section: the section asked for decides which value is preferred, never
    whether one is found. *)
Theorem X17_lookup_searches_every_section s c section key :
  config s = Some c →
  _get_config_value s section key = Ok None
  ↔ ∀ sec, sec ∈ ConfigParser.sections c → ConfigParser.has_option c sec key = false.
Proof.
  intros Hc. unfold _get_config_value. rewrite Hc.
  assert ((ConfigParser.len c =? 0)%nat = false) as ->
    by (apply Nat.eqb_neq; unfold ConfigParser.len; lia).
  assert (∀ sec, ConfigParser.has_section c sec
                 && ConfigParser.proxy_contains c sec key = true →
            ¬ ∀ sec, sec ∈ ConfigParser.sections c →
                     ConfigParser.has_option c sec key = false) as Hfound.
  { intros sec [Hsec Hopt]%andb_true_iff Hall.
    apply has_section_elem, Hall in Hsec.
    unfold ConfigParser.proxy_contains in Hopt. congruence. }
  destruct (ConfigParser.has_section c section && _) eqn:H1.
  { split; [by intros ?%fmap_Some_not_None|by intros ?%(Hfound section)]. }
  destruct (ConfigParser.has_section c "DEFAULT" && _) eqn:H2.
  { split; [by intros ?%fmap_Some_not_None|by intros ?%(Hfound "DEFAULT")]. }
  pose proof (first_section_with_spec c key (ConfigParser.sections c)) as H3.
  destruct (first_section_with c key (ConfigParser.sections c)) as [sec|].
  - destruct H3 as [Hin Hopt]. split; [by intros ?%fmap_Some_not_None|].
    intros Hall. apply Hall in Hin. unfold ConfigParser.proxy_contains in Hopt.
    congruence.
  - done.
Qed.

(** The theorem on the sample configuration, asked for a key it does not
    hold. *)
Lemma X17_lookup_searches_every_section_witness :
  let c := (ConfigParser.read_string ConfigParser.new
              (Samples.text Samples.sectioned_config)).1 in
  _get_config_value (set_config c (__init__ "job.sl1s")) "layerRenderParams" "numFast"
  = Ok None
  ↔ ∀ sec, sec ∈ ConfigParser.sections c → ConfigParser.has_option c sec "numFast" = false.
Proof.
  intros c.
  apply (X17_lookup_searches_every_section (set_config c (__init__ "job.sl1s")) c).
  reflexivity.
Defined.

(** ** The second read of the configuration *)

Lemma step_in_section r lineno line :
  is_Some (ConfigParser.sectname r) →
  match ConfigParser.step r lineno line with
  | Ok r' => is_Some (ConfigParser.sectname r')
  | Raise e => is_missing_header e = false
  end.
Proof.
  intros [s Hs]. unfold ConfigParser.step. cbv zeta.
  destruct (String.eqb _ "").
  { destruct (ConfigParser.open_option r) as [[? ?]|]; [|by rewrite Hs].
    destruct (_ || _); simpl; by rewrite Hs. }
  destruct (match ConfigParser.open_option r with Some _ => _ | None => _ end)
    as [r'|] eqn:Hcont.
  { destruct (ConfigParser.open_option r) as [[? ?]|]; [|done].
    destruct (_ <? _)%nat; [|done]. injection Hcont as <-. simpl. by rewrite Hs. }
  destruct (ConfigParser.match_section _) as [header|].
  { destruct (ConfigParser.has_section _ _).
    - by destruct (bool_decide _).
    - by destruct (String.eqb header _). }
  rewrite Hs.
  destruct (ConfigParser.match_option _) as [[o v]|]; [|done].
  by destruct (bool_decide _).
Qed.

Lemma read_lines_in_section ls : ∀ r lineno,
  is_Some (ConfigParser.sectname r) →
  match (ConfigParser.read_lines r lineno ls).2 with
  | Some e => is_missing_header e = false
  | None => True
  end.
Proof.
  induction ls as [|l ls IH]; intros r lineno Hr; [done|].
  cbn [ConfigParser.read_lines].
  pose proof (step_in_section r lineno l Hr) as Hstep.
  destruct (ConfigParser.step r lineno l) as [r'|e]; [by apply IH|done].
Qed.

(** The read of the wrapped text never stops at a missing header. *)
Lemma read_string_wrapped content :
  match (ConfigParser.read_string ConfigParser.new
           ("[DEFAULT]" +:+ String PyStr.LF "" +:+ content)).2 with
  | Some e => is_missing_header e = false
  | None => True
  end.
Proof.
  unfold ConfigParser.read_string. rewrite readlines_wrapped.
  cbn [ConfigParser.read_lines].
  change (ConfigParser.step (ConfigParser.start ConfigParser.new) 1
            ("[DEFAULT]" +:+ String PyStr.LF ""))
    with (Ok (ConfigParser.mk_reader ConfigParser.new (Some "DEFAULT") None 0 ∅ ∅ [])).
  cbv beta iota.
  pose proof (read_lines_in_section (PyStr.readlines content)
                (ConfigParser.mk_reader ConfigParser.new (Some "DEFAULT") None 0 ∅ ∅ [])
                2 (mk_is_Some _ _ eq_refl)) as H.
  destruct (ConfigParser.read_lines _ 2 _) as [r [e|]]; simpl in *; [done|].
  by destruct (ConfigParser.pending r).
Qed.

(** X18: once the configuration entry has been read, the extraction
    always leaves a parser in place and appends at most one error, and
    that error is never the one about a missing section header: the
    second read, of the text behind a [DEFAULT] header, cannot fail that
    way. *)
Theorem X18_no_missing_header_error fs s members config_file content :
  open_zip fs s = Ok members →
  config_entry (namelist members) = Some config_file →
  read_member members config_file = Ok content →
  let s' := _extract_config fs s in
  is_Some (config s')
  ∧ warnings s' = warnings s
  ∧ (errors s' = errors s
     ∨ ∃ e, errors s' = errors s ++ [ErrorReadingConfig e]
         ∧ is_missing_header e = false).
Proof.
  intros Hopen Hentry Hread s'. unfold s', _extract_config. rewrite Hopen.
  unfold config_entry in Hentry.
  destruct (List.filter _ (namelist members)) as [|f l] eqn:Hfilter in Hentry |- *;
    [done|].
  injection Hentry as ->. rewrite Hread.
  destruct (ConfigParser.read_string ConfigParser.new content) as [c [e|]];
    [|split; [by eexists|]; split; [done|]; by left].
  pose proof (read_string_wrapped content) as Hw.
  destruct e;
    try (split; [by eexists|]; split; [done|]; right; eexists; by split).
  destruct (ConfigParser.read_string ConfigParser.new _) as [c' [e'|]];
    simpl in Hw.
  - split; [by eexists|]. split; [done|]. right. by exists e'.
  - split; [by eexists|]. split; [done|]. by left.
Qed.

(** The theorem on a configuration whose first read stops at a missing
    header and whose second read ends with a parsing error. *)
Lemma X18_no_missing_header_error_witness :
  let fs := Samples.everywhere (Samples.job Samples.broken_config) in
  let s' := _extract_config fs (__init__ "job.sl1s") in
  is_Some (config s')
  ∧ warnings s' = warnings (__init__ "job.sl1s")
  ∧ (errors s' = errors (__init__ "job.sl1s")
     ∨ ∃ e, errors s' = errors (__init__ "job.sl1s") ++ [ErrorReadingConfig e]
         ∧ is_missing_header e = false).
Proof.
  intros fs.
  eapply (X18_no_missing_header_error fs (__init__ "job.sl1s") _ "config.ini").
  - reflexivity.
  - vm_compute. reflexivity.
  - vm_compute. reflexivity.
Defined.
